(** * tuple-einsum: the runtime of the einsum-tuple language and the
      opcheck instrumentation wrapper

    A shallow embedding of [runtime.py] and [opcheck.py], and the
    properties of the specification checked against it.

    Conventions of the embedding.
    - A Python [int] is a [Z]; a [str] is a [string] (code points below
      256); a [list] is a [list]; a [dict] whose insertion order is
      observed is an association list.
    - A call that may raise returns a [Res]; code that mutates objects
      threads the store explicitly and keeps the mutations made before an
      exception was raised.
    - [Shape] objects live in a store ([list Shape]) and are named by their
      address, so that two index groups can hold the same [Shape].
    - The collaborators that are not part of the two files (the grammar,
      the AST nodes, the schema, the wrapped operation) are interfaces
      (type classes); the model records every call made to them in a
      trace.
    - The tensor library is modelled on its integer and boolean element
      types (integer arithmetic wraps around); its floating-point
      arithmetic is an interface. *)

From Stdlib Require Import ZArith Lia Bool Ascii String.
From Stdlib Require SpecFloat.
From stdpp Require Import base list list_numbers strings.

(** * Python results *)

Inductive PyExn : Type :=
| RuntimeError (msg : string)
| AttributeError (attr : string)
| TypeError (msg : string)
| ValueError (msg : string)
| IndexError (msg : string)
| InvalidArgumentError (msg : string)
| OverflowError (msg : string)
| StopIteration
| OtherError (tag : string).

Inductive Res (A : Type) : Type :=
| Ok (a : A)
| Raise (e : PyExn).
Arguments Ok {A} a.
Arguments Raise {A} e.

Definition res_bind {A B} (m : Res A) (k : A -> Res B) : Res B :=
  match m with
  | Ok a => k a
  | Raise e => Raise e
  end.

(** Stateful, fallible computations over a store [S]: the store survives an
    exception. *)
Definition M (S A : Type) : Type := S -> Res A * S.

Definition ret {S A} (a : A) : M S A := fun s => (Ok a, s).
Definition raise {S A} (e : PyExn) : M S A := fun s => (Raise e, s).
Definition bind {S A B} (m : M S A) (k : A -> M S B) : M S B :=
  fun s => match m s with
           | (Ok a, s') => k a s'
           | (Raise e, s') => (Raise e, s')
           end.
Definition modify {S} (f : S -> S) : M S unit := fun s => (Ok tt, f s).

Declare Scope py_scope.
Delimit Scope py_scope with py.
Notation "'let*' x ':=' m 'in' k" := (bind m (fun x => k))
  (at level 10, x name, m at level 100, k at level 200, only parsing) : py_scope.

(** [for x in xs: body x] *)
Fixpoint for_each {S A} (body : A -> M S unit) (xs : list A) : M S unit :=
  match xs with
  | [] => ret tt
  | x :: xs' => bind (body x) (fun _ => for_each body xs')
  end.

(** [[ f x for x in xs ]] *)
Fixpoint list_comp {S A B} (f : A -> M S B) (xs : list A) : M S (list B) :=
  match xs with
  | [] => ret []
  | x :: xs' =>
      bind (f x) (fun y => bind (list_comp f xs') (fun ys => ret (y :: ys)))
  end.

(** [all(f x for x in xs)]: stops at the first falsy value. *)
Fixpoint py_all {S A} (f : A -> M S bool) (xs : list A) : M S bool :=
  match xs with
  | [] => ret true
  | x :: xs' => bind (f x) (fun b => if b then py_all f xs' else ret false)
  end.

(** [l[ind] = x] on a Python list: negative indices count from the end. *)
Definition py_setitem {A} (l : list A) (ind : Z) (x : A) : Res (list A) :=
  let len := Z.of_nat (length l) in
  if ((0 <=? ind) && (ind <? len))%Z then Ok (<[Z.to_nat ind := x]> l)
  else if ((- len <=? ind) && (ind <? 0))%Z
       then Ok (<[Z.to_nat (len + ind) := x]> l)
       else Raise (IndexError "list assignment index out of range").

(** [l[ind]] on a Python list. *)
Definition py_getitem {A} (l : list A) (ind : Z) : Res A :=
  let len := Z.of_nat (length l) in
  let pos := if (0 <=? ind)%Z then ind else (len + ind)%Z in
  if (0 <=? pos)%Z
  then match l !! Z.to_nat pos with
       | Some x => Ok x
       | None => Raise (IndexError "list index out of range")
       end
  else Raise (IndexError "list index out of range").

(** * numpy: [np.prod(..., dtype=np.int32)] and [np.ndindex] *)

(** The value of a 32-bit signed integer after wrap-around. *)
Definition wrap32 (z : Z) : Z := ((z + 2 ^ 31) mod 2 ^ 32 - 2 ^ 31)%Z.

(** An element that numpy stores in a 64-bit integer, signed
    ([-2^63 <= d < 2^63]) or unsigned ([0 <= d < 2^64]). *)
Definition fits_64_bits (d : Z) : bool :=
  ((- 2 ^ 63 <=? d) && (d <? 2 ^ 64))%Z.

(** [np.prod(l, dtype=np.int32)] on a list of Python integers.  The list
    is first converted to an array; its elements are then cast to [int32]
    and multiplied in [int32], and the product of no element is 1.  A
    Python integer beyond 64 bits makes the array one of objects, whose
    cast raises [OverflowError].  (The properties below are stated for
    elements of the signed 64-bit range, where the array is an [int64]
    one; a list that mixes negative elements with elements of [2^63] or
    more converts to a floating array, which the model does not
    follow.) *)
Definition np_prod_int32 (l : list Z) : Res Z :=
  if forallb fits_64_bits l
  then Ok (fold_left (fun acc d => wrap32 (acc * wrap32 d)) l 1%Z)
  else Raise (OverflowError "Python int too large to convert to C long").

(** The exact product, for comparison. *)
Definition product (l : list Z) : Z := fold_right Z.mul 1%Z l.

(** The tuples [np.ndindex] produces, in the order it produces
    them: the last axis varies fastest. *)
Fixpoint ndindex_list (dims : list Z) : list (list Z) :=
  match dims with
  | [] => [[]]
  | d :: ds =>
      concat ((fun i => cons i <$> ndindex_list ds) <$> seqZ 0 d)
  end.

(** [np.ndindex]: negative dimensions are refused; the iterator is
    modelled by the tuples it has yet to produce. *)
Definition np_ndindex (dims : list Z) : Res (list (list Z)) :=
  if forallb (fun d => (0 <=? d)%Z) dims
  then Ok (ndindex_list dims)
  else Raise (ValueError "negative dimensions are not allowed").

(** [np.unravel_index(i, dims)] in C order: the reference for row-major
    order. *)
Fixpoint unravel (dims : list Z) (i : Z) : list Z :=
  match dims with
  | [] => []
  | d :: ds => (i / product ds)%Z :: unravel ds (i mod product ds)%Z
  end.

(** * class Shape *)

Module Shape.

(** [self.dims]: [None] until [set] is called. *)
Record t : Type := mk { dims : option (list Z) }.

(** [Shape()] allocates a new object in the store. *)
Definition __init__ (h : list t) : nat * list t :=
  (length h, h ++ [mk None]).

Definition read (a : nat) (h : list t) : option (list Z) :=
  h !! a ≫= dims.

(** [self.dims = [ int(d) for d in dims ]] *)
Definition set (a : nat) (ds : list Z) (h : list t) : list t :=
  <[a := mk (Some ds)]> h.

Definition set_elem (a : nat) (ind dim : Z) : M (list t) unit :=
  fun h =>
    match read a h with
    | None =>
        (Raise (RuntimeError "Cannot call set_elem() on uninitialized Shape"), h)
    | Some ds =>
        if (Z.of_nat (length ds) <=? ind)%Z
        then (Raise (RuntimeError "set_elem() index out of bounds"), h)
        else match py_setitem ds ind dim with
             | Ok ds' => (Ok tt, <[a := mk (Some ds')]> h)
             | Raise e => (Raise e, h)
             end
    end.

Definition get (a : nat) (h : list t) : Res (list Z) :=
  match read a h with
  | None => Raise (RuntimeError "Cannot call get() on uninitialized Shape")
  | Some ds => Ok ds
  end.

End Shape.

(** * class EinTup *)

Module EinTup.

(** [shadow_of] refers to the owning group; only its [name] and its
    [shape] are ever read through it, so the model keeps the name.
    [index] does not exist before [__iter__] is called. *)
Record t : Type := mk {
  name : string;
  shadow_of : option string;
  shape : nat;
  _value : option (list Z);
  index : option (list (list Z))
}.

(** [EinTup(name, shadow_of)]: a primary group allocates its [Shape], a
    shadow takes its owner's. *)
Definition __init__ (nm : string) (owner : option t) (h : list Shape.t)
  : t * list Shape.t :=
  match owner with
  | None =>
      let '(a, h') := Shape.__init__ h in
      (mk nm None a None None, h')
  | Some o => (mk nm (Some (name o)) (shape o) None None, h)
  end.

Definition primary (e : t) : bool :=
  match shadow_of e with None => true | Some _ => false end.

(** [self.shape is other.shape] *)
Definition same_shape_as (e other : t) : bool :=
  Nat.eqb (shape e) (shape other).

Definition dims (e : t) (h : list Shape.t) : Res (list Z) :=
  Shape.get (shape e) h.

Definition rank (e : t) (h : list Shape.t) : Res Z :=
  res_bind (Shape.get (shape e) h) (fun ds => Ok (Z.of_nat (length ds))).

Definition nelem (e : t) (h : list Shape.t) : Res Z :=
  res_bind (dims e h) np_prod_int32.

Definition set_dims (e : t) (ds : list Z) : M (list Shape.t) unit :=
  fun h =>
    match shadow_of e with
    | Some _ => (Raise (RuntimeError "cannot call set_dims on shadowing EinTup"), h)
    | None => (Ok tt, Shape.set (shape e) ds h)
    end.

Definition set_dim (e : t) (ind val : Z) : M (list Shape.t) unit :=
  Shape.set_elem (shape e) ind val.

Definition value (e : t) : Res (list Z) :=
  match _value e with
  | None => Raise (RuntimeError "called value() before iteration")
  | Some v => Ok v
  end.

(** [__iter__] stores a new [np.ndindex] iterator and returns [self]. *)
Definition __iter__ (e : t) (h : list Shape.t) : Res t :=
  res_bind (dims e h) (fun ds =>
  res_bind (np_ndindex ds) (fun it =>
  Ok (mk (name e) (shadow_of e) (shape e) (_value e) (Some it)))).

(** [__next__]: the result, and the object after the call. *)
Definition __next__ (e : t) : Res (list Z) * t :=
  match index e with
  | None => (Raise (AttributeError "index"), e)
  | Some [] => (Raise StopIteration, e)
  | Some (i :: rest) =>
      let e' := mk (name e) (shadow_of e) (shape e) (Some i) (Some rest) in
      (value e', e')
  end.

(** The body-less [for v in it], collecting the values: [next] is called
    until it raises [StopIteration]; any other exception propagates.
    [None] when the fuel runs out first. *)
Fixpoint drain (fuel : nat) (e : t) (acc : list (list Z))
  : option (Res (list (list Z)) * t) :=
  match fuel with
  | O => None
  | S fuel' =>
      match __next__ e with
      | (Ok v, e') => drain fuel' e' (acc ++ [v])
      | (Raise StopIteration, e') => Some (Ok acc, e')
      | (Raise ex, e') => Some (Raise ex, e')
      end
  end.

(** [list(e)]: a new iteration request, [iter(e)], then the loop. *)
Definition iterate (fuel : nat) (e : t) (h : list Shape.t)
  : option (Res (list (list Z)) * t) :=
  match __iter__ e h with
  | Ok e' => drain fuel e' []
  | Raise ex => Some (Raise ex, e)
  end.

End EinTup.

(** * Tensors and [equal_tens] *)

Module Tensor.

(** [tf.DType]: the floating, signed, unsigned and boolean element types.
    (Complex, string and quantized element types are outside the
    model.) *)
Inductive FloatType : Type := float16 | bfloat16 | float32 | float64.
Inductive IntType : Type := int8 | int16 | int32 | int64.
Inductive UIntType : Type := uint8 | uint16 | uint32 | uint64.

Inductive DType : Type :=
| Floating (f : FloatType)
| Signed (w : IntType)
| Unsigned (w : UIntType)
| bool_.

Global Instance FloatType_eq_dec : EqDecision FloatType.
Proof. solve_decision. Defined.
Global Instance IntType_eq_dec : EqDecision IntType.
Proof. solve_decision. Defined.
Global Instance UIntType_eq_dec : EqDecision UIntType.
Proof. solve_decision. Defined.
Global Instance DType_eq_dec : EqDecision DType.
Proof. solve_decision. Defined.

(** [dtype.is_floating] *)
Definition is_floating (d : DType) : bool :=
  match d with
  | Floating _ => true
  | _ => false
  end.

(** The number of bits of an integer type. *)
Definition bits (w : IntType) : Z :=
  match w with int8 => 8 | int16 => 16 | int32 => 32 | int64 => 64 end%Z.

Definition ubits (w : UIntType) : Z :=
  match w with uint8 => 8 | uint16 => 16 | uint32 => 32 | uint64 => 64 end%Z.

(** The value of an [n]-bit signed integer after wrap-around. *)
Definition wrap (n z : Z) : Z := ((z + 2 ^ (n - 1)) mod 2 ^ n - 2 ^ (n - 1))%Z.


(** What the model leaves to the tensor library: its floating-point
    arithmetic on single elements ([fsub], [fabs], [fle], each at a
    floating type), the Python numbers ([pynum], with the integer 0), and
    the conversion of a Python number to an element type when a tensor is
    compared with it; the integer 0 converts to 0 at every integer
    type. *)
Class Arith : Type := {
  flt : Type;
  pynum : Type;
  py_zero : pynum;
  fsub : FloatType -> flt -> flt -> flt;
  fabs : FloatType -> flt -> flt;
  fle : FloatType -> flt -> flt -> bool;
  float_of_py : FloatType -> pynum -> Res flt;
  int_of_py : DType -> pynum -> Res Z;
  int_of_py_zero : forall d : DType, int_of_py d py_zero = Ok 0%Z
}.

Section WithArith.
Context {AR : Arith}.

(** The elements of a tensor in row-major order, by element type; integer
    elements are integers of the type's range. *)
Inductive Data : Type :=
| Floats (f : FloatType) (xs : list flt)
| Ints (w : IntType) (xs : list Z)
| UInts (w : UIntType) (xs : list Z)
| Bools (xs : list bool).

Record t : Type := mk {
  shape : list Z;
  data : Data
}.

Definition dtype (a : t) : DType :=
  match data a with
  | Floats f _ => Floating f
  | Ints w _ => Signed w
  | UInts w _ => Unsigned w
  | Bools _ => bool_
  end.

(** [a - b], for operands of one shape.  The library refuses operands of
    different element types, and boolean operands; integers wrap
    around. *)
Definition tf_sub (a b : t) : Res t :=
  if decide (dtype a = dtype b)
  then
    match data a, data b with
    | Floats f xs, Floats _ ys =>
        Ok (mk (shape a) (Floats f (zip_with (fsub f) xs ys)))
    | Ints w xs, Ints _ ys =>
        Ok (mk (shape a)
               (Ints w (zip_with (fun x y => wrap (bits w) (x - y)) xs ys)))
    | UInts w xs, UInts _ ys =>
        Ok (mk (shape a)
               (UInts w (zip_with (fun x y => ((x - y) mod 2 ^ ubits w)%Z) xs ys)))
    | _, _ =>
        Raise (InvalidArgumentError "Sub: bool is not in the list of allowed types")
    end
  else Raise (InvalidArgumentError "cannot compute Sub: element types differ").

(** [tf.abs(a)]: defined for the floating and the signed types; the
    absolute value of the least signed integer wraps around to itself.
    (The kind of exception raised for the other types is the model's
    reading of the library's list of allowed types.) *)
Definition tf_abs (a : t) : Res t :=
  match data a with
  | Floats f xs => Ok (mk (shape a) (Floats f (fabs f <$> xs)))
  | Ints w xs =>
      Ok (mk (shape a) (Ints w ((fun x => wrap (bits w) (Z.abs x)) <$> xs)))
  | UInts _ _ | Bools _ =>
      Raise (InvalidArgumentError "Abs: not in the list of allowed types")
  end.

(** [tf.less_equal(a, eps)] with a Python number: [eps] is converted to
    the element type of [a]; the elements of the boolean tensor. *)
Definition tf_less_equal (a : t) (eps : pynum) : Res (list bool) :=
  match data a with
  | Floats f xs =>
      res_bind (float_of_py f eps) (fun e => Ok ((fun x => fle f x e) <$> xs))
  | Ints w xs =>
      res_bind (int_of_py (Signed w) eps) (fun e => Ok ((fun x => (x <=? e)%Z) <$> xs))
  | UInts w xs =>
      res_bind (int_of_py (Unsigned w) eps) (fun e => Ok ((fun x => (x <=? e)%Z) <$> xs))
  | Bools _ =>
      Raise (InvalidArgumentError "LessEqual: bool is not in the list of allowed types")
  end.

(** [tf.reduce_all(c).numpy()] *)
Definition tf_reduce_all (c : list bool) : bool := forallb id c.

(** The tolerance [equal_tens] compares with:
    [if not a.dtype.is_floating: eps = 0]. *)
Definition effective_eps (a : t) (eps : pynum) : pynum :=
  if negb (is_floating (dtype a)) then py_zero else eps.

Definition equal_tens (a b : t) (eps : pynum) : Res bool :=
  let eps := effective_eps a eps in
  if bool_decide (shape a = shape b)
  then res_bind (tf_sub a b) (fun d =>
       res_bind (tf_abs d) (fun m =>
       res_bind (tf_less_equal m eps) (fun c =>
       Ok (tf_reduce_all c))))
  else Ok false.

(** Iterating a tensor yields its slices along the first axis; a scalar
    tensor is not iterable. *)
Definition slice_data (start len : nat) (d : Data) : Data :=
  match d with
  | Floats f xs => Floats f (take len (drop start xs))
  | Ints w xs => Ints w (take len (drop start xs))
  | UInts w xs => UInts w (take len (drop start xs))
  | Bools xs => Bools (take len (drop start xs))
  end.

Definition __iter__ (a : t) : Res (list t) :=
  match shape a with
  | [] => Raise (TypeError "Cannot iterate over a scalar tensor.")
  | d :: ds =>
      let n := Z.to_nat (product ds) in
      Ok ((fun k => mk ds (slice_data (k * n) n (data a))) <$> seq 0 (Z.to_nat d))
  end.




End WithArith.

Arguments t : clear implicits.
Arguments Data : clear implicits.

End Tensor.

(** * Python strings *)

Definition newline : ascii := ascii_of_nat 10.

Definition is_newline (c : ascii) : bool := Nat.eqb (nat_of_ascii c) 10.

(** [str.isspace] on one character (code points below 256). *)
Definition is_space (c : ascii) : bool :=
  let n := nat_of_ascii c in
  ((9 <=? n)%nat && (n <=? 13)%nat) || ((28 <=? n)%nat && (n <=? 32)%nat)
  || Nat.eqb n 133 || Nat.eqb n 160.

(** Whether some character of [s] satisfies [p]. *)
Fixpoint string_has (p : ascii -> bool) (s : string) : bool :=
  match s with
  | EmptyString => false
  | String c s' => p c || string_has p s'
  end.

Fixpoint py_lstrip (s : string) : string :=
  match s with
  | EmptyString => EmptyString
  | String c s' => if is_space c then py_lstrip s' else s
  end.

Fixpoint py_rstrip (s : string) : string :=
  match s with
  | EmptyString => EmptyString
  | String c s' =>
      match py_rstrip s' with
      | EmptyString => if is_space c then EmptyString else String c EmptyString
      | r => String c r
      end
  end.

(** [s.strip()] *)
Definition py_strip (s : string) : string := py_rstrip (py_lstrip s).

Definition cons_head (c : ascii) (ps : list string) : list string :=
  match ps with
  | [] => [String c EmptyString]
  | p :: ps' => String c p :: ps'
  end.

(** [s.split('\n')] *)
Fixpoint py_split_lines (s : string) : list string :=
  match s with
  | EmptyString => [EmptyString]
  | String c s' =>
      if is_newline c then EmptyString :: py_split_lines s'
      else cons_head c (py_split_lines s')
  end.

(** [s.replace('\n', ' ')] *)
Fixpoint py_replace_newlines (s : string) : string :=
  match s with
  | EmptyString => EmptyString
  | String c s' =>
      String (if is_newline c then ascii_of_nat 32 else c) (py_replace_newlines s')
  end.

(** [re.split('\n\n+', s)]: the separators are the maximal runs of two or
    more newlines.  [pending] counts the newlines read since the last other
    character; the head of the result continues the piece being read. *)
Fixpoint re_split_go (pending : nat) (s : string) : list string :=
  match s with
  | EmptyString =>
      match pending with
      | O => [EmptyString]
      | S O => [String newline EmptyString]
      | _ => [EmptyString; EmptyString]
      end
  | String c s' =>
      if is_newline c then re_split_go (S pending) s'
      else
        let r := cons_head c (re_split_go O s') in
        match pending with
        | O => r
        | S O => cons_head newline r
        | _ => EmptyString :: r
        end
  end.

Definition re_split_blank_lines (s : string) : list string := re_split_go O s.

(** * Python dicts that keep insertion order *)

Fixpoint dict_get {V} (k : string) (d : list (string * V)) : option V :=
  match d with
  | [] => None
  | (k', v) :: d' => if String.eqb k k' then Some v else dict_get k d'
  end.

(** [d[k] = v]: an existing key keeps its place. *)
Fixpoint dict_set {V} (k : string) (v : V) (d : list (string * V)) : list (string * V) :=
  match d with
  | [] => [(k, v)]
  | (k', v') :: d' =>
      if String.eqb k k' then (k, v) :: d' else (k', v') :: dict_set k v d'
  end.

(** [dict(pairs)] *)
Definition py_dict {V} (pairs : list (string * V)) : list (string * V) :=
  fold_left (fun d kv => dict_set kv.1 kv.2 d) pairs [].

(** * numpy's random numbers *)

(** The generator is an oracle: a stream of draws and a position in it. *)
Record RNG : Type := mkRNG { rng_stream : nat -> Z; rng_pos : nat }.

(** [np.random.randint(low, high, size)]: [size] integers of [[low, high)]. *)
Definition randint (low high size : Z) (g : RNG) : Res (list Z) * RNG :=
  if (high <=? low)%Z then (Raise (ValueError "low >= high"), g)
  else if (size <? 0)%Z then (Raise (ValueError "negative dimensions are not allowed"), g)
  else
    (Ok ((fun k => (low + rng_stream g (rng_pos g + k)%nat mod (high - low))%Z)
           <$> seq 0 (Z.to_nat size)),
     mkRNG (rng_stream g) (rng_pos g + Z.to_nat size)%nat).

(** * class Runtime *)

Module Runtime.

(** The modes of the grammar, set before each section is parsed. *)
Inductive ParseMode : Type :=
| StatementMode | TfcallMode | OutputMode | ConstraintMode.

(** What the parser and the AST nodes reach of the runtime: the registry
    of groups, the store of their shapes, and [ext], which stands for
    [array_sig], [arrays] and the state the parser and the tensor library
    keep themselves. *)
Record Env (X : Type) : Type := mkEnv {
  tups : list (string * EinTup.t);
  shapes : list Shape.t;
  ext : X
}.
Arguments mkEnv {X}.
Arguments tups {X}.
Arguments shapes {X}.
Arguments ext {X}.

(** ** Registry *)

Section Registry.
Context {X : Type}.

Definition maybe_add_tup (nm : string) (owner : option EinTup.t)
  : M (Env X) EinTup.t :=
  fun e =>
    match dict_get nm (tups e) with
    | Some tup => (Ok tup, e)
    | None =>
        match owner with
        | None =>
            let '(tup, h') := EinTup.__init__ nm None (shapes e) in
            (Ok tup, mkEnv (dict_set nm tup (tups e)) h' (ext e))
        | Some o =>
            match dict_get (EinTup.name o) (tups e) with
            | Some _ =>
                let '(tup, h') := EinTup.__init__ nm (Some o) (shapes e) in
                (Ok tup, mkEnv (dict_set nm tup (tups e)) h' (ext e))
            | None =>
                (Raise (RuntimeError "Runtime::maybe_add_tup - shadow_of provided but does not exist"), e)
            end
        end
    end.

Definition get_primary_tups (e : Env X) : list EinTup.t :=
  filter (fun tup => EinTup.primary tup = true) (snd <$> tups e).

Definition tup (e : Env X) (nm : string) : Res EinTup.t :=
  match dict_get nm (tups e) with
  | Some tp => Ok tp
  | None => Raise (RuntimeError "Runtime::tup() got unknown eintup name")
  end.

Definition dims (e : Env X) (nm : string) : Res (list Z) :=
  res_bind (tup e nm) (fun tp => EinTup.dims tp (shapes e)).

Definition rank (e : Env X) (nm : string) : Res Z :=
  res_bind (dims e nm) (fun ds => Ok (Z.of_nat (length ds))).

Definition nelem (e : Env X) (nm : string) : Res Z :=
  res_bind (tup e nm) (fun tp => EinTup.nelem tp (shapes e)).

(** The registry as [maybe_add_tup] builds it, seen from its primary
    groups: each is filed under its name, owns a [Shape] of the store,
    and no two of them share a name or a [Shape]. *)
Definition registry_ok (e : Env X) : Prop :=
  Forall (fun p => dict_get (EinTup.name p) (tups e) = Some p
                   /\ (EinTup.shape p < length (shapes e))%nat)
         (get_primary_tups e)
  /\ NoDup (EinTup.shape <$> get_primary_tups e)
  /\ NoDup (EinTup.name <$> get_primary_tups e).

(** [itertools.product( *pools )]: the last pool varies fastest. *)
Fixpoint itertools_product {A} (pools : list (list A)) : list (list A) :=
  match pools with
  | [] => [[]]
  | pool :: pools' =>
      concat ((fun x => cons x <$> itertools_product pools') <$> pool)
  end.

(** [tuple(tup)] on the group filed under [nm]: a new iteration of the
    group, run to its end; the group keeps the state the iteration left. *)
Definition exhaust (fuel : nat) (nm : string) (e : Env X)
  : option (Res (list (list Z)) * Env X) :=
  match dict_get nm (tups e) with
  | None => Some (Raise (RuntimeError "Runtime::tup() got unknown eintup name"), e)
  | Some tp =>
      match EinTup.iterate fuel tp (shapes e) with
      | None => None
      | Some (r, tp') => Some (r, mkEnv (dict_set nm tp' (tups e)) (shapes e) (ext e))
      end
  end.

(** The pools of [itertools.product], built from left to right. *)
Fixpoint exhaust_all (fuel : nat) (names : list string) (e : Env X)
  : option (Res (list (list (list Z))) * Env X) :=
  match names with
  | [] => Some (Ok [], e)
  | nm :: names' =>
      match exhaust fuel nm e with
      | None => None
      | Some (Raise ex, e1) => Some (Raise ex, e1)
      | Some (Ok pool, e1) =>
          match exhaust_all fuel names' e1 with
          | None => None
          | Some (Raise ex, e2) => Some (Raise ex, e2)
          | Some (Ok pools, e2) => Some (Ok (pool :: pools), e2)
          end
      end
  end.

(** [[self.tup(e) for e in eintups]]: every name is looked up before any
    group is iterated. *)
Fixpoint lookup_all (e : Env X) (names : list string) : Res (list EinTup.t) :=
  match names with
  | [] => Ok []
  | nm :: names' =>
      res_bind (tup e nm) (fun tp =>
      res_bind (lookup_all e names') (fun tps => Ok (tp :: tps)))
  end.

(** [cycle( *eintups )]: all the tuples the product yields; [None] when
    the fuel runs out first. *)
Definition cycle (fuel : nat) (names : list string) (e : Env X)
  : option (Res (list (list (list Z))) * Env X) :=
  match lookup_all e names with
  | Raise ex => Some (Raise ex, e)
  | Ok _ =>
      match exhaust_all fuel names e with
      | None => None
      | Some (Raise ex, e') => Some (Raise ex, e')
      | Some (Ok pools, e') => Some (Ok (itertools_product pools), e')
      end
  end.

End Registry.

(** The grammar and its AST nodes.  [parser_parse] returns one node, and
    [parser_parse_outputs] (the output mode) the ordered list of output
    references. *)
Class Collaborators : Type := {
  Node : Type;
  PyVal : Type;
  Ext : Type;
  truthy : PyVal -> bool;
  node_name : Node -> string;
  parser_parse : ParseMode -> string -> M (Env Ext) Node;
  parser_parse_outputs : string -> M (Env Ext) (list Node);
  node_post_parse_init : Node -> M (Env Ext) unit;
  node_evaluate : Node -> M (Env Ext) unit;
  node_value : Node -> M (Env Ext) PyVal
}.

Section WithCollaborators.
Context {C : Collaborators}.

(** The calls made to the collaborators, in order. *)
Inductive Event : Type :=
| EvParse (mode : ParseMode) (text : string)
| EvPostParseInit (n : Node)
| EvEvaluate (n : Node)
| EvValue (n : Node).

(** The attributes of a [Runtime].  [statements] and [constraints] are
    [None] until a file is parsed; [tf_call] and [out_args] do not
    exist until then; [outputs] is read by [run] and assigned by no
    method.  [rng] is numpy's generator. *)
Record t : Type := mk {
  env : Env Ext;
  statements : option (list Node);
  constraints : option (list Node);
  tf_call : option Node;
  out_args : option (list Node);
  outputs : option (list Node);
  min_dim : Z;
  max_dim : Z;
  rng : RNG;
  trace : list Event
}.

Definition __init__ (lo hi : Z) (x : Ext) (g : RNG) : t :=
  mk (mkEnv [] [] x) None None None None None lo hi g [].

Definition set_env (rt : t) (e : Env Ext) : t :=
  mk e (statements rt) (constraints rt) (tf_call rt) (out_args rt)
     (outputs rt) (min_dim rt) (max_dim rt) (rng rt) (trace rt).
Definition set_statements (v : list Node) (rt : t) : t :=
  mk (env rt) (Some v) (constraints rt) (tf_call rt) (out_args rt)
     (outputs rt) (min_dim rt) (max_dim rt) (rng rt) (trace rt).
Definition set_constraints (v : list Node) (rt : t) : t :=
  mk (env rt) (statements rt) (Some v) (tf_call rt) (out_args rt)
     (outputs rt) (min_dim rt) (max_dim rt) (rng rt) (trace rt).
Definition set_tf_call (v : Node) (rt : t) : t :=
  mk (env rt) (statements rt) (constraints rt) (Some v) (out_args rt)
     (outputs rt) (min_dim rt) (max_dim rt) (rng rt) (trace rt).
Definition set_out_args (v : list Node) (rt : t) : t :=
  mk (env rt) (statements rt) (constraints rt) (tf_call rt) (Some v)
     (outputs rt) (min_dim rt) (max_dim rt) (rng rt) (trace rt).
Definition set_rng (g : RNG) (rt : t) : t :=
  mk (env rt) (statements rt) (constraints rt) (tf_call rt) (out_args rt)
     (outputs rt) (min_dim rt) (max_dim rt) g (trace rt).
Definition log (ev : Event) (rt : t) : t :=
  mk (env rt) (statements rt) (constraints rt) (tf_call rt) (out_args rt)
     (outputs rt) (min_dim rt) (max_dim rt) (rng rt) (trace rt ++ [ev]).

(** A call to a collaborator: it is recorded, then runs on [env]. *)
Definition call {A} (ev : Event) (f : M (Env Ext) A) : M t A :=
  fun rt =>
    let rt1 := log ev rt in
    let '(r, e') := f (env rt1) in
    (r, set_env rt1 e').

(** An operation on the store of shapes, run on the runtime. *)
Definition on_shapes {A} (f : M (list Shape.t) A) : M t A :=
  fun rt =>
    let '(r, h') := f (shapes (env rt)) in
    (r, set_env rt (mkEnv (tups (env rt)) h' (ext (env rt)))).

(** ** Ranks and dims *)

Definition set_rank_of (nm : string) (rk : Z) : M t unit :=
  fun rt =>
    match dict_get nm (tups (env rt)) with
    | None => (Raise (RuntimeError "Cannot set dims for unknown EinTup"), rt)
    | Some tp =>
        if negb (EinTup.primary tp)
        then (Raise (RuntimeError "Cannot set dims for non-primary EinTup"), rt)
        else
          match randint (min_dim rt) (max_dim rt) rk (rng rt) with
          | (Raise ex, g) => (Raise ex, set_rng g rt)
          | (Ok ds, g) => on_shapes (EinTup.set_dims tp ds) (set_rng g rt)
          end
    end.

Definition set_ranks (rank_map : list (string * Z)) : M t unit :=
  for_each (fun kv => set_rank_of kv.1 kv.2) rank_map.

Definition set_dims (dims_map : list (string * list Z)) : M t unit :=
  for_each (fun kv rt =>
              match dict_get kv.1 (tups (env rt)) with
              | None => (Raise (OtherError "KeyError"), rt)
              | Some tp => on_shapes (EinTup.set_dims tp kv.2) rt
              end) dims_map.

Definition set_one_dim (nm : string) (ind val : Z) : M t unit :=
  fun rt =>
    match tup (env rt) nm with
    | Raise ex => (Raise ex, rt)
    | Ok tp => on_shapes (EinTup.set_dim tp ind val) rt
    end.

(** ** Constraints *)

Definition value_is_true (con : Node) : M t bool :=
  bind (call (EvValue con) (node_value con)) (fun v => ret (truthy v)).

(** [all(con.value() for con in self.constraints)] *)
Definition constraints_hold : M t bool :=
  fun rt =>
    match constraints rt with
    | None => (Raise (TypeError "'NoneType' object is not iterable"), rt)
    | Some cns => py_all value_is_true cns rt
    end.

(** ** Loading a specification *)

Definition parse_et_file (content : string) : M t unit :=
  match re_split_blank_lines (py_strip content) with
  | statements :: tf_call :: tf_output :: rest =>
      let constraints := match rest with [] => EmptyString | c :: _ => c end in
      let statements := py_split_lines (py_strip statements) in
      let tf_call := py_strip (py_replace_newlines tf_call) in
      let tf_output := py_strip (py_replace_newlines tf_output) in
      let constraints := py_split_lines (py_strip constraints) in
      (let* sts := list_comp (fun st => call (EvParse StatementMode st)
                                     (parser_parse StatementMode st)) statements in
       let* _ := modify (set_statements sts) in
       let* cl := call (EvParse TfcallMode tf_call) (parser_parse TfcallMode tf_call) in
       let* _ := modify (set_tf_call cl) in
       let* outs := call (EvParse OutputMode tf_output) (parser_parse_outputs tf_output) in
       let* _ := modify (set_out_args outs) in
       let* cns := list_comp (fun con => call (EvParse ConstraintMode con)
                                       (parser_parse ConstraintMode con)) constraints in
       let* _ := modify (set_constraints cns) in
       for_each (fun node => call (EvPostParseInit node) (node_post_parse_init node))
                (sts ++ cns ++ [cl]))%py
  | _ => raise StopIteration
  end.

(** ** Evaluation *)

(** [st.evaluate()] *)
Definition evaluate_statement (st : Node) : M t unit :=
  call (EvEvaluate st) (node_evaluate st).

(** Reading an attribute that may be [None] or missing. *)
Definition read_attr {A} (field : t -> option A) (missing : PyExn) : M t A :=
  fun rt =>
    match field rt with
    | None => (Raise missing, rt)
    | Some v => (Ok v, rt)
    end.

(** [run]: [None] when a constraint fails; the set of results is the
    list of its elements. *)
Definition run : M t (option (list (string * PyVal))) :=
  (let* ok := constraints_hold in
   if negb ok then ret None
   else
     let* sts := read_attr statements
                   (TypeError "'NoneType' object is not iterable") in
     let* _ := for_each evaluate_statement sts in
     let* args := read_attr outputs (AttributeError "outputs") in
     let* outs := list_comp (fun arg =>
                    let* v := call (EvValue arg) (node_value arg) in
                    ret (node_name arg, v)) args in
     ret (Some outs))%py.

(** ** Rank search *)

(** The loop of [gen_shapes] over the rank combinations left: the rank
    maps yielded, how the generator ended, and the runtime then.  The
    consumer does not touch the runtime between two yields. *)
Fixpoint gen_shapes_loop (names : list string) (combos : list (list Z)) (rt : t)
  : list (list (string * Z)) * Res unit * t :=
  match combos with
  | [] => ([], Ok tt, rt)
  | rank_combo :: combos' =>
      let rank_map := py_dict (zip names rank_combo) in
      match set_ranks rank_map rt with
      | (Raise ex, rt1) => ([], Raise ex, rt1)
      | (Ok _, rt1) =>
          match constraints_hold rt1 with
          | (Raise ex, rt2) => ([], Raise ex, rt2)
          | (Ok false, rt2) => gen_shapes_loop names combos' rt2
          | (Ok true, rt2) =>
              let '(yielded, r, rt3) := gen_shapes_loop names combos' rt2 in
              (rank_map :: yielded, r, rt3)
          end
      end
  end.

Definition gen_shapes (rt : t) : list (list (string * Z)) * Res unit * t :=
  let primary_tup_names := EinTup.name <$> get_primary_tups (env rt) in
  let rank_space := replicate (length primary_tup_names) 10%Z in
  match np_ndindex rank_space with
  | Raise ex => ([], Raise ex, rt)
  | Ok combos => gen_shapes_loop primary_tup_names combos rt
  end.

(** [rt'] differs from [rt] at most by [env], [rng] and new events. *)
Definition frame (rt rt' : t) : Prop :=
  statements rt' = statements rt
  /\ constraints rt' = constraints rt
  /\ tf_call rt' = tf_call rt
  /\ out_args rt' = out_args rt
  /\ outputs rt' = outputs rt
  /\ min_dim rt' = min_dim rt
  /\ max_dim rt' = max_dim rt
  /\ exists evs, trace rt' = trace rt ++ evs.

(** A computation that only so changes the runtime. *)
Definition framed {A} (m : M t A) : Prop :=
  forall rt, frame rt (m rt).2.

(** A constraint over the ranks of the groups [names]: its value is
    decided by their ranks, as [holds] says, and evaluating it changes
    nothing. *)
Definition rank_constraint (names : list string) (con : Node)
           (holds : list Z -> bool) : Prop :=
  forall (e : Env Ext) (rank_combo : list Z),
    Forall2 (fun nm r => rank e nm = Ok r) names rank_combo ->
    exists v, node_value con e = (Ok v, e) /\ truthy v = holds rank_combo.

(** A constraint whose value is always [b] and whose evaluation changes
    nothing. *)
Definition constant_constraint (con : Node) (b : bool) : Prop :=
  forall e : Env Ext, exists v, node_value con e = (Ok v, e) /\ truthy v = b.

(** "The group at position [i] does not have rank 0." *)
Definition rejects_rank_zero (i : nat) (rank_combo : list Z) : bool :=
  match rank_combo !! i with
  | Some r => negb (r =? 0)%Z
  | None => true
  end.

(** The rank combinations that satisfy every constraint of [holds]. *)
Definition accepted (holds : list (list Z -> bool)) (combos : list (list Z))
  : list (list Z) :=
  filter (fun c => forallb (fun P => P c) holds = true) combos.

End WithCollaborators.

Arguments t : clear implicits.
Arguments Event : clear implicits.

(** ** Cross-validation *)

(** The values of the nodes as Python objects: [as_tensor] is the tensor a
    value is, [None] for a value that is not a tensor; [py_iter] is the
    iteration over a value (the elements of a tuple, the slices of a
    tensor, [TypeError] for a value that is not iterable); [tolerance] is
    the Python number [1e-6]. *)
Class TensorValues (C : Collaborators) (AR : Tensor.Arith) : Type := {
  as_tensor : PyVal -> option (Tensor.t AR);
  py_iter : PyVal -> Res (list PyVal);
  tolerance : Tensor.pynum
}.

Section Validation.
Context {C : Collaborators} {AR : Tensor.Arith} {TV : TensorValues C AR}.

(** [equal_tens(x, y, 1e-6)] on two values: [x.dtype] is read first, then
    the shapes. *)
Definition equal_tens_values (x y : PyVal) : Res bool :=
  match as_tensor x with
  | None => Raise (AttributeError "dtype")
  | Some a =>
      match as_tensor y with
      | None => Raise (AttributeError "shape")
      | Some b => Tensor.equal_tens a b tolerance
      end
  end.

(** [et.value()] *)
Definition output_value (et : Node) : M (t C) PyVal :=
  call (EvValue et) (node_value et).

(** [equal_tens(et.value(), tf_out, 1e-6)] *)
Definition compare_output (pair : Node * PyVal) : M (t C) bool :=
  (let* v := output_value pair.1 in
   fun rt => (equal_tens_values v pair.2, rt))%py.

Definition validate : M (t C) (list bool) :=
  (let* sts := read_attr statements
                 (TypeError "'NoneType' object is not iterable") in
   let* _ := for_each evaluate_statement sts in
   let* cl := read_attr tf_call (AttributeError "tf_call") in
   let* tf_outputs := call (EvValue cl) (node_value cl) in
   let* outs := read_attr out_args (AttributeError "out_args") in
   let* tf_list := (fun rt => (py_iter tf_outputs, rt)) in
   list_comp compare_output (zip outs tf_list))%py.

End Validation.

End Runtime.

(** * opcheck: the instrumentation wrapper *)

Module Opcheck.

(** [s.rsplit('.', 1)] when [s] holds a dot: the text before the last dot
    and the text after it. *)
Fixpoint rsplit_dot (s : string) : option (string * string) :=
  match s with
  | EmptyString => None
  | String c s' =>
      match rsplit_dot s' with
      | Some (before, after) => Some (String c before, after)
      | None =>
          if Ascii.eqb "."%char c then Some (EmptyString, s') else None
      end
  end.

(** The first statement of [register]:
    [mod_path, func_name = op_path.rsplit('.', 1)]. *)
Definition split_op_path (op_path : string) : Res (string * string) :=
  match rsplit_dot op_path with
  | Some parts => Ok parts
  | None => Raise (ValueError "not enough values to unpack (expected 2, got 1)")
  end.

(** The operation that [register] wraps and the schema it builds.  An
    exception is any object the operation can raise; [is_Exception] tells
    whether it derives from [Exception] (and not only from
    [BaseException]).  [sig_bind] is [inspect.signature(func).bind] with
    the defaults applied, [None] when the arguments do not fit.  The
    schema's methods are taken by their contract: they return.  They are
    code of the same process and may read [config.validate]: each takes
    its value at the time of the call as first argument. *)
Class Framework : Type := {
  Args : Type;
  Bound : Type;
  RetVal : Type;
  Exn : Type;
  Schema : Type;
  World : Type;
  is_Exception : Exn -> bool;
  sig_bind : Args -> option Bound;
  func : Args -> World -> (Exn + RetVal) * World;
  p_init : bool -> Bound -> Schema -> Schema;
  p_evaluate : bool -> Schema -> bool * Schema;
  p_report : bool -> Schema -> string * Schema;
  p_set_outputs : bool -> RetVal -> Schema -> Schema;
  p_validate : bool -> Schema -> Schema
}.

Section WithFramework.
Context {F : Framework}.

(** What the wrapper prints and which calls it makes, in order. *)
Inductive Event : Type :=
| CallInit (bound : Bound)
| CallEvaluate
| PrintInputValidationPassed
| PrintInputValidationFailed (report : string)
| CallFunc (args : Args)
| PrintFrameworkException (ex : Exn)
| CallSetOutputs (ret_val : RetVal)
| CallValidate
| CallReport.

(** The process: the global [config], the schema [op.p], the state of
    the framework, and the events so far. *)
Record State : Type := mk {
  config_validate : bool;
  schema : Schema;
  world : World;
  events : list Event
}.

(** How a call of the wrapper ends: with a value, with an exception of
    the wrapped operation, or with an exception of the wrapper's own
    statements. *)
Inductive Outcome : Type :=
| Returned (ret_val : RetVal)
| Raised (ex : Exn)
| RaisedByWrapper (e : PyExn).

(** [config.validate = do_validate] *)
Definition validate_schema (do_validate : bool) (st : State) : State :=
  mk do_validate (schema st) (world st) (events st).

Definition emit (ev : Event) (st : State) : State :=
  mk (config_validate st) (schema st) (world st) (events st ++ [ev]).

Definition set_schema (s : Schema) (st : State) : State :=
  mk (config_validate st) s (world st) (events st).

Definition set_world (w : World) (st : State) : State :=
  mk (config_validate st) (schema st) w (events st).

(** [op.p.report()] *)
Definition call_report (st : State) : string * State :=
  let '(text, s) := p_report (config_validate st) (schema st) in
  (text, emit CallReport (set_schema s st)).

(** The statements before [try]. *)
Definition input_validation (bound : Bound) (st : State) : State :=
  let st := emit (CallInit bound)
                 (set_schema (p_init (config_validate st) bound (schema st)) st) in
  let '(opcheck_valid, s) := p_evaluate (config_validate st) (schema st) in
  let st := emit CallEvaluate (set_schema s st) in
  if opcheck_valid then emit PrintInputValidationPassed st
  else
    let '(text, st) := call_report st in
    emit (PrintInputValidationFailed text) st.

(** The [finally] clause: the report, then [framework_ex] is raised if
    it was set; [pending] is an exception that no [except] clause
    caught, raised again when the clause ends.  The result is the
    exception that leaves the [try] statement, if any. *)
Definition finally (framework_ex pending : option Exn) (st : State)
  : option Exn * State :=
  let '(_, st) := call_report st in
  match framework_ex with
  | Some ex => (Some ex, st)
  | None => (pending, st)
  end.

(** [return ret_val], reached when no exception left the [try]
    statement. *)
Definition return_ret_val (ret_val : option RetVal) : Outcome :=
  match ret_val with
  | Some v => Returned v
  | None => RaisedByWrapper (OtherError "UnboundLocalError")
  end.

Definition after_try (leaving : option Exn) (ret_val : option RetVal) : Outcome :=
  match leaving with
  | Some ex => Raised ex
  | None => return_ret_val ret_val
  end.

Definition wrapper (args : Args) (st : State) : Outcome * State :=
  match sig_bind args with
  | None => (RaisedByWrapper (TypeError "missing or unexpected argument"), st)
  | Some bound =>
      let st := input_validation bound st in
      let '(r, w) := func args (world st) in
      let st := emit (CallFunc args) (set_world w st) in
      match r with
      | inl ex =>
          if is_Exception ex
          then
            (* except Exception as ex *)
            let st := emit (PrintFrameworkException ex) st in
            let '(leaving, st) := finally (Some ex) None st in
            (after_try leaving None, st)
          else
            let '(leaving, st) := finally None (Some ex) st in
            (after_try leaving None, st)
      | inr ret_val =>
          (* else *)
          let st := emit (CallSetOutputs ret_val)
                         (set_schema
                            (p_set_outputs (config_validate st) ret_val (schema st)) st) in
          let st := emit CallValidate
                         (set_schema (p_validate (config_validate st) (schema st)) st) in
          let '(leaving, st) := finally None None st in
          (after_try leaving (Some ret_val), st)
      end
  end.

(** The result of the wrapped operation, and the state in which the
    [try] statement goes on after it. *)
Definition after_func (args : Args) (bound : Bound) (st : State)
  : (Exn + RetVal) * State :=
  let st1 := input_validation bound st in
  ((func args (world st1)).1,
   emit (CallFunc args) (set_world (func args (world st1)).2 st1)).

(** The events that put the text of a report on the output: the print of
    the failed input validation is the only one. *)
Definition prints_report (ev : Event) : bool :=
  match ev with
  | PrintInputValidationFailed _ => true
  | _ => false
  end.

End WithFramework.

Arguments State : clear implicits.
Arguments Event : clear implicits.
Arguments Outcome : clear implicits.

End Opcheck.

(** * Concrete scenarios *)

Module Demo.

(** A primary group [p], a shadow [sh] of it, in an empty store. *)
Definition p : EinTup.t := (EinTup.__init__ "p" None []).1.
Definition h_p : list Shape.t := (EinTup.__init__ "p" None []).2.
Definition sh : EinTup.t := (EinTup.__init__ "sh" (Some p) h_p).1.
Definition h_sh : list Shape.t := (EinTup.__init__ "sh" (Some p) h_p).2.

(** The store after [p.set_dims(ds)]. *)
Definition with_dims (ds : list Z) : list Shape.t :=
  (EinTup.set_dims p ds h_sh).2.

(** The Python numbers of the scenarios: the integer [0] and the float
    [1e-6]. *)
Inductive py_number : Type := py_0 | py_1e_6.

(** Precision and exponent bound of the IEEE 754 binary formats. *)
Definition float_format (f : Tensor.FloatType) : Z * Z :=
  match f with
  | Tensor.float16 => (11, 16)
  | Tensor.bfloat16 => (8, 128)
  | Tensor.float32 => (24, 128)
  | Tensor.float64 => (53, 1024)
  end%Z.

(** An arithmetic for the scenarios: IEEE 754 with rounding to nearest
    even, as [SpecFloat] defines it.  [1e-6] is a binary64,
    [4722366482869645 * 2^-72], rounded to the floating type it is compared
    at; it does not convert to an integer type. *)
Definition ieee : Tensor.Arith :=
  {| Tensor.flt := SpecFloat.spec_float;
     Tensor.pynum := py_number;
     Tensor.py_zero := py_0;
     Tensor.fsub := fun f => SpecFloat.SFsub (float_format f).1 (float_format f).2;
     Tensor.fabs := fun _ => SpecFloat.SFabs;
     Tensor.fle := fun _ => SpecFloat.SFleb;
     Tensor.float_of_py := fun f n =>
       match n with
       | py_0 => Ok (SpecFloat.S754_zero false)
       | py_1e_6 =>
           Ok (SpecFloat.binary_normalize (float_format f).1 (float_format f).2
                 4722366482869645 (-72) false)
       end;
     Tensor.int_of_py := fun _ n =>
       match n with
       | py_0 => Ok 0%Z
       | py_1e_6 => Raise (TypeError "Cannot convert 1e-06 to EagerTensor")
       end;
     Tensor.int_of_py_zero := fun _ => eq_refl |}.

(** A vector of [int32] elements, and one of [float32] elements given by
    mantissa and exponent. *)
Definition int_vector (xs : list Z) : Tensor.t ieee :=
  Tensor.mk (AR := ieee) [Z.of_nat (length xs)] (Tensor.Ints Tensor.int32 xs).

Definition float_vector (xs : list (Z * Z)) : Tensor.t ieee :=
  Tensor.mk (AR := ieee) [Z.of_nat (length xs)]
    (Tensor.Floats (AR := ieee) Tensor.float32
       ((fun x => SpecFloat.binary_normalize 24 128 x.1 x.2 false) <$> xs)).

(** A grammar that keeps the text it is given; a constraint node that
    holds when a group has a rank other than 0. *)
Inductive node : Type :=
| Parsed (mode : Runtime.ParseMode) (text : string)
| RankNonZero (group : string).

Inductive pyval : Type :=
| VBool (b : bool)
| VText (s : string).

Definition grammar : Runtime.Collaborators :=
  {| Runtime.Node := node;
     Runtime.PyVal := pyval;
     Runtime.Ext := unit;
     Runtime.truthy := fun v =>
       match v with
       | VBool b => b
       | VText s => negb (String.eqb s EmptyString)
       end;
     Runtime.node_name := fun n =>
       match n with Parsed _ text => text | RankNonZero g => g end;
     Runtime.parser_parse := fun mode text => ret (Parsed mode text);
     Runtime.parser_parse_outputs := fun text => ret [Parsed Runtime.OutputMode text];
     Runtime.node_post_parse_init := fun _ => ret tt;
     Runtime.node_evaluate := fun _ => ret tt;
     Runtime.node_value := fun n e =>
       match n with
       | Parsed _ text => (Ok (VText text), e)
       | RankNonZero g =>
           match Runtime.rank e g with
           | Ok r => (Ok (VBool (negb (r =? 0)%Z)), e)
           | Raise ex => (Raise ex, e)
           end
       end |}.

Definition counting : RNG := mkRNG Z.of_nat 0.

(** A new runtime with the default range of dims. *)
Definition rt0 : Runtime.t grammar :=
  Runtime.__init__ (C := grammar) 5 100 tt counting.

(** A specification without a constraints section, and one with it. *)
Definition three_sections : string :=
  String.concat (String newline EmptyString)
    ["out[b] = in[b]"; EmptyString; "tf.identity(in)"; EmptyString; "out"].

Definition four_sections : string :=
  String.concat (String newline EmptyString)
    ["out[b] = in[b]"; EmptyString; "tf.identity(in)"; EmptyString; "out";
     EmptyString; "RANK(b) > 0"].

(** A runtime with the primary groups [batch] and [slice], a shadow
    [other] of [batch], and the constraints [cns]. *)
Definition two_groups (cns : list node) : Runtime.t grammar :=
  let e1 := (Runtime.maybe_add_tup "batch" None (Runtime.env rt0)).2 in
  let b := dict_get "batch" (Runtime.tups e1) in
  let e2 := (Runtime.maybe_add_tup "other" b e1).2 in
  let e3 := (Runtime.maybe_add_tup "slice" None e2).2 in
  Runtime.set_constraints (C := grammar) cns (Runtime.set_env rt0 e3).

(** An operation that returns its argument, or raises; a schema that
    notes the calls it gets and reads the toggle. *)
Inductive call_args : Type := Compute (x : Z) | Boom | Interrupt.
Inductive exn : Type := ValueError_boom | KeyboardInterrupt.

Definition framework : Opcheck.Framework :=
  {| Opcheck.Args := call_args;
     Opcheck.Bound := call_args;
     Opcheck.RetVal := Z;
     Opcheck.Exn := exn;
     Opcheck.Schema := list string;
     Opcheck.World := nat;
     Opcheck.is_Exception := fun ex =>
       match ex with ValueError_boom => true | KeyboardInterrupt => false end;
     Opcheck.sig_bind := Some;
     Opcheck.func := fun args w =>
       match args with
       | Compute x => (inr x, S w)
       | Boom => (inl ValueError_boom, S w)
       | Interrupt => (inl KeyboardInterrupt, S w)
       end;
     Opcheck.p_init := fun _ _ _ => ["init"];
     Opcheck.p_evaluate := fun enabled s =>
       (true, s ++ [if enabled then "evaluate" else "evaluate, checks disabled"]);
     Opcheck.p_report := fun _ s => ("report of the schema", s ++ ["report"]);
     Opcheck.p_set_outputs := fun _ _ s => s ++ ["set_outputs"];
     Opcheck.p_validate := fun enabled s =>
       s ++ [if enabled then "validate" else "validate, checks disabled"] |}.

(** The process at start: [config.validate] is [False]. *)
Definition process0 : Opcheck.State framework :=
  Opcheck.mk (F := framework) false [] 0%nat [].

(** A grammar whose nodes carry their values: the call node returns a
    tensor, a tuple of tensors or [None], and an output reference its
    tensor. *)
Inductive tensor_value : Type :=
| TNone
| TOne (v : Tensor.t ieee)
| TTuple (vs : list (Tensor.t ieee)).

Inductive tensor_node : Type :=
| TStatement (text : string)
| TCall (returns : tensor_value)
| TOut (name : string) (v : Tensor.t ieee).

Definition tensor_grammar : Runtime.Collaborators :=
  {| Runtime.Node := tensor_node;
     Runtime.PyVal := tensor_value;
     Runtime.Ext := unit;
     Runtime.truthy := fun _ => true;
     Runtime.node_name := fun n =>
       match n with TOut name _ => name | _ => EmptyString end;
     Runtime.parser_parse := fun _ text => ret (TStatement text);
     Runtime.parser_parse_outputs := fun _ => ret [];
     Runtime.node_post_parse_init := fun _ => ret tt;
     Runtime.node_evaluate := fun _ => ret tt;
     Runtime.node_value := fun n e =>
       match n with
       | TStatement _ => (Ok TNone, e)
       | TCall returns => (Ok returns, e)
       | TOut _ v => (Ok (TOne v), e)
       end |}.

Definition tensor_values : Runtime.TensorValues tensor_grammar ieee :=
  {| Runtime.as_tensor := fun v : @Runtime.PyVal tensor_grammar =>
       match v with
       | TOne t => Some t
       | _ => None
       end;
     Runtime.py_iter := fun v : @Runtime.PyVal tensor_grammar =>
       match v with
       | TTuple vs => Ok (TOne <$> vs)
       | TOne t => res_bind (Tensor.__iter__ t) (fun slices => Ok (TOne <$> slices))
       | TNone => Raise (TypeError "'NoneType' object is not iterable")
       end;
     Runtime.tolerance := py_1e_6 |}.

(** A program with the declared outputs [x] and [y] whose operation
    returns [returns]. *)
Definition two_outputs (returns : tensor_value) : Runtime.t tensor_grammar :=
  Runtime.mk (C := tensor_grammar) (Runtime.mkEnv [] [] tt)
    (Some [TStatement "a"; TStatement "b"]) (Some [])
    (Some (TCall returns))
    (Some [TOut "x" (int_vector [1; 2]%Z); TOut "y" (int_vector [3]%Z)])
    None 5%Z 100%Z counting [].

End Demo.

(** * Properties *)

Local Open Scope Z_scope.

(** ** 32-bit wrap-around *)

Lemma wrap32_mod (z : Z) : wrap32 z mod 2 ^ 32 = z mod 2 ^ 32.
Proof.
  unfold wrap32.
  rewrite <- Zminus_mod_idemp_l, Z.mod_mod by lia.
  rewrite Zminus_mod_idemp_l. f_equal. lia.
Qed.

Lemma wrap32_congr (x y : Z) : x mod 2 ^ 32 = y mod 2 ^ 32 -> wrap32 x = wrap32 y.
Proof.
  intros H. unfold wrap32.
  rewrite <- (Zplus_mod_idemp_l x), <- (Zplus_mod_idemp_l y), H. reflexivity.
Qed.

Lemma wrap32_small (z : Z) : - 2 ^ 31 <= z < 2 ^ 31 -> wrap32 z = z.
Proof. intros H. unfold wrap32. rewrite Z.mod_small; lia. Qed.

Lemma wrap32_mul (a b : Z) : wrap32 (wrap32 a * wrap32 b) = wrap32 (a * b).
Proof.
  apply wrap32_congr.
  rewrite Zmult_mod, !wrap32_mod, <- Zmult_mod. reflexivity.
Qed.

Lemma np_prod_int32_fold (l : list Z) (acc : Z) :
  fold_left (fun a d => wrap32 (a * wrap32 d)) l (wrap32 acc)
  = wrap32 (acc * product l).
Proof.
  revert acc. induction l as [|d l IH]; intros acc; simpl.
  - f_equal. lia.
  - rewrite wrap32_mul, IH. f_equal. lia.
Qed.

Lemma fits_64_bits_int64 (l : list Z) :
  Forall (fun d => - 2 ^ 63 <= d < 2 ^ 63) l -> forallb fits_64_bits l = true.
Proof.
  intros H. apply forallb_forall. intros d Hd.
  rewrite Forall_forall in H. apply list_elem_of_In, H in Hd.
  unfold fits_64_bits. apply andb_true_iff. split.
  - apply Z.leb_le. lia.
  - apply Z.ltb_lt. lia.
Qed.

Lemma np_prod_int32_wrap (l : list Z) :
  Forall (fun d => - 2 ^ 63 <= d < 2 ^ 63) l ->
  np_prod_int32 l = Ok (wrap32 (product l)).
Proof.
  intros H. unfold np_prod_int32. rewrite fits_64_bits_int64 by exact H.
  change 1 with (wrap32 1) at 1.
  rewrite np_prod_int32_fold. do 2 f_equal. lia.
Qed.

Lemma np_prod_int32_overflow (l : list Z) :
  Exists (fun d => d < - 2 ^ 63 \/ 2 ^ 64 <= d) l ->
  np_prod_int32 l = Raise (OverflowError "Python int too large to convert to C long").
Proof.
  intros H. unfold np_prod_int32.
  destruct (forallb fits_64_bits l) eqn:Hall; [|reflexivity].
  exfalso. rewrite forallb_forall in Hall.
  apply Exists_exists in H as (d & Hd & Hout).
  apply list_elem_of_In, Hall in Hd. unfold fits_64_bits in Hd.
  apply andb_true_iff in Hd as [H1 H2].
  apply Z.leb_le in H1. apply Z.ltb_lt in H2. lia.
Qed.

(** ** Shared shapes *)

Lemma set_dims_primary (p : EinTup.t) (ds : list Z) (h : list Shape.t) :
  EinTup.primary p = true ->
  EinTup.set_dims p ds h = (Ok tt, Shape.set (EinTup.shape p) ds h).
Proof.
  unfold EinTup.primary, EinTup.set_dims. destruct (EinTup.shadow_of p); [discriminate|auto].
Qed.

Lemma shape_read_set (a : nat) (ds : list Z) (h : list Shape.t) :
  (a < length h)%nat -> Shape.read a (Shape.set a ds h) = Some ds.
Proof.
  intros Hlt. unfold Shape.read, Shape.set.
  rewrite list_lookup_insert_eq by exact Hlt. reflexivity.
Qed.

Lemma shape_set_length (a : nat) (ds : list Z) (h : list Shape.t) :
  length (Shape.set a ds h) = length h.
Proof. apply length_insert. Qed.




Lemma dims_ok_read (e : EinTup.t) (h : list Shape.t) (ds : list Z) :
  EinTup.dims e h = Ok ds ->
  Shape.read (EinTup.shape e) h = Some ds /\ (EinTup.shape e < length h)%nat.
Proof.
  unfold EinTup.dims, Shape.get. intros H.
  destruct (Shape.read (EinTup.shape e) h) as [ds0|] eqn:Hr; [|discriminate].
  injection H as ->. split; [reflexivity|].
  unfold Shape.read in Hr.
  destruct (h !! EinTup.shape e) as [s|] eqn:Hl; [|discriminate].
  eapply lookup_lt_Some. exact Hl.
Qed.

(** The position a Python index within range stands for. *)
Lemma py_position (len i : Z) :
  - len <= i < len ->
  (if 0 <=? i then i else len + i) = i mod len /\ 0 <= i mod len < len.
Proof.
  intros Hi. destruct (Z.leb_spec 0 i) as [Hpos|Hneg].
  - rewrite Z.mod_small by lia. lia.
  - replace (i mod len) with (len + i); [lia|].
    rewrite <- (Z.mod_small (len + i) len) by lia.
    replace (len + i) with (i + 1 * len) by lia.
    apply Z_mod_plus_full.
Qed.

Lemma py_setitem_in_range {A} (l : list A) (i : Z) (x : A) :
  - Z.of_nat (length l) <= i < Z.of_nat (length l) ->
  py_setitem l i x = Ok (<[Z.to_nat (i mod Z.of_nat (length l)) := x]> l).
Proof.
  intros Hi. destruct (py_position _ _ Hi) as [Hp _]. unfold py_setitem.
  destruct (Z.leb_spec 0 i) as [Hpos|Hneg].
  - destruct (Z.ltb_spec i (Z.of_nat (length l))) as [_|]; [|lia].
    simpl. rewrite <- Hp. reflexivity.
  - simpl.
    destruct (Z.leb_spec (- Z.of_nat (length l)) i) as [_|]; [|lia].
    destruct (Z.ltb_spec i 0) as [_|]; [|lia].
    simpl. rewrite <- Hp. reflexivity.
Qed.

Lemma py_getitem_insert (l : list Z) (i v : Z) :
  - Z.of_nat (length l) <= i < Z.of_nat (length l) ->
  py_getitem (<[Z.to_nat (i mod Z.of_nat (length l)) := v]> l) i = Ok v.
Proof.
  intros Hi. destruct (py_position _ _ Hi) as [Hp Hr]. unfold py_getitem.
  rewrite length_insert. cbv zeta. rewrite Hp.
  destruct (Z.leb_spec 0 (i mod Z.of_nat (length l))) as [_|]; [|lia].
  rewrite list_lookup_insert_eq by lia. reflexivity.
Qed.

(** C7: [set_dim] through any group that holds the [Shape] of [p], a
    shadow of [p] in particular, succeeds for an index within the rank
    (counted from the end when negative, as Python lists do) and writes
    the shared [Shape]: [p.dims()[i]] is [v] afterwards, and the other
    axes are as before. *)
Theorem shadow_set_dim_writes_owner
  (p sh : EinTup.t) (h : list Shape.t) (ds : list Z) (i v : Z) :
  EinTup.same_shape_as sh p = true ->
  EinTup.dims p h = Ok ds ->
  - Z.of_nat (length ds) <= i < Z.of_nat (length ds) ->
  exists h',
    EinTup.set_dim sh i v h = (Ok tt, h')
    /\ EinTup.dims p h' = Ok (<[Z.to_nat (i mod Z.of_nat (length ds)) := v]> ds)
    /\ res_bind (EinTup.dims p h') (fun l => py_getitem l i) = Ok v.
Proof.
  intros Hsame Hd Hi.
  apply dims_ok_read in Hd as [Hr Hlt].
  apply Nat.eqb_eq in Hsame.
  unfold EinTup.set_dim, Shape.set_elem. rewrite Hsame, Hr.
  destruct (Z.leb_spec (Z.of_nat (length ds)) i) as [|_]; [lia|].
  rewrite py_setitem_in_range by exact Hi.
  eexists. split; [reflexivity|].
  assert (Hd' : EinTup.dims p
                  (<[EinTup.shape p :=
                       Shape.mk (Some (<[Z.to_nat (i mod Z.of_nat (length ds)) := v]> ds))]> h)
                = Ok (<[Z.to_nat (i mod Z.of_nat (length ds)) := v]> ds)).
  { unfold EinTup.dims, Shape.get, Shape.read.
    rewrite list_lookup_insert_eq by exact Hlt. reflexivity. }
  split; [exact Hd'|].
  rewrite Hd'. simpl. apply py_getitem_insert. exact Hi.
Qed.

(** The shadow [sh] of [p], dims [[2; 3]]: [sh.set_dim(1, 7)]. *)
Lemma shadow_set_dim_writes_owner_witness :
  EinTup.primary Demo.sh = false
  /\ exists h',
       EinTup.set_dim Demo.sh 1 7 (Demo.with_dims [2; 3]) = (Ok tt, h')
       /\ EinTup.dims Demo.p h' = Ok [2; 7]
       /\ res_bind (EinTup.dims Demo.p h') (fun l => py_getitem l 1) = Ok 7.
Proof.
  split; [reflexivity|].
  apply (shadow_set_dim_writes_owner Demo.p Demo.sh (Demo.with_dims [2; 3]) [2; 3] 1 7).
  - reflexivity.
  - reflexivity.
  - simpl. lia.
Defined.

(** ** Element count *)

(** C9, as the code has it: for dims within the signed 64-bit range,
    [nelem] is the product of the dims reduced to a signed 32-bit integer;
    it is the exact product whenever that product fits in 32 bits, and 1
    for a group of rank 0.  A dim beyond 64 bits makes [nelem] raise
    [OverflowError]. *)
Theorem nelem_is_product_in_int32 (e : EinTup.t) (h : list Shape.t) (ds : list Z) :
  EinTup.dims e h = Ok ds ->
  (Forall (fun d => - 2 ^ 63 <= d < 2 ^ 63) ds ->
   EinTup.nelem e h = Ok (wrap32 (product ds))
   /\ (- 2 ^ 31 <= product ds < 2 ^ 31 -> EinTup.nelem e h = Ok (product ds))
   /\ (ds = [] -> EinTup.nelem e h = Ok 1))
  /\ (Exists (fun d => d < - 2 ^ 63 \/ 2 ^ 64 <= d) ds ->
      EinTup.nelem e h
      = Raise (OverflowError "Python int too large to convert to C long")).
Proof.
  intros Hd. unfold EinTup.nelem. rewrite Hd. simpl. split.
  - intros Hrange. rewrite np_prod_int32_wrap by exact Hrange.
    split; [reflexivity|]. split.
    + intros Hr. rewrite wrap32_small by exact Hr. reflexivity.
    + intros ->. reflexivity.
  - apply np_prod_int32_overflow.
Qed.

Lemma nelem_is_product_in_int32_witness :
  EinTup.nelem Demo.p (Demo.with_dims [5; 99; 99]) = Ok (wrap32 (product [5; 99; 99]))
  /\ EinTup.nelem Demo.p (Demo.with_dims [5; 99; 99]) = Ok (product [5; 99; 99])
  /\ EinTup.nelem Demo.p (Demo.with_dims [0; 2 ^ 64])
     = Raise (OverflowError "Python int too large to convert to C long").
Proof.
  destruct (nelem_is_product_in_int32 Demo.p (Demo.with_dims [5; 99; 99]) [5; 99; 99]
              eq_refl) as [Hin _].
  destruct Hin as (Hwrap & Hexact & _); [repeat constructor; lia|].
  destruct (nelem_is_product_in_int32 Demo.p (Demo.with_dims [0; 2 ^ 64]) [0; 2 ^ 64]
              eq_refl) as [_ Hout].
  split; [exact Hwrap|]. split.
  - apply Hexact. split; [vm_compute; discriminate|vm_compute; reflexivity].
  - apply Hout. right. left. right. lia.
Defined.

(** C9 as stated fails within the default range of the search: five axes
    of length 99 have 9509900499 elements, [nelem] answers 919965907. *)
Lemma nelem_exact_product_counterexample :
  EinTup.dims Demo.p (Demo.with_dims [99; 99; 99; 99; 99]) = Ok [99; 99; 99; 99; 99]
  /\ Forall (fun d => 5 <= d < 100) [99; 99; 99; 99; 99]
  /\ (length [99; 99; 99; 99; 99] <= 9)%nat
  /\ product [99; 99; 99; 99; 99] = 9509900499
  /\ EinTup.nelem Demo.p (Demo.with_dims [99; 99; 99; 99; 99]) = Ok 919965907
  /\ EinTup.nelem Demo.p (Demo.with_dims [99; 99; 99; 99; 99])
     <> Ok (product [99; 99; 99; 99; 99]).
Proof.
  split; [reflexivity|]. split; [repeat constructor; lia|].
  split; [simpl; lia|]. split; [reflexivity|]. split; [reflexivity|].
  vm_compute. discriminate.
Qed.

(** ** Iteration *)

Lemma lookup_concat_uniform {A} (ls : list (list A)) (n q r : nat) :
  Forall (fun l => length l = n) ls -> (r < n)%nat ->
  concat ls !! (q * n + r)%nat = ls !! q ≫= (fun l => l !! r).
Proof.
  intros Hall Hr. revert q. induction Hall as [|l ls Hl Hall IH]; intros q.
  - simpl. rewrite !lookup_nil. reflexivity.
  - destruct q as [|q]; simpl.
    + apply lookup_app_l. lia.
    + rewrite lookup_app_r by lia.
      replace (n + q * n + r - length l)%nat with (q * n + r)%nat by lia.
      apply IH.
Qed.

Lemma length_concat_uniform {A} (ls : list (list A)) (n : nat) :
  Forall (fun l => length l = n) ls -> length (concat ls) = (length ls * n)%nat.
Proof.
  induction 1 as [|l ls Hl Hall IH]; simpl; [reflexivity|].
  rewrite length_app, IH, Hl. reflexivity.
Qed.

Lemma ndindex_chunks (d : Z) (rest : list (list Z)) :
  Forall (fun l => length l = length rest)
         ((fun i => cons i <$> rest) <$> seqZ 0 d).
Proof.
  apply Forall_fmap, Forall_forall. intros i _. simpl. apply length_fmap.
Qed.

Lemma product_nonneg (ds : list Z) : Forall (fun d => 0 <= d) ds -> 0 <= product ds.
Proof. induction 1; simpl; lia. Qed.

Lemma length_ndindex_list (ds : list Z) :
  Forall (fun d => 0 <= d) ds ->
  Z.of_nat (length (ndindex_list ds)) = product ds.
Proof.
  induction 1 as [|d ds Hd Hds IH]; simpl; [reflexivity|].
  rewrite (length_concat_uniform _ _ (ndindex_chunks d (ndindex_list ds))).
  rewrite length_fmap, length_seqZ. lia.
Qed.

(** The tuple at position [i] of [ndindex_list] is the C-order unravelling
    of [i]: the enumeration is row-major, complete and without repeats. *)
Lemma lookup_ndindex_list (ds : list Z) (i : Z) :
  Forall (fun d => 0 <= d) ds -> 0 <= i < product ds ->
  ndindex_list ds !! Z.to_nat i = Some (unravel ds i).
Proof.
  intros Hall. revert i. induction Hall as [|d ds Hd Hds IH]; intros i Hi; simpl in *.
  - replace i with 0 by lia. reflexivity.
  - pose proof (product_nonneg ds Hds) as Hp.
    assert (Hpos : 0 < product ds) by nia.
    pose proof (Z.div_mod i (product ds) ltac:(lia)) as Hdm.
    pose proof (Z.mod_pos_bound i (product ds) Hpos) as Hm.
    assert (Hq : 0 <= i / product ds < d).
    { split; [apply Z.div_pos; lia|]. apply Z.div_lt_upper_bound; lia. }
    replace (Z.to_nat i)
      with (Z.to_nat (i / product ds) * length (ndindex_list ds)
            + Z.to_nat (i mod product ds))%nat.
    2:{ apply Nat2Z.inj. rewrite Nat2Z.inj_add, Nat2Z.inj_mul, !Z2Nat.id by lia.
        rewrite length_ndindex_list by exact Hds. lia. }
    rewrite (lookup_concat_uniform _ _ _ _ (ndindex_chunks d (ndindex_list ds))).
    2:{ apply Nat2Z.inj_lt. rewrite Z2Nat.id, length_ndindex_list by (auto; lia). lia. }
    rewrite list_lookup_fmap, lookup_seqZ_lt by (rewrite Z2Nat.id; lia).
    simpl. rewrite list_lookup_fmap, IH by lia. simpl.
    rewrite Z2Nat.id by lia. reflexivity.
Qed.

Lemma np_ndindex_ok (ds : list Z) :
  Forall (fun d => 0 <= d) ds -> np_ndindex ds = Ok (ndindex_list ds).
Proof.
  intros Hall. unfold np_ndindex.
  replace (forallb (fun d => 0 <=? d) ds) with true; [reflexivity|].
  symmetry. apply forallb_forall. intros d Hin.
  rewrite Forall_forall in Hall. apply Z.leb_le, Hall, list_elem_of_In, Hin.
Qed.

(** Draining an iterator that has [l] left yields [l], whatever was
    produced before. *)
Lemma drain_index (l : list (list Z)) :
  forall (e : EinTup.t) (acc : list (list Z)) (fuel : nat),
  EinTup.index e = Some l -> (length l < fuel)%nat ->
  exists e',
    EinTup.drain fuel e acc = Some (Ok (acc ++ l), e')
    /\ EinTup.shape e' = EinTup.shape e
    /\ EinTup.index e' = Some [].
Proof.
  induction l as [|i l IH]; intros e acc fuel Hidx Hfuel.
  - destruct fuel as [|fuel]; [simpl in Hfuel; lia|].
    exists e. simpl. unfold EinTup.__next__. rewrite Hidx.
    rewrite app_nil_r. auto.
  - destruct fuel as [|fuel]; [simpl in Hfuel; lia|].
    simpl. unfold EinTup.__next__. rewrite Hidx. simpl.
    destruct (IH (EinTup.mk (EinTup.name e) (EinTup.shadow_of e) (EinTup.shape e)
                    (Some i) (Some l)) (acc ++ [i]) fuel) as (e' & Hd & Hs & Hi).
    { reflexivity. }
    { simpl in Hfuel. lia. }
    exists e'. rewrite Hd, <- app_assoc. simpl. auto.
Qed.

Lemma iterate_from_any_state (e : EinTup.t) (h : list Shape.t) (ds : list Z) (fuel : nat) :
  EinTup.dims e h = Ok ds -> Forall (fun d => 0 <= d) ds ->
  (length (ndindex_list ds) < fuel)%nat ->
  exists e',
    EinTup.iterate fuel e h = Some (Ok (ndindex_list ds), e')
    /\ EinTup.shape e' = EinTup.shape e.
Proof.
  intros Hd Hall Hfuel. unfold EinTup.iterate, EinTup.__iter__.
  rewrite Hd. simpl. rewrite np_ndindex_ok by exact Hall. simpl.
  destruct (drain_index (ndindex_list ds)
              (EinTup.mk (EinTup.name e) (EinTup.shadow_of e) (EinTup.shape e)
                 (EinTup._value e) (Some (ndindex_list ds))) [] fuel)
    as (e' & Hdr & Hs & _); [reflexivity|exact Hfuel|].
  exists e'. split; [exact Hdr|exact Hs].
Qed.

(** C10: a new iteration request on a group whose dims are set (and, as the
    data model has them, not negative) yields every multi-index of the
    dims, in row-major order, and stops; the request can be made in any
    state of the group, after a complete iteration ([e1]) or in the middle
    of one ([e']), and yields the same sequence again. *)
Theorem iteration_is_row_major_and_restartable
  (e e' : EinTup.t) (h : list Shape.t) (ds : list Z) (fuel : nat) :
  EinTup.dims e h = Ok ds ->
  Forall (fun d => 0 <= d) ds ->
  (length (ndindex_list ds) < fuel)%nat ->
  EinTup.shape e' = EinTup.shape e ->
  (exists e1 e2 e3,
     EinTup.iterate fuel e h = Some (Ok (ndindex_list ds), e1)
     /\ EinTup.iterate fuel e1 h = Some (Ok (ndindex_list ds), e2)
     /\ EinTup.iterate fuel e' h = Some (Ok (ndindex_list ds), e3))
  /\ Z.of_nat (length (ndindex_list ds)) = product ds
  /\ forall i, 0 <= i < product ds ->
       ndindex_list ds !! Z.to_nat i = Some (unravel ds i).
Proof.
  intros Hd Hall Hfuel Hshape.
  split; [|split].
  - destruct (iterate_from_any_state e h ds fuel Hd Hall Hfuel) as (e1 & H1 & Hs1).
    assert (Hd1 : EinTup.dims e1 h = Ok ds).
    { unfold EinTup.dims in *. rewrite Hs1. exact Hd. }
    destruct (iterate_from_any_state e1 h ds fuel Hd1 Hall Hfuel) as (e2 & H2 & _).
    assert (Hd' : EinTup.dims e' h = Ok ds).
    { unfold EinTup.dims in *. rewrite Hshape. exact Hd. }
    destruct (iterate_from_any_state e' h ds fuel Hd' Hall Hfuel) as (e3 & H3 & _).
    exists e1, e2, e3. auto.
  - apply length_ndindex_list. exact Hall.
  - intros i Hi. apply lookup_ndindex_list; assumption.
Qed.

(** The group with dims [[2; 3]]: the six pairs, in order; [e'] is the
    group stopped after two calls of [next]. *)
Lemma iteration_is_row_major_and_restartable_witness :
  let rows := [[0; 0]; [0; 1]; [0; 2]; [1; 0]; [1; 1]; [1; 2]] in
  let e' := EinTup.mk "p" None 0 (Some [0; 1]) (Some [[0; 2]; [1; 0]; [1; 1]; [1; 2]]) in
  (exists e1 e2 e3,
     EinTup.iterate 7 Demo.p (Demo.with_dims [2; 3]) = Some (Ok rows, e1)
     /\ EinTup.iterate 7 e1 (Demo.with_dims [2; 3]) = Some (Ok rows, e2)
     /\ EinTup.iterate 7 e' (Demo.with_dims [2; 3]) = Some (Ok rows, e3))
  /\ Z.of_nat (length rows) = product [2; 3]
  /\ forall i, 0 <= i < product [2; 3] ->
       rows !! Z.to_nat i = Some (unravel [2; 3] i).
Proof.
  intros rows e'.
  apply (iteration_is_row_major_and_restartable Demo.p e' (Demo.with_dims [2; 3]) [2; 3] 7).
  - reflexivity.
  - repeat constructor; lia.
  - vm_compute. lia.
  - reflexivity.
Defined.

(** ** The state monad *)

Lemma bind_ok {S A B} (m : M S A) (k : A -> M S B) (s s' : S) (b : B) :
  bind m k s = (Ok b, s') ->
  exists a s1, m s = (Ok a, s1) /\ k a s1 = (Ok b, s').
Proof.
  unfold bind. destruct (m s) as [[a|e] s1]; [eauto|discriminate].
Qed.

Lemma bind_modify {S B} (f : S -> S) (k : unit -> M S B) (s : S) :
  bind (modify f) k s = k tt (f s).
Proof. reflexivity. Qed.

(** ** What the methods of [Runtime] leave alone *)

Section RuntimeFrame.
Context {C : Runtime.Collaborators}.

Lemma frame_refl (rt : Runtime.t C) : Runtime.frame rt rt.
Proof. repeat split; try reflexivity. exists []. symmetry. apply app_nil_r. Qed.

Lemma frame_trans (r1 r2 r3 : Runtime.t C) : Runtime.frame r1 r2 -> Runtime.frame r2 r3 -> Runtime.frame r1 r3.
Proof.
  intros (a1 & a2 & a3 & a4 & a5 & a6 & a7 & e1 & a8)
         (b1 & b2 & b3 & b4 & b5 & b6 & b7 & e2 & b8).
  repeat split; try congruence.
  exists (e1 ++ e2). rewrite b8, a8, app_assoc. reflexivity.
Qed.

Lemma framed_ret {A} (a : A) : Runtime.framed (ret a).
Proof. intros rt. apply frame_refl. Qed.

Lemma framed_raise {A} (e : PyExn) : Runtime.framed (@raise _ A e).
Proof. intros rt. apply frame_refl. Qed.

Lemma framed_bind {A B} (m : M (Runtime.t C) A) (k : A -> M (Runtime.t C) B) :
  Runtime.framed m -> (forall a, Runtime.framed (k a)) -> Runtime.framed (bind m k).
Proof.
  intros Hm Hk rt. unfold bind. specialize (Hm rt).
  destruct (m rt) as [[a|e] s1]; simpl in *; [|exact Hm].
  eapply frame_trans; [exact Hm|apply Hk].
Qed.

Lemma framed_call {A} (ev : Runtime.Event C) (f : M (Runtime.Env Runtime.Ext) A) :
  Runtime.framed (Runtime.call ev f).
Proof.
  intros rt. unfold Runtime.call.
  destruct (f (Runtime.env (Runtime.log ev rt))) as [r e'].
  repeat split; try reflexivity. exists [ev]. reflexivity.
Qed.

Lemma framed_on_shapes {A} (f : M (list Shape.t) A) : Runtime.framed (Runtime.on_shapes f).
Proof.
  intros rt. unfold Runtime.on_shapes.
  destruct (f (Runtime.shapes (Runtime.env rt))) as [r h'].
  repeat split; try reflexivity. exists []. symmetry. apply app_nil_r.
Qed.

Lemma framed_read_attr {A} (field : Runtime.t C -> option A) (e : PyExn) :
  Runtime.framed (Runtime.read_attr field e).
Proof. intros rt. unfold Runtime.read_attr. destruct (field rt); apply frame_refl. Qed.

Lemma framed_for_each {A} (body : A -> M (Runtime.t C) unit) (xs : list A) :
  (forall x, Runtime.framed (body x)) -> Runtime.framed (for_each body xs).
Proof.
  intros Hb. induction xs as [|x xs IH]; simpl.
  - apply framed_ret.
  - apply framed_bind; [apply Hb|intros _; exact IH].
Qed.

Lemma framed_list_comp {A B} (f : A -> M (Runtime.t C) B) (xs : list A) :
  (forall x, Runtime.framed (f x)) -> Runtime.framed (list_comp f xs).
Proof.
  intros Hf. induction xs as [|x xs IH]; simpl.
  - apply framed_ret.
  - apply framed_bind; [apply Hf|intros y].
    apply framed_bind; [exact IH|intros ys; apply framed_ret].
Qed.

Lemma framed_py_all {A} (f : A -> M (Runtime.t C) bool) (xs : list A) :
  (forall x, Runtime.framed (f x)) -> Runtime.framed (py_all f xs).
Proof.
  intros Hf. induction xs as [|x xs IH]; simpl.
  - apply framed_ret.
  - apply framed_bind; [apply Hf|intros [|]; [exact IH|apply framed_ret]].
Qed.

Lemma framed_value_is_true (con : Runtime.Node) : Runtime.framed (Runtime.value_is_true con).
Proof.
  unfold Runtime.value_is_true.
  apply framed_bind; [apply framed_call|intros v; apply framed_ret].
Qed.

Lemma framed_constraints_hold : Runtime.framed Runtime.constraints_hold.
Proof.
  intros rt. unfold Runtime.constraints_hold.
  destruct (Runtime.constraints rt) as [cns|]; [|apply frame_refl].
  apply framed_py_all. apply framed_value_is_true.
Qed.

(** No statement of [parse_et_file] assigns [outputs]. *)
Lemma parse_et_file_keeps_outputs (content : string) (rt : Runtime.t C) :
  Runtime.outputs (Runtime.parse_et_file content rt).2 = Runtime.outputs rt.
Proof.
  unfold Runtime.parse_et_file.
  destruct (re_split_blank_lines (py_strip content)) as [|s1 [|s2 [|s3 rest]]];
    try reflexivity.
  set (cnstr := match rest with [] => EmptyString | c :: _ => c end).
  revert rt.
  assert (Hkeep : forall A (m : M (Runtime.t C) A),
             Runtime.framed m -> forall rt, Runtime.outputs (m rt).2 = Runtime.outputs rt).
  { intros A m Hm rt. apply (Hm rt). }
  assert (Hbind : forall A B (m : M (Runtime.t C) A) (k : A -> M (Runtime.t C) B),
             (forall rt, Runtime.outputs (m rt).2 = Runtime.outputs rt) ->
             (forall a rt, Runtime.outputs (k a rt).2 = Runtime.outputs rt) ->
             forall rt, Runtime.outputs (bind m k rt).2 = Runtime.outputs rt).
  { intros A B m k Hm Hk rt. unfold bind. specialize (Hm rt).
    destruct (m rt) as [[a|e] rt1]; simpl in *; [|exact Hm].
    rewrite Hk. exact Hm. }
  apply Hbind.
  { apply Hkeep, framed_list_comp. intros x. apply framed_call. }
  intros sts. apply Hbind; [reflexivity|intros _].
  apply Hbind; [apply Hkeep, framed_call|intros cl].
  apply Hbind; [reflexivity|intros _].
  apply Hbind; [apply Hkeep, framed_call|intros outs].
  apply Hbind; [reflexivity|intros _].
  apply Hbind.
  { apply Hkeep, framed_list_comp. intros x. apply framed_call. }
  intros cns. apply Hbind; [reflexivity|intros _].
  apply Hkeep, framed_for_each. intros x. apply framed_call.
Qed.

End RuntimeFrame.

(** ** Loading a specification, and [run] *)

Section RunAndLoad.
Context {C : Runtime.Collaborators}.

Lemma framed_eq {A} (m : M (Runtime.t C) A) (rt rt' : Runtime.t C) (r : Res A) :
  Runtime.framed m -> m rt = (r, rt') -> Runtime.frame rt rt'.
Proof. intros Hm Heq. specialize (Hm rt). rewrite Heq in Hm. exact Hm. Qed.

Lemma call_trace {A} (ev : Runtime.Event C) (f : M (Runtime.Env Runtime.Ext) A)
      (rt rt' : Runtime.t C) (r : Res A) :
  Runtime.call ev f rt = (r, rt') ->
  Runtime.trace rt' = Runtime.trace rt ++ [ev].
Proof.
  unfold Runtime.call.
  destruct (f (Runtime.env (Runtime.log ev rt))) as [r0 e'].
  intros H. injection H as _ <-. reflexivity.
Qed.

(** A loop over the statements that ends normally evaluated each of them,
    once, in the declared order. *)
Lemma evaluate_in_order (sts : list Runtime.Node) :
  forall rt rt' : Runtime.t C,
  for_each Runtime.evaluate_statement sts rt = (Ok tt, rt') ->
  Runtime.trace rt' = Runtime.trace rt ++ (Runtime.EvEvaluate <$> sts).
Proof.
  induction sts as [|st sts IH]; intros rt rt' H; simpl in *.
  - injection H as <-. symmetry. apply app_nil_r.
  - apply bind_ok in H as (u & rt1 & H1 & H2).
    apply call_trace in H1. apply IH in H2.
    rewrite H2, H1, <- app_assoc. reflexivity.
Qed.

(** C1: after a specification is loaded into a runtime whose [outputs]
    was never assigned, [run] evaluates the statements in the declared
    order when the constraints hold, and then raises [AttributeError] on
    [self.outputs]: it returns no set of results, whatever the
    constraints and the statements do. *)
Theorem run_after_load_raises_on_outputs
  (content : string) (rt0 rt rt1 rt2 : Runtime.t C) (sts : list Runtime.Node) :
  Runtime.outputs rt0 = None ->
  Runtime.parse_et_file content rt0 = (Ok tt, rt) ->
  Runtime.constraints_hold rt = (Ok true, rt1) ->
  Runtime.statements rt = Some sts ->
  for_each Runtime.evaluate_statement sts rt1 = (Ok tt, rt2) ->
  Runtime.run rt = (Raise (AttributeError "outputs"), rt2)
  /\ Runtime.trace rt2 = Runtime.trace rt1 ++ (Runtime.EvEvaluate <$> sts)
  /\ forall res rt' outs, Runtime.run rt = (res, rt') -> res <> Ok (Some outs).
Proof.
  intros H0 Hload Hcons Hsts Hev.
  assert (Hout : Runtime.outputs rt = None).
  { pose proof (parse_et_file_keeps_outputs content rt0) as Hk.
    rewrite Hload in Hk. simpl in Hk. congruence. }
  pose proof (framed_eq _ _ _ _ framed_constraints_hold Hcons) as F1.
  pose proof (framed_eq _ _ _ _
                (framed_for_each Runtime.evaluate_statement sts
                   (fun st => framed_call _ _)) Hev) as F2.
  assert (Hrun : Runtime.run rt = (Raise (AttributeError "outputs"), rt2)).
  { unfold Runtime.run, bind. rewrite Hcons. simpl.
    unfold Runtime.read_attr at 1.
    destruct F1 as (S1 & _ & _ & _ & O1 & _).
    rewrite S1, Hsts.
    rewrite Hev.
    unfold Runtime.read_attr.
    destruct F2 as (_ & _ & _ & _ & O2 & _).
    rewrite O2, O1, Hout. reflexivity. }
  split; [exact Hrun|]. split; [apply evaluate_in_order; exact Hev|].
  intros res rt' outs Hr. rewrite Hrun in Hr. injection Hr as <- _. discriminate.
Qed.

(** C5: when the text has three sections and no constraints section, a
    successful load has called the grammar once in constraint mode, on
    the empty line, and [constraints] holds the node it returned: the
    list is not empty. *)
Theorem absent_constraints_section_parses_empty_line
  (content s1 s2 s3 : string) (rt rt' : Runtime.t C) :
  re_split_blank_lines (py_strip content) = [s1; s2; s3] ->
  Runtime.parse_et_file content rt = (Ok tt, rt') ->
  exists (c : Runtime.Node) (before after : list (Runtime.Event C)),
    Runtime.constraints rt' = Some [c]
    /\ Runtime.trace rt'
       = Runtime.trace rt ++ before
         ++ [Runtime.EvParse Runtime.ConstraintMode EmptyString] ++ after.
Proof.
  intros Hsplit H. unfold Runtime.parse_et_file in H. rewrite Hsplit in H.
  cbv beta iota zeta in H.
  change (py_split_lines (py_strip EmptyString)) with [EmptyString] in H.
  apply bind_ok in H as (sts & r1 & H1 & H). rewrite bind_modify in H.
  apply bind_ok in H as (cl & r2 & H2 & H). rewrite bind_modify in H.
  apply bind_ok in H as (outs & r3 & H3 & H). rewrite bind_modify in H.
  apply bind_ok in H as (cns & r4 & H4 & H). rewrite bind_modify in H.
  simpl in H4. apply bind_ok in H4 as (c & r5 & Hc & H4).
  unfold bind, ret in H4. injection H4 as <- <-.
  apply (framed_eq _ _ _ _ (framed_list_comp _ _ (fun x => framed_call _ _)))
    in H1 as (_ & _ & _ & _ & _ & _ & _ & e1 & T1).
  apply call_trace in H2, H3, Hc.
  apply (framed_eq _ _ _ _ (framed_for_each _ _ (fun x => framed_call _ _)))
    in H as (_ & K & _ & _ & _ & _ & _ & e5 & T5).
  exists c, (e1 ++ [Runtime.EvParse Runtime.TfcallMode (py_strip (py_replace_newlines s2));
                    Runtime.EvParse Runtime.OutputMode (py_strip (py_replace_newlines s3))]),
         e5.
  split; [exact K|].
  rewrite T5. simpl. rewrite Hc. simpl. rewrite H3. simpl. rewrite H2. simpl.
  rewrite T1. rewrite <- !app_assoc. reflexivity.
Qed.

End RunAndLoad.

(** ** Dicts *)

Lemma dict_get_app_none {V} (k : string) (d1 d2 : list (string * V)) :
  dict_get k d1 = None -> dict_get k (d1 ++ d2) = dict_get k d2.
Proof.
  induction d1 as [|[k' v] d1 IH]; simpl; [reflexivity|].
  destruct (String.eqb k k'); [discriminate|exact IH].
Qed.

Lemma dict_set_fresh {V} (k : string) (v : V) (d : list (string * V)) :
  dict_get k d = None -> dict_set k v d = d ++ [(k, v)].
Proof.
  induction d as [|[k' v'] d IH]; simpl; [reflexivity|].
  destruct (String.eqb k k'); [discriminate|].
  intros H. rewrite IH by exact H. reflexivity.
Qed.

Lemma py_dict_fold {V} (l : list (string * V)) :
  forall acc : list (string * V),
  NoDup (l.*1) -> (forall k, k ∈ l.*1 -> dict_get k acc = None) ->
  fold_left (fun d kv => dict_set kv.1 kv.2 d) l acc = acc ++ l.
Proof.
  induction l as [|[k v] l IH]; intros acc Hnd Hfresh; simpl.
  - symmetry. apply app_nil_r.
  - simpl in Hnd. apply NoDup_cons in Hnd as [Hk Hnd].
    rewrite dict_set_fresh by (apply Hfresh; simpl; left).
    rewrite IH.
    + rewrite <- app_assoc. reflexivity.
    + exact Hnd.
    + intros k' Hk'. rewrite dict_get_app_none by (apply Hfresh; simpl; right; exact Hk').
      simpl. destruct (String.eqb_spec k' k) as [->|_]; [contradiction|reflexivity].
Qed.

(** [dict(pairs)] is [pairs] when no key comes twice. *)
Lemma py_dict_nodup {V} (l : list (string * V)) : NoDup (l.*1) -> py_dict l = l.
Proof.
  intros Hnd. unfold py_dict. rewrite py_dict_fold; [reflexivity|exact Hnd|reflexivity].
Qed.

(** ** The tuples of [ndindex_list] *)

Lemma ndindex_list_elem (ds c : list Z) :
  c ∈ ndindex_list ds -> length c = length ds /\ Forall (fun r => 0 <= r) c.
Proof.
  revert c. induction ds as [|d ds IH]; intros c Hc; simpl in Hc.
  - apply list_elem_of_singleton in Hc as ->. split; [reflexivity|constructor].
  - apply list_elem_of_In, in_concat in Hc as (chunk & Hchunk & Hin).
    apply list_elem_of_In, list_elem_of_fmap in Hchunk as (i & -> & Hi).
    apply list_elem_of_In, list_elem_of_fmap in Hin as (c' & -> & Hc').
    apply IH in Hc' as [Hlen Hall]. apply elem_of_seqZ in Hi.
    split; [simpl; congruence|constructor; [lia|exact Hall]].
Qed.

(** ** Rank search *)

Section RankSearch.
Context {C : Runtime.Collaborators}.

Lemma runtime_rank_of_filed (e : Runtime.Env Runtime.Ext) (p : EinTup.t) :
  dict_get (EinTup.name p) (Runtime.tups e) = Some p ->
  Runtime.rank e (EinTup.name p) = EinTup.rank p (Runtime.shapes e).
Proof.
  intros H. unfold Runtime.rank, Runtime.dims, Runtime.tup. rewrite H. reflexivity.
Qed.

Lemma set_rank_of_primary (rt : Runtime.t C) (p : EinTup.t) (r : Z) :
  dict_get (EinTup.name p) (Runtime.tups (Runtime.env rt)) = Some p ->
  EinTup.primary p = true ->
  Runtime.min_dim rt < Runtime.max_dim rt -> 0 <= r ->
  exists (ds : list Z) (rt' : Runtime.t C),
    Runtime.set_rank_of (EinTup.name p) r rt = (Ok tt, rt')
    /\ Z.of_nat (length ds) = r
    /\ Runtime.frame rt rt'
    /\ Runtime.tups (Runtime.env rt') = Runtime.tups (Runtime.env rt)
    /\ Runtime.shapes (Runtime.env rt')
       = Shape.set (EinTup.shape p) ds (Runtime.shapes (Runtime.env rt)).
Proof.
  intros Hget Hprim Hrange Hr.
  unfold Runtime.set_rank_of. rewrite Hget, Hprim. cbn [negb].
  unfold randint.
  destruct (Z.leb_spec (Runtime.max_dim rt) (Runtime.min_dim rt)) as [|_]; [lia|].
  destruct (Z.ltb_spec r 0) as [|_]; [lia|].
  unfold Runtime.on_shapes. cbn [Runtime.env Runtime.set_rng Runtime.shapes].
  rewrite set_dims_primary by exact Hprim.
  eexists _, _. split; [reflexivity|].
  match goal with |- _ /\ _ /\ _ /\ ?G => assert (Hs : G) by reflexivity end.
  split; [rewrite length_fmap, length_seq; lia|].
  split; [|split; [reflexivity|exact Hs]].
  repeat split; try reflexivity. exists []. symmetry. apply app_nil_r.
Qed.

(** [set_ranks] on the primary groups [ps]: each gets dims of the rank
    asked for, and no other [Shape] is written. *)
Lemma set_ranks_primaries (ps : list EinTup.t) :
  forall (cs : list Z) (rt : Runtime.t C),
  length cs = length ps ->
  Forall (fun r => 0 <= r) cs ->
  Forall (fun p => dict_get (EinTup.name p) (Runtime.tups (Runtime.env rt)) = Some p
                   /\ EinTup.primary p = true
                   /\ (EinTup.shape p < length (Runtime.shapes (Runtime.env rt)))%nat) ps ->
  NoDup (EinTup.shape <$> ps) ->
  Runtime.min_dim rt < Runtime.max_dim rt ->
  exists rt' : Runtime.t C,
    Runtime.set_ranks (zip (EinTup.name <$> ps) cs) rt = (Ok tt, rt')
    /\ Runtime.frame rt rt'
    /\ Runtime.tups (Runtime.env rt') = Runtime.tups (Runtime.env rt)
    /\ length (Runtime.shapes (Runtime.env rt')) = length (Runtime.shapes (Runtime.env rt))
    /\ (forall a, a ∉ EinTup.shape <$> ps ->
          Runtime.shapes (Runtime.env rt') !! a = Runtime.shapes (Runtime.env rt) !! a)
    /\ Forall2 (fun p r => EinTup.rank p (Runtime.shapes (Runtime.env rt')) = Ok r) ps cs.
Proof.
  induction ps as [|p ps IH]; intros cs rt Hlen Hcs Hps Hnd Hrange.
  - destruct cs; [|discriminate]. exists rt. simpl.
    split; [reflexivity|]. split; [apply frame_refl|].
    repeat split; auto.
  - destruct cs as [|r cs]; [discriminate|].
    apply Forall_cons in Hcs as [Hr Hcs].
    apply Forall_cons in Hps as [(Hget & Hprim & Hlt) Hps].
    simpl in Hnd. apply NoDup_cons in Hnd as [Hfresh Hnd].
    destruct (set_rank_of_primary rt p r Hget Hprim Hrange Hr)
      as (ds & rt1 & Hset & Hds & F1 & T1 & S1).
    destruct (IH cs rt1) as (rt' & Hrun & F2 & T2 & L2 & U2 & R2).
    { simpl in Hlen. lia. }
    { exact Hcs. }
    { eapply Forall_impl; [exact Hps|]. intros q (Hq1 & Hq2 & Hq3).
      rewrite T1, S1, shape_set_length. auto. }
    { exact Hnd. }
    { destruct F1 as (_ & _ & _ & _ & _ & -> & -> & _). exact Hrange. }
    exists rt'. split.
    { change (Runtime.set_ranks (zip (EinTup.name <$> p :: ps) (r :: cs)) rt)
        with (bind (Runtime.set_rank_of (EinTup.name p) r)
                   (fun _ => Runtime.set_ranks (zip (EinTup.name <$> ps) cs)) rt).
      unfold bind. rewrite Hset. exact Hrun. }
    split; [eapply frame_trans; eassumption|].
    split; [congruence|].
    split; [rewrite L2, S1; apply shape_set_length|].
    split.
    { intros a Ha. simpl in Ha. apply not_elem_of_cons in Ha as [Hne Ha].
      rewrite U2 by exact Ha. rewrite S1. unfold Shape.set.
      apply list_lookup_insert_ne. congruence. }
    constructor; [|exact R2].
    unfold EinTup.rank, Shape.get, Shape.read.
    rewrite U2 by exact Hfresh. rewrite S1. unfold Shape.set.
    rewrite list_lookup_insert_eq by exact Hlt. simpl. rewrite Hds. reflexivity.
Qed.

(** Constraints over the ranks: [all(...)] is their conjunction, and
    leaves [env] as it is. *)
Lemma constraints_hold_rank_only
      (names : list string) (combo : list Z)
      (cns : list Runtime.Node) (holds : list (list Z -> bool)) :
  Forall2 (Runtime.rank_constraint names) cns holds ->
  forall rt : Runtime.t C,
  Forall2 (fun nm r => Runtime.rank (Runtime.env rt) nm = Ok r) names combo ->
  exists rt' : Runtime.t C,
    py_all Runtime.value_is_true cns rt = (Ok (forallb (fun P => P combo) holds), rt')
    /\ Runtime.env rt' = Runtime.env rt
    /\ Runtime.frame rt rt'.
Proof.
  induction 1 as [|con P cns holds Hcon Hrest IH]; intros rt Hranks.
  - exists rt. simpl. split; [reflexivity|]. split; [reflexivity|apply frame_refl].
  - destruct (Hcon (Runtime.env rt) combo Hranks) as (v & Hv & Htruth).
    set (rt1 := Runtime.set_env (Runtime.log (Runtime.EvValue con) rt) (Runtime.env rt)).
    assert (Hstep : Runtime.value_is_true con rt = (Ok (P combo), rt1)).
    { unfold Runtime.value_is_true, bind, Runtime.call.
      cbn [Runtime.env Runtime.log]. rewrite Hv. unfold ret. rewrite Htruth. reflexivity. }
    assert (F1 : Runtime.frame rt rt1).
    { repeat split; try reflexivity. exists [Runtime.EvValue con]. reflexivity. }
    simpl. unfold bind. rewrite Hstep.
    destruct (P combo).
    + destruct (IH rt1) as (rt' & Hall & He & F2); [exact Hranks|].
      exists rt'. split; [exact Hall|]. split; [exact He|].
      eapply frame_trans; eassumption.
    + exists rt1. split; [reflexivity|]. split; [reflexivity|exact F1].
Qed.

(** The loop of [gen_shapes] over rank constraints: it yields the rank
    map of every combination the constraints accept, in order, and of no
    other, and ends normally. *)
Lemma gen_shapes_loop_accepts
      (ps : list EinTup.t) (cns : list Runtime.Node) (holds : list (list Z -> bool)) :
  NoDup (EinTup.shape <$> ps) -> NoDup (EinTup.name <$> ps) ->
  Forall2 (Runtime.rank_constraint (EinTup.name <$> ps)) cns holds ->
  forall (combos : list (list Z)) (rt : Runtime.t C),
  Forall (fun c => length c = length ps /\ Forall (fun r => 0 <= r) c) combos ->
  Runtime.constraints rt = Some cns ->
  Runtime.min_dim rt < Runtime.max_dim rt ->
  Forall (fun p => dict_get (EinTup.name p) (Runtime.tups (Runtime.env rt)) = Some p
                   /\ EinTup.primary p = true
                   /\ (EinTup.shape p < length (Runtime.shapes (Runtime.env rt)))%nat) ps ->
  exists rt' : Runtime.t C,
    Runtime.gen_shapes_loop (EinTup.name <$> ps) combos rt
    = (zip (EinTup.name <$> ps) <$> Runtime.accepted holds combos, Ok tt, rt').
Proof.
  intros Hnds Hndn Hcns.
  induction combos as [|c combos IH]; intros rt Hcombos Hc Hrange Hps.
  - exists rt. reflexivity.
  - apply Forall_cons in Hcombos as [[Hlen Hnonneg] Hcombos].
    cbn [Runtime.gen_shapes_loop].
    rewrite py_dict_nodup.
    2:{ rewrite fst_zip; [exact Hndn|]. rewrite length_fmap. lia. }
    destruct (set_ranks_primaries ps c rt Hlen Hnonneg Hps Hnds Hrange)
      as (rt1 & Hset & F1 & T1 & L1 & _ & R1).
    rewrite Hset.
    assert (Hranks : Forall2 (fun nm r => Runtime.rank (Runtime.env rt1) nm = Ok r)
                             (EinTup.name <$> ps) c).
    { apply Forall2_fmap_l.
      assert (Hfiled : Forall (fun p => dict_get (EinTup.name p)
                                 (Runtime.tups (Runtime.env rt1)) = Some p) ps).
      { eapply Forall_impl; [exact Hps|]. intros q (Hq & _). rewrite T1. exact Hq. }
      clear -R1 Hfiled. induction R1 as [|q r qs rs Hq Hrest IHr]; constructor.
      - apply Forall_cons in Hfiled as [Hf _]. unfold compose.
        rewrite runtime_rank_of_filed by exact Hf. exact Hq.
      - apply IHr. apply Forall_cons in Hfiled as [_ Hf]. exact Hf. }
    destruct (constraints_hold_rank_only _ c cns holds Hcns rt1 Hranks)
      as (rt2 & Hall & E2 & F2).
    assert (Hc1 : Runtime.constraints rt1 = Some cns).
    { destruct F1 as (_ & -> & _). exact Hc. }
    unfold Runtime.constraints_hold. rewrite Hc1, Hall.
    destruct (IH rt2) as (rt' & Hloop).
    { exact Hcombos. }
    { destruct F2 as (_ & -> & _). exact Hc1. }
    { destruct F1 as (_ & _ & _ & _ & _ & A1 & B1 & _).
      destruct F2 as (_ & _ & _ & _ & _ & A2 & B2 & _).
      rewrite A2, B2, A1, B1. exact Hrange. }
    { eapply Forall_impl; [exact Hps|]. intros q (Hq1 & Hq2 & Hq3).
      rewrite E2, T1, L1. auto. }
    rewrite Hloop. unfold Runtime.accepted.
    destruct (forallb (fun P => P c) holds) eqn:Hacc.
    + exists rt'. rewrite filter_cons_True by exact Hacc. reflexivity.
    + exists rt'. rewrite filter_cons_False by congruence. reflexivity.
Qed.

(** C4, as the code has it: with exactly two primary groups, [gen_shapes]
    goes through the 100 rank combinations of [{0..9} x {0..9}] in
    row-major order and yields the rank map of each combination the
    constraints accept, and of no other; without constraints that is all
    100, and with the one constraint that rejects rank 0 for one of the
    two groups it is 90. *)
Theorem gen_shapes_two_primary_groups
        (rt : Runtime.t C) (p1 p2 : EinTup.t)
        (cns : list Runtime.Node) (holds : list (list Z -> bool)) :
  Runtime.get_primary_tups (Runtime.env rt) = [p1; p2] ->
  Runtime.registry_ok (Runtime.env rt) ->
  Runtime.min_dim rt < Runtime.max_dim rt ->
  Runtime.constraints rt = Some cns ->
  Forall2 (Runtime.rank_constraint [EinTup.name p1; EinTup.name p2]) cns holds ->
  exists rt' : Runtime.t C,
    Runtime.gen_shapes rt
    = (zip [EinTup.name p1; EinTup.name p2]
         <$> Runtime.accepted holds (ndindex_list [10; 10]), Ok tt, rt')
    /\ length (ndindex_list [10; 10]) = 100%nat
    /\ (cns = [] ->
        Runtime.accepted holds (ndindex_list [10; 10]) = ndindex_list [10; 10])
    /\ (forall i, (i < 2)%nat -> holds = [Runtime.rejects_rank_zero i] ->
        length (Runtime.accepted holds (ndindex_list [10; 10])) = 90%nat).
Proof.
  intros Hprims (Hfiled & Hnds & Hndn) Hrange Hc Hcns.
  rewrite Hprims in Hfiled, Hnds, Hndn.
  assert (Hps : Forall (fun p => dict_get (EinTup.name p)
                          (Runtime.tups (Runtime.env rt)) = Some p
                        /\ EinTup.primary p = true
                        /\ (EinTup.shape p < length (Runtime.shapes (Runtime.env rt)))%nat)
                       [p1; p2]).
  { apply Forall_forall. intros q Hq.
    rewrite Forall_forall in Hfiled. destruct (Hfiled q Hq) as [Hq1 Hq2].
    split; [exact Hq1|]. split; [|exact Hq2].
    rewrite <- Hprims in Hq. unfold Runtime.get_primary_tups in Hq.
    apply list_elem_of_filter in Hq as [Hq _]. exact Hq. }
  destruct (gen_shapes_loop_accepts [p1; p2] cns holds Hnds Hndn Hcns
              (ndindex_list [10; 10]) rt) as (rt' & Hloop); auto.
  { apply Forall_forall. intros c Hin. apply ndindex_list_elem in Hin. exact Hin. }
  exists rt'. split.
  { unfold Runtime.gen_shapes. rewrite Hprims. exact Hloop. }
  split; [reflexivity|]. split.
  - intros ->. inversion Hcns; subst. reflexivity.
  - intros i Hi ->. destruct i as [|[|i]]; [reflexivity|reflexivity|lia].
Qed.

End RankSearch.

(** ** Tensor equality *)



Section EqualTens.
Context {AR : Tensor.Arith}.


End EqualTens.


(** Two [float32] vectors: the caller's tolerance decides
    ([2 + 2^-22] is within [1e-6] of 2, [2 + 2^-19] is not). *)
Lemma equal_tens_float32_example :
  let a := Demo.float_vector [(1, 0); (2, 0)] in
  let near := Demo.float_vector [(1, 0); (8388609, -22)] in
  let far := Demo.float_vector [(1, 0); (8388616, -22)] in
  Tensor.equal_tens a near Demo.py_1e_6 = Ok true
  /\ Tensor.equal_tens a far Demo.py_1e_6 = Ok false
  /\ Tensor.equal_tens a near Demo.py_0 = Ok false
  /\ Tensor.equal_tens a a Demo.py_0 = Ok true.
Proof. repeat split; vm_compute; reflexivity. Qed.


(** ** The instrumentation wrapper *)

Section Wrapper.
Context {F : Opcheck.Framework}.

(** The statements before [try]: the schema's [init] and [evaluate] are
    called and the verdict is printed. *)
Lemma input_validation_events (bound : Opcheck.Bound) (st : Opcheck.State F) :
  exists verdict,
    Opcheck.events (Opcheck.input_validation bound st)
    = Opcheck.events st ++ [Opcheck.CallInit bound; Opcheck.CallEvaluate] ++ verdict
    /\ (verdict = [Opcheck.PrintInputValidationPassed]
        \/ exists text,
             verdict = [Opcheck.CallReport; Opcheck.PrintInputValidationFailed text])
    /\ Opcheck.config_validate (Opcheck.input_validation bound st)
       = Opcheck.config_validate st.
Proof.
  unfold Opcheck.input_validation. simpl.
  destruct (Opcheck.p_evaluate _ _) as [valid s].
  destruct valid; simpl.
  - exists [Opcheck.PrintInputValidationPassed]. rewrite <- !app_assoc. simpl.
    split; [reflexivity|]. split; [left; reflexivity|reflexivity].
  - unfold Opcheck.call_report. simpl.
    destruct (Opcheck.p_report _ s) as [text s']. simpl.
    exists [Opcheck.CallReport; Opcheck.PrintInputValidationFailed text].
    rewrite <- !app_assoc. simpl.
    split; [reflexivity|]. split; [right; eexists; reflexivity|reflexivity].
Qed.

(** The [try] statement, case by case. *)
Lemma wrapper_after_func
      (args : Opcheck.Args) (bound : Opcheck.Bound) (st : Opcheck.State F) :
  Opcheck.sig_bind args = Some bound ->
  Opcheck.config_validate (Opcheck.wrapper args st).2 = Opcheck.config_validate st
  /\ match (Opcheck.after_func args bound st).1 with
     | inl ex =>
         (Opcheck.wrapper args st).1 = Opcheck.Raised ex
         /\ Opcheck.events (Opcheck.wrapper args st).2
            = Opcheck.events (Opcheck.after_func args bound st).2
              ++ (if Opcheck.is_Exception ex
                  then [Opcheck.PrintFrameworkException ex] else [])
              ++ [Opcheck.CallReport]
     | inr ret_val =>
         (Opcheck.wrapper args st).1 = Opcheck.Returned ret_val
         /\ Opcheck.events (Opcheck.wrapper args st).2
            = Opcheck.events (Opcheck.after_func args bound st).2
              ++ [Opcheck.CallSetOutputs ret_val; Opcheck.CallValidate]
              ++ [Opcheck.CallReport]
     end.
Proof.
  intros Hbind.
  destruct (input_validation_events bound st) as (_ & _ & _ & Hcfg).
  unfold Opcheck.wrapper, Opcheck.after_func. rewrite Hbind. simpl.
  destruct (Opcheck.func args (Opcheck.world (Opcheck.input_validation bound st)))
    as [[ex|ret_val] w]; simpl.
  - destruct (Opcheck.is_Exception ex); unfold Opcheck.finally, Opcheck.call_report; simpl.
    + destruct (Opcheck.p_report _ _) as [text s]. simpl.
      split; [exact Hcfg|]. split; [reflexivity|]. rewrite <- !app_assoc. reflexivity.
    + destruct (Opcheck.p_report _ _) as [text s]. simpl.
      split; [exact Hcfg|]. split; reflexivity.
  - unfold Opcheck.finally, Opcheck.call_report. simpl.
    destruct (Opcheck.p_report _ _) as [text s]. simpl.
    split; [exact Hcfg|]. split; [reflexivity|]. rewrite <- !app_assoc. reflexivity.
Qed.

(** C8, what the code does: once the wrapped operation was called, the
    schema's [report] is called last on every path, and what it returns
    is printed on none: the events after the call of the operation are
    the diagnostic (for an exception that derives from [Exception]) or
    the calls of the output validation, then the call of [report], and no
    print of a report.  The exception of the operation reaches the caller
    as the object that was raised, and a value it returns is returned. *)
Theorem wrapper_final_report_is_not_printed
        (args : Opcheck.Args) (bound : Opcheck.Bound) (st : Opcheck.State F) :
  Opcheck.sig_bind args = Some bound ->
  let r := (Opcheck.after_func args bound st).1 in
  let before := Opcheck.events (Opcheck.after_func args bound st).2 in
  let out := Opcheck.wrapper args st in
  exists tail,
    Opcheck.events out.2 = before ++ tail ++ [Opcheck.CallReport]
    /\ Forall (fun ev => Opcheck.prints_report ev = false) (tail ++ [Opcheck.CallReport])
    /\ (forall ex, r = inl ex ->
          out.1 = Opcheck.Raised ex
          /\ tail = if Opcheck.is_Exception ex
                    then [Opcheck.PrintFrameworkException ex] else [])
    /\ (forall ret_val, r = inr ret_val ->
          out.1 = Opcheck.Returned ret_val
          /\ tail = [Opcheck.CallSetOutputs ret_val; Opcheck.CallValidate]).
Proof.
  intros Hbind r before out.
  pose proof (wrapper_after_func args bound st Hbind) as [_ Hw].
  fold r before out in Hw. clearbody r before out.
  destruct r as [ex|ret_val]; destruct Hw as [Hout Hev].
  - exists (if Opcheck.is_Exception ex then [Opcheck.PrintFrameworkException ex] else []).
    split; [exact Hev|]. split; [|split].
    + destruct (Opcheck.is_Exception ex); repeat constructor.
    + intros ex' Hex. injection Hex as <-. split; [exact Hout|reflexivity].
    + intros v Hv. discriminate Hv.
  - exists [Opcheck.CallSetOutputs ret_val; Opcheck.CallValidate].
    split; [exact Hev|]. split; [|split].
    + repeat constructor.
    + intros ex Hex. discriminate Hex.
    + intros v Hv. injection Hv as <-. split; [exact Hout|reflexivity].
Qed.

(** C2, what the code does: after [validate_schema(False)] a call through
    the wrapper still runs the input validation and prints its verdict,
    calls the operation, and runs the output validation on the value the
    operation returns; the toggle is off before and after the call.  The
    wrapper does so whatever the schema makes of the toggle. *)
Theorem wrapper_runs_checks_with_toggle_off
        (args : Opcheck.Args) (bound : Opcheck.Bound) (st : Opcheck.State F) :
  Opcheck.sig_bind args = Some bound ->
  let off := Opcheck.validate_schema false st in
  let out := Opcheck.wrapper args off in
  Opcheck.config_validate off = false
  /\ Opcheck.config_validate out.2 = false
  /\ exists verdict rest,
       Opcheck.events out.2
       = Opcheck.events st ++ [Opcheck.CallInit bound; Opcheck.CallEvaluate]
         ++ verdict ++ Opcheck.CallFunc args :: rest
       /\ (verdict = [Opcheck.PrintInputValidationPassed]
           \/ exists text,
                verdict = [Opcheck.CallReport; Opcheck.PrintInputValidationFailed text])
       /\ (forall ret_val,
             (Opcheck.after_func args bound off).1 = inr ret_val ->
             out.1 = Opcheck.Returned ret_val
             /\ rest = [Opcheck.CallSetOutputs ret_val; Opcheck.CallValidate;
                        Opcheck.CallReport]).
Proof.
  intros Hbind off out.
  pose proof (wrapper_after_func args bound off Hbind) as [Hcfg Hw].
  destruct (input_validation_events bound off) as (verdict & Hpre & Hverdict & _).
  split; [reflexivity|]. split; [exact Hcfg|].
  fold out in Hw.
  assert (Hbefore : Opcheck.events (Opcheck.after_func args bound off).2
                    = Opcheck.events st
                      ++ [Opcheck.CallInit bound; Opcheck.CallEvaluate]
                      ++ verdict ++ [Opcheck.CallFunc args]).
  { unfold Opcheck.after_func. simpl. rewrite Hpre. simpl.
    rewrite <- !app_assoc. reflexivity. }
  destruct ((Opcheck.after_func args bound off).1) as [ex|ret_val];
    destruct Hw as [Hout Hev]; rewrite Hbefore in Hev.
  - exists verdict. eexists. split; [|split; [exact Hverdict|]].
    + rewrite Hev, <- !app_assoc. simpl. reflexivity.
    + intros v Hv. discriminate Hv.
  - exists verdict, [Opcheck.CallSetOutputs ret_val; Opcheck.CallValidate;
                     Opcheck.CallReport].
    split; [|split; [exact Hverdict|]].
    + rewrite Hev, <- !app_assoc. simpl. reflexivity.
    + intros v Hv. injection Hv as <-. split; [exact Hout|reflexivity].
Qed.

End Wrapper.

(** The operation raises [ValueError_boom] on arguments that pass the input
    validation: the diagnostic is printed, [report] is called, its text
    (here "report of the schema") is printed by no event, and the caller
    gets the same exception. *)
Lemma wrapper_final_report_is_not_printed_witness :
  let out := Opcheck.wrapper (F := Demo.framework) Demo.Boom Demo.process0 in
  out.1 = Opcheck.Raised (F := Demo.framework) Demo.ValueError_boom
  /\ Opcheck.events out.2
     = [Opcheck.CallInit (F := Demo.framework) Demo.Boom;
        Opcheck.CallEvaluate (F := Demo.framework);
        Opcheck.PrintInputValidationPassed (F := Demo.framework);
        Opcheck.CallFunc (F := Demo.framework) Demo.Boom;
        Opcheck.PrintFrameworkException (F := Demo.framework) Demo.ValueError_boom;
        Opcheck.CallReport (F := Demo.framework)]
  /\ Forall (fun ev => Opcheck.prints_report ev = false) (Opcheck.events out.2)
  /\ (forall enabled s,
        (Opcheck.p_report (Framework := Demo.framework) enabled s).1
        = "report of the schema"%string).
Proof.
  intros out.
  destruct (wrapper_final_report_is_not_printed (F := Demo.framework)
              Demo.Boom Demo.Boom Demo.process0 eq_refl)
    as (tail & Hev & Hnone & Hraise & _).
  destruct (Hraise Demo.ValueError_boom eq_refl) as [Hout Htail].
  subst tail. split; [exact Hout|]. split; [exact Hev|].
  split; [|intros enabled s; reflexivity].
  fold out in Hev. rewrite Hev. apply Forall_app. split; [|exact Hnone].
  repeat constructor.
Defined.

(** With the toggle off, [Compute 3] goes through both validations, of a
    schema that notes that the checks are disabled. *)
Lemma wrapper_runs_checks_with_toggle_off_witness :
  let off := Opcheck.validate_schema (F := Demo.framework) false Demo.process0 in
  let out := Opcheck.wrapper (F := Demo.framework) (Demo.Compute 3) off in
  Opcheck.config_validate off = false
  /\ Opcheck.config_validate out.2 = false
  /\ out.1 = Opcheck.Returned (F := Demo.framework) 3
  /\ Opcheck.events out.2
     = [Opcheck.CallInit (F := Demo.framework) (Demo.Compute 3);
        Opcheck.CallEvaluate (F := Demo.framework);
        Opcheck.PrintInputValidationPassed (F := Demo.framework);
        Opcheck.CallFunc (F := Demo.framework) (Demo.Compute 3);
        Opcheck.CallSetOutputs (F := Demo.framework) 3;
        Opcheck.CallValidate (F := Demo.framework);
        Opcheck.CallReport (F := Demo.framework)]
  /\ Opcheck.schema out.2
     = ["init"; "evaluate, checks disabled"; "set_outputs";
        "validate, checks disabled"; "report"]%string.
Proof.
  intros off out.
  destruct (wrapper_runs_checks_with_toggle_off (F := Demo.framework)
              (Demo.Compute 3) (Demo.Compute 3) Demo.process0 eq_refl)
    as (Hoff & Hcfg & verdict & rest & Hev & _ & Hret).
  destruct (Hret 3 eq_refl) as [Hout _].
  split; [exact Hoff|]. split; [exact Hcfg|]. split; [exact Hout|].
  split; reflexivity.
Defined.

(** ** The scenarios *)

(** Loading the specification with four sections, then [run]: the
    constraint holds, the statement is evaluated, and [self.outputs]
    raises. *)
Lemma run_after_load_raises_on_outputs_witness :
  let rt := (Runtime.parse_et_file (C := Demo.grammar) Demo.four_sections Demo.rt0).2 in
  let rt1 := (Runtime.constraints_hold rt).2 in
  let sts : list (@Runtime.Node Demo.grammar) :=
    [Demo.Parsed Runtime.StatementMode "out[b] = in[b]"] in
  let rt2 := (for_each Runtime.evaluate_statement sts rt1).2 in
  Runtime.out_args rt = Some [Demo.Parsed Runtime.OutputMode "out"]
  /\ Runtime.run rt = (Raise (AttributeError "outputs"), rt2)
  /\ Runtime.trace rt2 = Runtime.trace rt1 ++ (Runtime.EvEvaluate <$> sts)
  /\ forall res rt' outs, Runtime.run rt = (res, rt') -> res <> Ok (Some outs).
Proof.
  intros rt rt1 sts rt2. split; [reflexivity|].
  apply (run_after_load_raises_on_outputs (C := Demo.grammar)
           Demo.four_sections Demo.rt0 rt rt1 rt2 sts); reflexivity.
Defined.

(** Loading the specification with three sections: one constraint node,
    parsed from the empty line. *)
Lemma absent_constraints_section_parses_empty_line_witness :
  let rt := (Runtime.parse_et_file (C := Demo.grammar) Demo.three_sections Demo.rt0).2 in
  re_split_blank_lines (py_strip Demo.three_sections)
  = ["out[b] = in[b]"; "tf.identity(in)"; "out"]
  /\ exists (c : Demo.node) (before after : list (Runtime.Event Demo.grammar)),
       Runtime.constraints rt = Some [c]
       /\ Runtime.trace rt
          = Runtime.trace Demo.rt0 ++ before
            ++ [Runtime.EvParse Runtime.ConstraintMode EmptyString] ++ after.
Proof.
  intros rt. split; [reflexivity|].
  apply (absent_constraints_section_parses_empty_line (C := Demo.grammar)
           Demo.three_sections "out[b] = in[b]" "tf.identity(in)" "out" Demo.rt0 rt);
    reflexivity.
Defined.

(** C5 fails on the specification with three sections: the list of
    constraint nodes has one element, the node parsed from the empty
    line, and [run] evaluates it. *)
Lemma absent_constraints_not_empty_example :
  let loaded := Runtime.parse_et_file (C := Demo.grammar) Demo.three_sections Demo.rt0 in
  loaded.1 = Ok tt
  /\ Runtime.constraints loaded.2
     = Some [Demo.Parsed Runtime.ConstraintMode EmptyString : @Runtime.Node Demo.grammar]
  /\ Runtime.constraints loaded.2 <> Some []
  /\ Runtime.EvParse Runtime.ConstraintMode EmptyString ∈ Runtime.trace loaded.2
  /\ Runtime.EvValue (C := Demo.grammar) (Demo.Parsed Runtime.ConstraintMode EmptyString)
     ∈ Runtime.trace (Runtime.run loaded.2).2.
Proof.
  split; [reflexivity|]. split; [reflexivity|]. split; [discriminate|].
  split; vm_compute; repeat constructor.
Qed.

(** The constraint node of the scenarios is a constraint over the ranks. *)
Lemma rank_non_zero_is_rank_constraint (other : string) :
  Runtime.rank_constraint (C := Demo.grammar) ["batch"; other]
    (Demo.RankNonZero "batch") (Runtime.rejects_rank_zero 0).
Proof.
  intros e combo Hranks.
  inversion Hranks as [|nm r names rs Hr Hrest]; subst.
  exists (Demo.VBool (negb (r =? 0))). split; [|reflexivity].
  cbv [Runtime.node_value Runtime.Ext Demo.grammar] in Hr |- *.
  rewrite Hr. reflexivity.
Qed.

Lemma two_groups_registry (cns : list Demo.node) :
  Runtime.get_primary_tups (Runtime.env (Demo.two_groups cns))
  = [EinTup.mk "batch" None 0 None None; EinTup.mk "slice" None 1 None None]
  /\ Runtime.registry_ok (Runtime.env (Demo.two_groups cns)).
Proof.
  split; [reflexivity|].
  split; [|split].
  - repeat constructor.
  - apply (bool_decide_unpack _). vm_compute. exact I.
  - apply (bool_decide_unpack _). vm_compute. exact I.
Qed.

(** The groups [batch] and [slice] and the constraint that [batch] has a
    rank other than 0: 90 rank maps. *)
Lemma gen_shapes_two_primary_groups_witness :
  let rt := Demo.two_groups [Demo.RankNonZero "batch"] in
  exists rt',
    Runtime.gen_shapes rt
    = (zip ["batch"; "slice"]
         <$> Runtime.accepted [Runtime.rejects_rank_zero 0] (ndindex_list [10; 10]),
       Ok tt, rt')
    /\ length (ndindex_list [10; 10]) = 100%nat
    /\ length (Runtime.accepted [Runtime.rejects_rank_zero 0] (ndindex_list [10; 10]))
       = 90%nat.
Proof.
  intros rt.
  destruct (gen_shapes_two_primary_groups (C := Demo.grammar) rt
              (EinTup.mk "batch" None 0 None None) (EinTup.mk "slice" None 1 None None)
              [Demo.RankNonZero "batch"] [Runtime.rejects_rank_zero 0])
    as (rt' & Hgen & Hall & _ & Hone).
  - apply two_groups_registry.
  - apply two_groups_registry.
  - simpl. lia.
  - reflexivity.
  - constructor; [apply rank_non_zero_is_rank_constraint|constructor].
  - exists rt'. split; [exact Hgen|]. split; [exact Hall|].
    apply (Hone 0%nat); [lia|reflexivity].
Defined.

(** C4 as stated fails: with the constraint that rejects rank 0 for
    [batch], 90 rank maps are yielded, not 99; the ten with rank 0 for
    [batch] are all left out. *)
Lemma gen_shapes_rank_zero_counterexample :
  let rt := Demo.two_groups [Demo.RankNonZero "batch"] in
  let yielded := (Runtime.gen_shapes rt).1.1 in
  length (Runtime.get_primary_tups (Runtime.env rt)) = 2%nat
  /\ (Runtime.gen_shapes rt).1.2 = Ok tt
  /\ length yielded = 90%nat
  /\ length yielded <> 99%nat
  /\ length (Runtime.gen_shapes (Demo.two_groups [])).1.1 = 100%nat.
Proof.
  vm_compute. repeat split; try reflexivity. discriminate.
Qed.

(** * Further properties of Shape and EinTup *)

(** X1: a group whose [Shape] was never set (a new primary group, and any
    shadow of it) cannot be read: [dims], [rank], [nelem] and a new
    iteration raise [RuntimeError], and so does [set_dim], which leaves the
    store as it was. *)
Theorem uninitialized_group_raises (e : EinTup.t) (h : list Shape.t) (i v : Z) :
  h !! EinTup.shape e = Some (Shape.mk None) ->
  EinTup.dims e h = Raise (RuntimeError "Cannot call get() on uninitialized Shape")
  /\ EinTup.rank e h = Raise (RuntimeError "Cannot call get() on uninitialized Shape")
  /\ EinTup.nelem e h = Raise (RuntimeError "Cannot call get() on uninitialized Shape")
  /\ EinTup.__iter__ e h = Raise (RuntimeError "Cannot call get() on uninitialized Shape")
  /\ EinTup.set_dim e i v h
     = (Raise (RuntimeError "Cannot call set_elem() on uninitialized Shape"), h).
Proof.
  intros Hh.
  assert (Hr : Shape.read (EinTup.shape e) h = None).
  { unfold Shape.read. rewrite Hh. reflexivity. }
  unfold EinTup.rank, EinTup.nelem, EinTup.__iter__, EinTup.dims, EinTup.set_dim,
    Shape.get, Shape.set_elem.
  rewrite Hr. repeat split; reflexivity.
Qed.

(** The shadow [sh] of the new group [p]. *)
Lemma uninitialized_group_raises_witness :
  EinTup.primary Demo.sh = false
  /\ EinTup.dims Demo.sh Demo.h_sh
     = Raise (RuntimeError "Cannot call get() on uninitialized Shape")
  /\ EinTup.set_dim Demo.sh 0 4 Demo.h_sh
     = (Raise (RuntimeError "Cannot call set_elem() on uninitialized Shape"), Demo.h_sh).
Proof.
  split; [reflexivity|].
  destruct (uninitialized_group_raises Demo.sh Demo.h_sh 0 4 eq_refl)
    as (Hd & _ & _ & _ & Hs).
  split; [exact Hd|exact Hs].
Defined.

(** X2: [set_elem] outside the rank fails and writes nothing: an index at
    or beyond the rank raises [RuntimeError], an index below minus the rank
    raises the [IndexError] of the list assignment. *)
Theorem set_elem_outside_rank_raises
  (a : nat) (h : list Shape.t) (ds : list Z) (ind dim : Z) :
  Shape.read a h = Some ds ->
  (Z.of_nat (length ds) <= ind ->
   Shape.set_elem a ind dim h
   = (Raise (RuntimeError "set_elem() index out of bounds"), h))
  /\ (ind < - Z.of_nat (length ds) ->
      Shape.set_elem a ind dim h
      = (Raise (IndexError "list assignment index out of range"), h)).
Proof.
  intros Hr. unfold Shape.set_elem. rewrite Hr. split; intros Hi.
  - destruct (Z.leb_spec (Z.of_nat (length ds)) ind) as [_|]; [reflexivity|lia].
  - destruct (Z.leb_spec (Z.of_nat (length ds)) ind) as [|_]; [lia|].
    unfold py_setitem.
    destruct (Z.leb_spec 0 ind) as [|_]; [lia|]. simpl.
    destruct (Z.leb_spec (- Z.of_nat (length ds)) ind) as [|_]; [lia|]. reflexivity.
Qed.

Lemma set_elem_outside_rank_raises_witness :
  Shape.set_elem 0 2 9 (Demo.with_dims [2; 3])
  = (Raise (RuntimeError "set_elem() index out of bounds"), Demo.with_dims [2; 3])
  /\ Shape.set_elem 0 (-3) 9 (Demo.with_dims [2; 3])
     = (Raise (IndexError "list assignment index out of range"), Demo.with_dims [2; 3]).
Proof.
  split.
  - apply (set_elem_outside_rank_raises 0 (Demo.with_dims [2; 3]) [2; 3] 2 9);
      [reflexivity|simpl; lia].
  - apply (set_elem_outside_rank_raises 0 (Demo.with_dims [2; 3]) [2; 3] (-3) 9);
      [reflexivity|simpl; lia].
Defined.

(** X3: [set_dim] at an index within the rank keeps the rank, changes no
    other axis, and changes nothing for a group that holds another
    [Shape]. *)
Theorem set_dim_changes_one_axis
  (e : EinTup.t) (h : list Shape.t) (ds : list Z) (i v : Z) :
  EinTup.dims e h = Ok ds ->
  - Z.of_nat (length ds) <= i < Z.of_nat (length ds) ->
  exists (h' : list Shape.t) (ds' : list Z),
    EinTup.set_dim e i v h = (Ok tt, h')
    /\ EinTup.dims e h' = Ok ds'
    /\ EinTup.rank e h' = EinTup.rank e h
    /\ (forall j : nat, j <> Z.to_nat (i mod Z.of_nat (length ds)) -> ds' !! j = ds !! j)
    /\ (forall other : EinTup.t,
          EinTup.same_shape_as other e = false ->
          EinTup.dims other h' = EinTup.dims other h).
Proof.
  intros Hd Hi. pose proof Hd as Hd0.
  apply dims_ok_read in Hd as [Hr Hlt].
  unfold EinTup.set_dim, Shape.set_elem. rewrite Hr.
  destruct (Z.leb_spec (Z.of_nat (length ds)) i) as [|_]; [lia|].
  rewrite py_setitem_in_range by exact Hi.
  eexists _, _. split; [reflexivity|].
  split; [|split; [|split]].
  - unfold EinTup.dims, Shape.get, Shape.read.
    rewrite list_lookup_insert_eq by exact Hlt. reflexivity.
  - unfold EinTup.rank, Shape.get, Shape.read.
    rewrite list_lookup_insert_eq by exact Hlt. simpl.
    fold (Shape.read (EinTup.shape e) h). rewrite Hr. simpl.
    rewrite length_insert. reflexivity.
  - intros j Hj. apply list_lookup_insert_ne. congruence.
  - intros other Hne. unfold EinTup.same_shape_as in Hne.
    apply Nat.eqb_neq in Hne.
    unfold EinTup.dims, Shape.get, Shape.read.
    rewrite list_lookup_insert_ne by congruence. reflexivity.
Qed.

Lemma set_dim_changes_one_axis_witness :
  exists (h' : list Shape.t) (ds' : list Z),
    EinTup.set_dim Demo.sh (-1) 7 (Demo.with_dims [2; 3]) = (Ok tt, h')
    /\ EinTup.dims Demo.sh h' = Ok ds'
    /\ EinTup.rank Demo.sh h' = EinTup.rank Demo.sh (Demo.with_dims [2; 3])
    /\ (forall j : nat, j <> 1%nat -> ds' !! j = [2; 3] !! j)
    /\ (forall other : EinTup.t,
          EinTup.same_shape_as other Demo.sh = false ->
          EinTup.dims other h' = EinTup.dims other (Demo.with_dims [2; 3])).
Proof.
  apply (set_dim_changes_one_axis Demo.sh (Demo.with_dims [2; 3]) [2; 3] (-1) 7).
  - reflexivity.
  - simpl. lia.
Defined.

(** ** The value of a group during and after an iteration *)

(** Draining an iterator keeps the last tuple in [_value]. *)
Lemma drain_index_value (l : list (list Z)) :
  forall (e : EinTup.t) (acc : list (list Z)) (fuel : nat),
  EinTup.index e = Some l -> (length l < fuel)%nat ->
  exists e',
    EinTup.drain fuel e acc = Some (Ok (acc ++ l), e')
    /\ EinTup.shape e' = EinTup.shape e
    /\ EinTup.index e' = Some []
    /\ EinTup._value e' = match last l with Some x => Some x | None => EinTup._value e end.
Proof.
  induction l as [|i l IH]; intros e acc fuel Hidx Hfuel.
  - destruct fuel as [|fuel]; [simpl in Hfuel; lia|].
    exists e. simpl. unfold EinTup.__next__. rewrite Hidx.
    rewrite app_nil_r. auto.
  - destruct fuel as [|fuel]; [simpl in Hfuel; lia|].
    simpl. unfold EinTup.__next__. rewrite Hidx. simpl.
    destruct (IH (EinTup.mk (EinTup.name e) (EinTup.shadow_of e) (EinTup.shape e)
                    (Some i) (Some l)) (acc ++ [i]) fuel) as (e' & Hd & Hs & Hi & Hv).
    { reflexivity. }
    { simpl in Hfuel. lia. }
    exists e'. rewrite Hd, <- app_assoc. simpl.
    split; [reflexivity|]. split; [exact Hs|]. split; [exact Hi|].
    rewrite Hv, last_cons. cbn [EinTup._value].
    destruct (last l); reflexivity.
Qed.

Lemma unravel_last (ds : list Z) :
  Forall (fun d => 0 < d) ds ->
  0 < product ds /\ unravel ds (product ds - 1) = (fun d => d - 1) <$> ds.
Proof.
  induction 1 as [|d ds Hd Hds [Hpos IH]]; simpl.
  - split; [lia|reflexivity].
  - split; [nia|].
    assert (Hq : (d * product ds - 1) / product ds = d - 1).
    { symmetry. apply (Z.div_unique _ _ _ (product ds - 1)); lia. }
    assert (Hm : (d * product ds - 1) mod product ds = product ds - 1).
    { symmetry. apply (Z.mod_unique _ _ (d - 1)); lia. }
    rewrite Hq, Hm, IH. reflexivity.
Qed.

(** X4: [value()] raises before the first [next]; once an iteration has
    run to its end the group keeps the last tuple it produced, which for
    dims that are all positive is the tuple of the dims minus one, and
    a further [next] raises [StopIteration]. *)
Theorem value_after_iteration
  (e : EinTup.t) (h : list Shape.t) (ds : list Z) (fuel : nat) :
  EinTup.dims e h = Ok ds ->
  Forall (fun d => 0 < d) ds ->
  (length (ndindex_list ds) < fuel)%nat ->
  (EinTup._value e = None ->
   EinTup.value e = Raise (RuntimeError "called value() before iteration"))
  /\ exists e',
       EinTup.iterate fuel e h = Some (Ok (ndindex_list ds), e')
       /\ EinTup.value e' = Ok ((fun d => d - 1) <$> ds)
       /\ EinTup.__next__ e' = (Raise StopIteration, e').
Proof.
  intros Hd Hpos Hfuel. split.
  { intros Hv. unfold EinTup.value. rewrite Hv. reflexivity. }
  assert (Hnn : Forall (fun d => 0 <= d) ds).
  { eapply Forall_impl; [exact Hpos|]. intros d Hdp. simpl in Hdp. lia. }
  unfold EinTup.iterate, EinTup.__iter__. rewrite Hd. simpl.
  rewrite np_ndindex_ok by exact Hnn. simpl.
  destruct (drain_index_value (ndindex_list ds)
              (EinTup.mk (EinTup.name e) (EinTup.shadow_of e) (EinTup.shape e)
                 (EinTup._value e) (Some (ndindex_list ds))) [] fuel)
    as (e' & Hdr & _ & Hidx & Hval); [reflexivity|exact Hfuel|].
  exists e'. split; [exact Hdr|].
  destruct (unravel_last ds Hpos) as [Hprod Hun].
  pose proof (length_ndindex_list ds Hnn) as Hlen.
  pose proof (lookup_ndindex_list ds (product ds - 1) Hnn ltac:(lia)) as Hlk.
  assert (Hlast : last (ndindex_list ds) = Some ((fun d => d - 1) <$> ds)).
  { rewrite last_lookup, <- Hun, <- Hlk. f_equal. lia. }
  split.
  - unfold EinTup.value. rewrite Hval, Hlast. reflexivity.
  - unfold EinTup.__next__. rewrite Hidx. reflexivity.
Qed.

Lemma value_after_iteration_witness :
  exists e',
    EinTup.iterate 7 Demo.p (Demo.with_dims [2; 3])
    = Some (Ok [[0; 0]; [0; 1]; [0; 2]; [1; 0]; [1; 1]; [1; 2]], e')
    /\ EinTup.value e' = Ok [1; 2]
    /\ EinTup.__next__ e' = (Raise StopIteration, e').
Proof.
  apply (value_after_iteration Demo.p (Demo.with_dims [2; 3]) [2; 3] 7).
  - reflexivity.
  - repeat constructor; lia.
  - vm_compute. lia.
Defined.

(** X5: a group is its own iterator, so two loops over one group share
    their position: an inner loop started after the first tuple of an
    outer loop yields the whole sequence and leaves the outer loop at its
    end. *)
Theorem nested_iteration_ends_outer_loop
  (e : EinTup.t) (h : list Shape.t) (ds : list Z) (fuel : nat) :
  EinTup.dims e h = Ok ds ->
  Forall (fun d => 0 < d) ds ->
  (length (ndindex_list ds) < fuel)%nat ->
  exists (e1 e2 e3 : EinTup.t) (first : list Z),
    EinTup.__iter__ e h = Ok e1
    /\ EinTup.__next__ e1 = (Ok first, e2)
    /\ ndindex_list ds !! 0%nat = Some first
    /\ EinTup.iterate fuel e2 h = Some (Ok (ndindex_list ds), e3)
    /\ EinTup.__next__ e3 = (Raise StopIteration, e3).
Proof.
  intros Hd Hpos Hfuel.
  assert (Hnn : Forall (fun d => 0 <= d) ds).
  { eapply Forall_impl; [exact Hpos|]. intros d Hdp. simpl in Hdp. lia. }
  destruct (unravel_last ds Hpos) as [Hprod _].
  pose proof (length_ndindex_list ds Hnn) as Hlen.
  destruct (ndindex_list ds) as [|first rest] eqn:Hl; [simpl in Hlen; lia|].
  unfold EinTup.__iter__. rewrite Hd. simpl. rewrite np_ndindex_ok by exact Hnn.
  rewrite Hl. simpl.
  eexists _, _.
  set (e2 := EinTup.mk (EinTup.name e) (EinTup.shadow_of e) (EinTup.shape e)
               (Some first) (Some rest)).
  assert (Hd2 : EinTup.dims e2 h = Ok ds) by exact Hd.
  unfold EinTup.iterate, EinTup.__iter__. rewrite Hd2. simpl.
  rewrite np_ndindex_ok by exact Hnn. rewrite Hl. simpl.
  destruct (drain_index_value (first :: rest)
              (EinTup.mk (EinTup.name e2) (EinTup.shadow_of e2) (EinTup.shape e2)
                 (EinTup._value e2) (Some (first :: rest))) [] fuel)
    as (e3 & Hdr & _ & Hidx & _); [reflexivity|exact Hfuel|].
  exists e3, first.
  split; [reflexivity|]. split; [reflexivity|]. split; [reflexivity|].
  split; [exact Hdr|].
  unfold EinTup.__next__. rewrite Hidx. reflexivity.
Qed.

Lemma nested_iteration_ends_outer_loop_witness :
  exists (e1 e2 e3 : EinTup.t) (first : list Z),
    EinTup.__iter__ Demo.p (Demo.with_dims [2; 3]) = Ok e1
    /\ EinTup.__next__ e1 = (Ok first, e2)
    /\ ndindex_list [2; 3] !! 0%nat = Some first
    /\ EinTup.iterate 7 e2 (Demo.with_dims [2; 3]) = Some (Ok (ndindex_list [2; 3]), e3)
    /\ EinTup.__next__ e3 = (Raise StopIteration, e3).
Proof.
  apply (nested_iteration_ends_outer_loop Demo.p (Demo.with_dims [2; 3]) [2; 3] 7).
  - reflexivity.
  - repeat constructor; lia.
  - vm_compute. lia.
Defined.

(** X6: for dims within the signed 64-bit range, [nelem] is the number of
    tuples an iteration yields exactly when the product of the dims is
    below [2^31]; beyond, the two differ. *)
Theorem nelem_counts_iterated_tuples
  (e : EinTup.t) (h : list Shape.t) (ds : list Z) (fuel : nat) :
  EinTup.dims e h = Ok ds ->
  Forall (fun d => 0 <= d < 2 ^ 63) ds ->
  (length (ndindex_list ds) < fuel)%nat ->
  exists (e' : EinTup.t) (tuples : list (list Z)),
    EinTup.iterate fuel e h = Some (Ok tuples, e')
    /\ Z.of_nat (length tuples) = product ds
    /\ (EinTup.nelem e h = Ok (Z.of_nat (length tuples)) <-> product ds < 2 ^ 31).
Proof.
  intros Hd Hrange Hfuel.
  assert (Hnn : Forall (fun d => 0 <= d) ds).
  { eapply Forall_impl; [exact Hrange|]. simpl. intros d Hr. lia. }
  assert (H64 : Forall (fun d => - 2 ^ 63 <= d < 2 ^ 63) ds).
  { eapply Forall_impl; [exact Hrange|]. simpl. intros d Hr. lia. }
  destruct (iterate_from_any_state e h ds fuel Hd Hnn Hfuel) as (e' & Hit & _).
  exists e', (ndindex_list ds). split; [exact Hit|].
  pose proof (length_ndindex_list ds Hnn) as Hlen. split; [exact Hlen|].
  unfold EinTup.nelem. rewrite Hd. simpl.
  rewrite np_prod_int32_wrap by exact H64. rewrite Hlen.
  pose proof (product_nonneg ds Hnn) as Hp. split.
  - intros H. injection H as H. unfold wrap32 in H.
    pose proof (Z.mod_pos_bound (product ds + 2 ^ 31) (2 ^ 32)). lia.
  - intros Hlt. rewrite wrap32_small by lia. reflexivity.
Qed.

Lemma nelem_counts_iterated_tuples_witness :
  exists (e' : EinTup.t) (tuples : list (list Z)),
    EinTup.iterate 7 Demo.p (Demo.with_dims [2; 3]) = Some (Ok tuples, e')
    /\ Z.of_nat (length tuples) = product [2; 3]
    /\ (EinTup.nelem Demo.p (Demo.with_dims [2; 3]) = Ok (Z.of_nat (length tuples))
        <-> product [2; 3] < 2 ^ 31).
Proof.
  apply (nelem_counts_iterated_tuples Demo.p (Demo.with_dims [2; 3]) [2; 3] 7).
  - reflexivity.
  - repeat constructor; lia.
  - vm_compute. lia.
Defined.

(** * Further properties of the registry *)

Lemma dict_get_set_eq {V} (k : string) (v : V) (d : list (string * V)) :
  dict_get k (dict_set k v d) = Some v.
Proof.
  induction d as [|[k' v'] d IH]; simpl.
  - rewrite String.eqb_refl. reflexivity.
  - destruct (String.eqb k k') eqn:E; simpl.
    + rewrite String.eqb_refl. reflexivity.
    + rewrite E. exact IH.
Qed.

Lemma dict_get_set_ne {V} (k k' : string) (v : V) (d : list (string * V)) :
  k' <> k -> dict_get k' (dict_set k v d) = dict_get k' d.
Proof.
  intros Hne. induction d as [|[k0 v0] d IH]; simpl.
  - destruct (String.eqb_spec k' k); [contradiction|reflexivity].
  - destruct (String.eqb_spec k k0) as [->|Hk]; simpl.
    + destruct (String.eqb_spec k' k0); [contradiction|reflexivity].
    + destruct (String.eqb k' k0); [reflexivity|exact IH].
Qed.

Lemma dict_get_app_some {V} (k : string) (v : V) (d1 d2 : list (string * V)) :
  dict_get k d1 = Some v -> dict_get k (d1 ++ d2) = Some v.
Proof.
  induction d1 as [|[k' v'] d1 IH]; simpl; [discriminate|].
  destruct (String.eqb k k'); [auto|exact IH].
Qed.

Section RegistryFacts.
Context {X : Type}.

(** The four ways [maybe_add_tup] ends. *)
Lemma maybe_add_tup_cases (nm : string) (owner : option EinTup.t) (e : Runtime.Env X) :
  (exists t, dict_get nm (Runtime.tups e) = Some t
             /\ Runtime.maybe_add_tup nm owner e = (Ok t, e))
  \/ (dict_get nm (Runtime.tups e) = None /\ owner = None
      /\ Runtime.maybe_add_tup nm owner e
         = (Ok (EinTup.mk nm None (length (Runtime.shapes e)) None None),
            Runtime.mkEnv
              (Runtime.tups e
                 ++ [(nm, EinTup.mk nm None (length (Runtime.shapes e)) None None)])
              (Runtime.shapes e ++ [Shape.mk None]) (Runtime.ext e)))
  \/ (dict_get nm (Runtime.tups e) = None
      /\ exists o, owner = Some o
         /\ is_Some (dict_get (EinTup.name o) (Runtime.tups e))
         /\ Runtime.maybe_add_tup nm owner e
            = (Ok (EinTup.mk nm (Some (EinTup.name o)) (EinTup.shape o) None None),
               Runtime.mkEnv
                 (Runtime.tups e
                    ++ [(nm, EinTup.mk nm (Some (EinTup.name o)) (EinTup.shape o)
                               None None)])
                 (Runtime.shapes e) (Runtime.ext e)))
  \/ (dict_get nm (Runtime.tups e) = None
      /\ exists o, owner = Some o
         /\ dict_get (EinTup.name o) (Runtime.tups e) = None
         /\ Runtime.maybe_add_tup nm owner e
            = (Raise (RuntimeError
                 "Runtime::maybe_add_tup - shadow_of provided but does not exist"), e)).
Proof.
  unfold Runtime.maybe_add_tup.
  destruct (dict_get nm (Runtime.tups e)) as [t|] eqn:Hnm.
  - left. eauto.
  - right. destruct owner as [o|].
    + right. destruct (dict_get (EinTup.name o) (Runtime.tups e)) as [t|] eqn:Ho.
      * left. split; [reflexivity|]. exists o. split; [reflexivity|].
        split; [eauto|]. simpl. rewrite dict_set_fresh by exact Hnm. reflexivity.
      * right. split; [reflexivity|]. exists o. auto.
    + left. split; [reflexivity|]. split; [reflexivity|].
      simpl. rewrite dict_set_fresh by exact Hnm. reflexivity.
Qed.

Lemma get_primary_tups_app (tups : list (string * EinTup.t)) (nm : string) (t : EinTup.t)
      (s s' : list Shape.t) (x : X) :
  Runtime.get_primary_tups (Runtime.mkEnv (tups ++ [(nm, t)]) s' x)
  = Runtime.get_primary_tups (Runtime.mkEnv tups s x)
    ++ (if EinTup.primary t then [t] else []).
Proof.
  unfold Runtime.get_primary_tups. simpl.
  rewrite fmap_app, filter_app. f_equal. simpl.
  destruct (EinTup.primary t) eqn:Hp.
  - rewrite filter_cons_True by exact Hp. reflexivity.
  - rewrite filter_cons_False by congruence. reflexivity.
Qed.

Lemma registry_ok_same_tups (e e' : Runtime.Env X) :
  Runtime.tups e' = Runtime.tups e ->
  length (Runtime.shapes e') = length (Runtime.shapes e) ->
  Runtime.registry_ok e -> Runtime.registry_ok e'.
Proof.
  intros Ht Hl (Hf & Hs & Hn).
  unfold Runtime.registry_ok, Runtime.get_primary_tups in *.
  rewrite Ht, Hl. auto.
Qed.

Lemma registry_ok_maybe_add_tup (nm : string) (owner : option EinTup.t) (e : Runtime.Env X) :
  Runtime.registry_ok e -> Runtime.registry_ok (Runtime.maybe_add_tup nm owner e).2.
Proof.
  intros Hok.
  destruct (maybe_add_tup_cases nm owner e)
    as [(t & _ & ->)|[(Hnm & _ & ->)|[(Hnm & o & _ & _ & ->)|(_ & o & _ & _ & ->)]]];
    simpl; try exact Hok.
  - (* a new primary group *)
    destruct Hok as (Hf & Hs & Hn).
    assert (Hold : Runtime.get_primary_tups
                     (Runtime.mkEnv (Runtime.tups e) (Runtime.shapes e) (Runtime.ext e))
                   = Runtime.get_primary_tups e) by reflexivity.
    unfold Runtime.registry_ok.
    rewrite (get_primary_tups_app _ _ _ (Runtime.shapes e)), Hold. simpl.
    split; [|split].
    + apply Forall_app. split.
      * eapply Forall_impl; [exact Hf|]. intros p [Hp Hlt]. simpl. split.
        -- apply dict_get_app_some. exact Hp.
        -- rewrite length_app. simpl. lia.
      * constructor; [|constructor]. simpl. split.
        -- rewrite dict_get_app_none by exact Hnm. simpl.
           rewrite String.eqb_refl. reflexivity.
        -- rewrite length_app. simpl. lia.
    + rewrite fmap_app. apply NoDup_app. split; [exact Hs|]. split.
      * intros a Ha Hin. simpl in Hin. apply list_elem_of_singleton in Hin. subst a.
        apply list_elem_of_fmap in Ha as (p & Hp & Hin).
        rewrite Forall_forall in Hf. destruct (Hf p Hin) as [_ Hlt]. lia.
      * simpl. apply NoDup_singleton.
    + rewrite fmap_app. apply NoDup_app. split; [exact Hn|]. split.
      * intros a Ha Hin. simpl in Hin. apply list_elem_of_singleton in Hin. subst a.
        apply list_elem_of_fmap in Ha as (p & Hp & Hin).
        rewrite Forall_forall in Hf. destruct (Hf p Hin) as [Hget _].
        rewrite <- Hp, Hnm in Hget. discriminate.
      * simpl. apply NoDup_singleton.
  - (* a new shadow *)
    destruct Hok as (Hf & Hs & Hn).
    assert (Hold : Runtime.get_primary_tups
                     (Runtime.mkEnv (Runtime.tups e) (Runtime.shapes e) (Runtime.ext e))
                   = Runtime.get_primary_tups e) by reflexivity.
    unfold Runtime.registry_ok.
    rewrite (get_primary_tups_app _ _ _ (Runtime.shapes e)), Hold. simpl.
    rewrite app_nil_r. split; [|split; assumption].
    eapply Forall_impl; [exact Hf|]. intros p [Hp Hlt]. simpl. split.
    + apply dict_get_app_some. exact Hp.
    + exact Hlt.
Qed.

End RegistryFacts.

Section RegistryTheorems.
Context {C : Runtime.Collaborators}.

Lemma set_rank_of_keeps_registry (nm : string) (r : Z) (rt : Runtime.t C) :
  Runtime.tups (Runtime.env (Runtime.set_rank_of nm r rt).2)
  = Runtime.tups (Runtime.env rt)
  /\ length (Runtime.shapes (Runtime.env (Runtime.set_rank_of nm r rt).2))
     = length (Runtime.shapes (Runtime.env rt)).
Proof.
  unfold Runtime.set_rank_of.
  destruct (dict_get nm (Runtime.tups (Runtime.env rt))) as [tp|]; [|auto].
  destruct (EinTup.primary tp) eqn:Hp; simpl; [|auto].
  destruct (randint (Runtime.min_dim rt) (Runtime.max_dim rt) r (Runtime.rng rt))
    as [[ds|ex] g]; [|auto].
  unfold Runtime.on_shapes. simpl.
  rewrite set_dims_primary by exact Hp. simpl.
  split; [reflexivity|apply shape_set_length].
Qed.

Lemma for_each_keeps_registry {A} (body : A -> M (Runtime.t C) unit) (xs : list A) :
  (forall x rt,
      Runtime.tups (Runtime.env (body x rt).2) = Runtime.tups (Runtime.env rt)
      /\ length (Runtime.shapes (Runtime.env (body x rt).2))
         = length (Runtime.shapes (Runtime.env rt))) ->
  forall rt,
    Runtime.tups (Runtime.env (for_each body xs rt).2) = Runtime.tups (Runtime.env rt)
    /\ length (Runtime.shapes (Runtime.env (for_each body xs rt).2))
       = length (Runtime.shapes (Runtime.env rt)).
Proof.
  intros Hb. induction xs as [|x xs IH]; intros rt; simpl; [auto|].
  unfold bind. specialize (Hb x rt).
  destruct (body x rt) as [[u|ex] rt1]; simpl in *; [|exact Hb].
  destruct (IH rt1) as [H1 H2]. destruct Hb as [H3 H4]. split; congruence.
Qed.

Lemma set_dims_entry_keeps_registry (kv : string * list Z) (rt : Runtime.t C) :
  let body := fun (kv : string * list Z) (rt : Runtime.t C) =>
                match dict_get kv.1 (Runtime.tups (Runtime.env rt)) with
                | None => (Raise (OtherError "KeyError"), rt)
                | Some tp => Runtime.on_shapes (EinTup.set_dims tp kv.2) rt
                end in
  Runtime.tups (Runtime.env (body kv rt).2) = Runtime.tups (Runtime.env rt)
  /\ length (Runtime.shapes (Runtime.env (body kv rt).2))
     = length (Runtime.shapes (Runtime.env rt)).
Proof.
  simpl. destruct (dict_get kv.1 (Runtime.tups (Runtime.env rt))) as [tp|]; [|auto].
  unfold Runtime.on_shapes, EinTup.set_dims.
  destruct (EinTup.shadow_of tp); simpl; [auto|].
  split; [reflexivity|apply shape_set_length].
Qed.

(** X7: the registry keeps its shape through every call that changes it.
    A new runtime has it; [maybe_add_tup], [set_ranks] and [set_dims]
    keep it, whether they end normally or raise: each primary group is
    filed under its own name and owns a [Shape] of the store, and no two
    primary groups share a name or a [Shape]. *)
Theorem registry_invariant :
  (forall lo hi x g, Runtime.registry_ok (Runtime.env (Runtime.__init__ lo hi x g)))
  /\ (forall nm owner (e : Runtime.Env Runtime.Ext),
        Runtime.registry_ok e ->
        Runtime.registry_ok (Runtime.maybe_add_tup nm owner e).2)
  /\ (forall rank_map (rt : Runtime.t C),
        Runtime.registry_ok (Runtime.env rt) ->
        Runtime.registry_ok (Runtime.env (Runtime.set_ranks rank_map rt).2))
  /\ (forall dims_map (rt : Runtime.t C),
        Runtime.registry_ok (Runtime.env rt) ->
        Runtime.registry_ok (Runtime.env (Runtime.set_dims dims_map rt).2)).
Proof.
  split; [|split; [|split]].
  - intros lo hi x g. repeat split; constructor.
  - intros nm owner e. apply registry_ok_maybe_add_tup.
  - intros rank_map rt Hok.
    destruct (for_each_keeps_registry
                (fun kv : string * Z => Runtime.set_rank_of kv.1 kv.2) rank_map
                (fun kv rt0 => set_rank_of_keeps_registry kv.1 kv.2 rt0) rt) as [Ht Hl].
    eapply registry_ok_same_tups; [exact Ht|exact Hl|exact Hok].
  - intros dims_map rt Hok.
    destruct (for_each_keeps_registry _ dims_map set_dims_entry_keeps_registry rt)
      as [Ht Hl].
    eapply registry_ok_same_tups; [exact Ht|exact Hl|exact Hok].
Qed.

End RegistryTheorems.

(** The runtime with the groups [batch], [other] and [slice], after ranks
    were set. *)
Lemma registry_invariant_witness :
  Runtime.registry_ok (Runtime.env Demo.rt0)
  /\ Runtime.registry_ok (Runtime.env (Demo.two_groups []))
  /\ Runtime.registry_ok
       (Runtime.env (Runtime.set_ranks [("batch", 2); ("slice", 1)] (Demo.two_groups [])).2).
Proof.
  destruct (registry_invariant (C := Demo.grammar)) as (Hinit & Hadd & Hranks & _).
  assert (H0 : Runtime.registry_ok (Runtime.env Demo.rt0)) by apply Hinit.
  assert (H3 : Runtime.registry_ok (Runtime.env (Demo.two_groups []))).
  { change (Runtime.env (Demo.two_groups []))
      with (Runtime.maybe_add_tup "slice" None
              (Runtime.maybe_add_tup "other"
                 (dict_get "batch"
                    (Runtime.tups (Runtime.maybe_add_tup "batch" None
                                     (Runtime.env Demo.rt0)).2))
                 (Runtime.maybe_add_tup "batch" None (Runtime.env Demo.rt0)).2).2).2.
    apply Hadd, Hadd, Hadd. exact H0. }
  split; [exact H0|]. split; [exact H3|]. apply Hranks. exact H3.
Defined.

(** * Adding groups, setting ranks and dims *)

Lemma dict_get_snoc_ne {V} (k nm : string) (v : V) (d : list (string * V)) :
  k <> nm -> dict_get k (d ++ [(nm, v)]) = dict_get k d.
Proof.
  intros Hne. induction d as [|[k' v'] d IH]; simpl.
  - destruct (String.eqb_spec k nm); [contradiction|reflexivity].
  - destruct (String.eqb k k'); [reflexivity|exact IH].
Qed.

Lemma dict_get_snoc_eq {V} (nm : string) (v : V) (d : list (string * V)) :
  dict_get nm d = None -> dict_get nm (d ++ [(nm, v)]) = Some v.
Proof.
  intros Hnone. rewrite dict_get_app_none by exact Hnone. simpl.
  rewrite String.eqb_refl. reflexivity.
Qed.

Lemma for_each_app {S A} (body : A -> M S unit) (xs ys : list A) (s : S) :
  for_each body (xs ++ ys) s = bind (for_each body xs) (fun _ => for_each body ys) s.
Proof.
  revert s. induction xs as [|x xs IH]; intros s; simpl.
  - reflexivity.
  - unfold bind. destruct (body x s) as [[u|ex] s1]; [|reflexivity].
    rewrite IH. reflexivity.
Qed.

Section AddingGroups.
Context {X : Type}.

(** X8: what [maybe_add_tup] returns is what [tup] then finds under the
    name; the other names are found as before; and asking again for the
    name returns the same group and changes nothing, whatever owner is
    given the second time.  A name that was already registered keeps its
    group, and the registry is left as it was. *)
Theorem maybe_add_tup_then_tup
        (nm : string) (owner : option EinTup.t) (e e' : Runtime.Env X) (t : EinTup.t) :
  Runtime.maybe_add_tup nm owner e = (Ok t, e') ->
  Runtime.tup e' nm = Ok t
  /\ (forall k, k <> nm -> Runtime.tup e' k = Runtime.tup e k)
  /\ (forall owner', Runtime.maybe_add_tup nm owner' e' = (Ok t, e'))
  /\ (forall t0, dict_get nm (Runtime.tups e) = Some t0 -> t = t0 /\ e' = e).
Proof.
  intros Hadd.
  assert (Hfound : dict_get nm (Runtime.tups e') = Some t
                   /\ (forall k, k <> nm ->
                         dict_get k (Runtime.tups e') = dict_get k (Runtime.tups e))
                   /\ (forall t0, dict_get nm (Runtime.tups e) = Some t0 -> t = t0 /\ e' = e)).
  { destruct (maybe_add_tup_cases nm owner e)
      as [(t0 & Hnm & Heq)|[(Hnm & _ & Heq)|[(Hnm & o & _ & _ & Heq)|(_ & o & _ & _ & Heq)]]];
      rewrite Heq in Hadd; try discriminate; injection Hadd as <- <-; simpl.
    - split; [exact Hnm|]. split; [reflexivity|].
      intros t1 H1. rewrite Hnm in H1. injection H1 as <-. auto.
    - split; [apply dict_get_snoc_eq; exact Hnm|].
      split; [intros k Hk; apply dict_get_snoc_ne; exact Hk|].
      intros t1 H1. rewrite Hnm in H1. discriminate.
    - split; [apply dict_get_snoc_eq; exact Hnm|].
      split; [intros k Hk; apply dict_get_snoc_ne; exact Hk|].
      intros t1 H1. rewrite Hnm in H1. discriminate. }
  destruct Hfound as (Hnm & Hother & Hold).
  split; [unfold Runtime.tup; rewrite Hnm; reflexivity|].
  split; [intros k Hk; unfold Runtime.tup; rewrite Hother by exact Hk; reflexivity|].
  split; [|exact Hold].
  intros owner'. unfold Runtime.maybe_add_tup. rewrite Hnm. reflexivity.
Qed.

(** X9: a shadow is created only for an owner whose name is registered;
    it takes the [Shape] of the owner it is given, is not primary, and
    allocates nothing.  For an owner whose name is not registered the
    call raises and leaves the registry as it was. *)
Theorem maybe_add_tup_shadow (nm : string) (o : EinTup.t) (e : Runtime.Env X) :
  dict_get nm (Runtime.tups e) = None ->
  (is_Some (dict_get (EinTup.name o) (Runtime.tups e)) ->
   exists (sh : EinTup.t) (e' : Runtime.Env X),
     Runtime.maybe_add_tup nm (Some o) e = (Ok sh, e')
     /\ EinTup.primary sh = false
     /\ EinTup.same_shape_as sh o = true
     /\ Runtime.shapes e' = Runtime.shapes e
     /\ Runtime.get_primary_tups e' = Runtime.get_primary_tups e)
  /\ (dict_get (EinTup.name o) (Runtime.tups e) = None ->
      Runtime.maybe_add_tup nm (Some o) e
      = (Raise (RuntimeError
           "Runtime::maybe_add_tup - shadow_of provided but does not exist"), e)).
Proof.
  intros Hnm. split.
  - intros [t Ho]. unfold Runtime.maybe_add_tup. rewrite Hnm, Ho. simpl.
    eexists _, _. split; [reflexivity|]. split; [reflexivity|].
    split; [apply Nat.eqb_refl|]. split; [reflexivity|].
    rewrite dict_set_fresh by exact Hnm.
    rewrite (get_primary_tups_app _ _ _ (Runtime.shapes e)). simpl.
    rewrite app_nil_r. reflexivity.
  - intros Ho. unfold Runtime.maybe_add_tup. rewrite Hnm, Ho. reflexivity.
Qed.

End AddingGroups.

Lemma maybe_add_tup_then_tup_witness :
  let e := (Runtime.maybe_add_tup "batch" None (Runtime.env Demo.rt0)).2 in
  let batch := EinTup.mk "batch" None 0 None None in
  Runtime.tup e "batch" = Ok batch
  /\ (forall k, k <> "batch" -> Runtime.tup e k = Runtime.tup (Runtime.env Demo.rt0) k)
  /\ (forall owner', Runtime.maybe_add_tup "batch" owner' e = (Ok batch, e)).
Proof.
  intros e batch.
  destruct (maybe_add_tup_then_tup "batch" None (Runtime.env Demo.rt0) e batch eq_refl)
    as (H1 & H2 & H3 & _).
  split; [exact H1|]. split; [exact H2|exact H3].
Defined.

Lemma maybe_add_tup_shadow_witness :
  let e := (Runtime.maybe_add_tup "batch" None (Runtime.env Demo.rt0)).2 in
  let batch := EinTup.mk "batch" None 0 None None in
  (exists (sh : EinTup.t) (e' : Runtime.Env unit),
     Runtime.maybe_add_tup "other" (Some batch) e = (Ok sh, e')
     /\ EinTup.primary sh = false
     /\ EinTup.same_shape_as sh batch = true
     /\ Runtime.shapes e' = Runtime.shapes e
     /\ Runtime.get_primary_tups e' = Runtime.get_primary_tups e)
  /\ Runtime.maybe_add_tup "other" (Some batch) (Runtime.env Demo.rt0)
     = (Raise (RuntimeError
          "Runtime::maybe_add_tup - shadow_of provided but does not exist"),
        Runtime.env Demo.rt0).
Proof.
  intros e batch. split.
  - apply (maybe_add_tup_shadow "other" batch e eq_refl). simpl. eauto.
  - apply (maybe_add_tup_shadow "other" batch (Runtime.env Demo.rt0) eq_refl). reflexivity.
Defined.

Section SettingDims.
Context {C : Runtime.Collaborators}.

(** X10: [Runtime.set_dims] on a primary group, then [dims] and [rank]:
    the group, and every registered group that holds its [Shape], read
    the dims that were set. *)
Theorem runtime_set_dims_then_dims
        (rt : Runtime.t C) (nm : string) (p : EinTup.t) (ds : list Z) :
  dict_get nm (Runtime.tups (Runtime.env rt)) = Some p ->
  EinTup.primary p = true ->
  (EinTup.shape p < length (Runtime.shapes (Runtime.env rt)))%nat ->
  exists rt' : Runtime.t C,
    Runtime.set_dims [(nm, ds)] rt = (Ok tt, rt')
    /\ Runtime.dims (Runtime.env rt') nm = Ok ds
    /\ forall (nm' : string) (q : EinTup.t),
         dict_get nm' (Runtime.tups (Runtime.env rt)) = Some q ->
         EinTup.same_shape_as q p = true ->
         Runtime.dims (Runtime.env rt') nm' = Ok ds
         /\ Runtime.rank (Runtime.env rt') nm' = Ok (Z.of_nat (length ds)).
Proof.
  intros Hget Hprim Hlt.
  unfold Runtime.set_dims. simpl. unfold bind. rewrite Hget.
  unfold Runtime.on_shapes. rewrite set_dims_primary by exact Hprim.
  eexists. split; [reflexivity|].
  assert (Hall : forall (nm' : string) (q : EinTup.t),
             dict_get nm' (Runtime.tups (Runtime.env rt)) = Some q ->
             EinTup.same_shape_as q p = true ->
             Runtime.dims
               (Runtime.env
                  (Runtime.set_env rt
                     (Runtime.mkEnv (Runtime.tups (Runtime.env rt))
                        (Shape.set (EinTup.shape p) ds (Runtime.shapes (Runtime.env rt)))
                        (Runtime.ext (Runtime.env rt))))) nm' = Ok ds).
  { intros nm' q Hq Hsame. apply Nat.eqb_eq in Hsame.
    unfold Runtime.dims, Runtime.tup. simpl. rewrite Hq. simpl.
    unfold EinTup.dims, Shape.get. rewrite Hsame.
    rewrite shape_read_set by exact Hlt. reflexivity. }
  split.
  - apply (Hall nm p Hget). apply Nat.eqb_refl.
  - intros nm' q Hq Hsame. split; [apply (Hall nm' q Hq Hsame)|].
    unfold Runtime.rank. rewrite (Hall nm' q Hq Hsame). reflexivity.
Qed.

(** X11: [Runtime.set_dims] raises at the first name it cannot serve, a
    [KeyError] for a name that is not registered and a [RuntimeError]
    for a shadow; the entries before it stay applied and those after it
    are not looked at. *)
Theorem runtime_set_dims_stops_at_first_error
        (before after : list (string * list Z)) (nm : string) (ds : list Z)
        (rt rt1 : Runtime.t C) :
  Runtime.set_dims before rt = (Ok tt, rt1) ->
  (dict_get nm (Runtime.tups (Runtime.env rt1)) = None ->
   Runtime.set_dims (before ++ (nm, ds) :: after) rt
   = (Raise (OtherError "KeyError"), rt1))
  /\ (forall sh, dict_get nm (Runtime.tups (Runtime.env rt1)) = Some sh ->
        EinTup.primary sh = false ->
        exists rt2,
          Runtime.set_dims (before ++ (nm, ds) :: after) rt
          = (Raise (RuntimeError "cannot call set_dims on shadowing EinTup"), rt2)
          /\ Runtime.env rt2 = Runtime.env rt1
          /\ Runtime.trace rt2 = Runtime.trace rt1).
Proof.
  intros Hpre. unfold Runtime.set_dims in *. split.
  - intros Hnone. rewrite for_each_app. unfold bind at 1. rewrite Hpre.
    simpl. unfold bind. rewrite Hnone. reflexivity.
  - intros sh Hsh Hshadow. rewrite for_each_app. unfold bind at 1. rewrite Hpre.
    simpl. unfold bind. rewrite Hsh.
    unfold Runtime.on_shapes, EinTup.set_dims.
    unfold EinTup.primary in Hshadow.
    destruct (EinTup.shadow_of sh); [|discriminate].
    eexists. split; [reflexivity|]. simpl.
    split; [destruct (Runtime.env rt1); reflexivity|reflexivity].
Qed.

(** X12: [set_ranks] on a rank map served in full: every group named gets
    dims of the rank asked for, each of them within
    [[min_dim, max_dim)], and the registry of groups is as before. *)
Theorem set_ranks_samples_dims (ps : list EinTup.t) :
  forall (cs : list Z) (rt : Runtime.t C),
  length cs = length ps ->
  Forall (fun r => 0 <= r) cs ->
  Forall (fun p => dict_get (EinTup.name p) (Runtime.tups (Runtime.env rt)) = Some p
                   /\ EinTup.primary p = true
                   /\ (EinTup.shape p < length (Runtime.shapes (Runtime.env rt)))%nat) ps ->
  NoDup (EinTup.shape <$> ps) ->
  Runtime.min_dim rt < Runtime.max_dim rt ->
  exists rt' : Runtime.t C,
    Runtime.set_ranks (zip (EinTup.name <$> ps) cs) rt = (Ok tt, rt')
    /\ Runtime.tups (Runtime.env rt') = Runtime.tups (Runtime.env rt)
    /\ length (Runtime.shapes (Runtime.env rt')) = length (Runtime.shapes (Runtime.env rt))
    /\ (forall a, a ∉ EinTup.shape <$> ps ->
          Runtime.shapes (Runtime.env rt') !! a = Runtime.shapes (Runtime.env rt) !! a)
    /\ Runtime.min_dim rt' = Runtime.min_dim rt
    /\ Runtime.max_dim rt' = Runtime.max_dim rt
    /\ Forall2 (fun p r =>
                  exists ds,
                    EinTup.dims p (Runtime.shapes (Runtime.env rt')) = Ok ds
                    /\ Z.of_nat (length ds) = r
                    /\ Forall (fun d => Runtime.min_dim rt <= d < Runtime.max_dim rt) ds)
               ps cs.
Proof.
  induction ps as [|p ps IH]; intros cs rt Hlen Hcs Hps Hnd Hrange.
  - destruct cs; [|discriminate]. exists rt. simpl. repeat split; auto.
  - destruct cs as [|r cs]; [discriminate|].
    apply Forall_cons in Hcs as [Hr Hcs].
    apply Forall_cons in Hps as [(Hget & Hprim & Hlt) Hps].
    simpl in Hnd. apply NoDup_cons in Hnd as [Hfresh Hnd].
    set (ds := (fun k : nat =>
                  Runtime.min_dim rt
                  + rng_stream (Runtime.rng rt) (rng_pos (Runtime.rng rt) + k)%nat
                    mod (Runtime.max_dim rt - Runtime.min_dim rt))
                 <$> seq 0 (Z.to_nat r)).
    set (rt1 := Runtime.set_env
                  (Runtime.set_rng
                     (mkRNG (rng_stream (Runtime.rng rt))
                            (rng_pos (Runtime.rng rt) + Z.to_nat r)%nat) rt)
                  (Runtime.mkEnv (Runtime.tups (Runtime.env rt))
                     (Shape.set (EinTup.shape p) ds (Runtime.shapes (Runtime.env rt)))
                     (Runtime.ext (Runtime.env rt)))).
    assert (Hstep : Runtime.set_rank_of (EinTup.name p) r rt = (Ok tt, rt1)).
    { unfold Runtime.set_rank_of. rewrite Hget, Hprim. cbn [negb].
      unfold randint.
      destruct (Z.leb_spec (Runtime.max_dim rt) (Runtime.min_dim rt)) as [|_]; [lia|].
      destruct (Z.ltb_spec r 0) as [|_]; [lia|].
      unfold Runtime.on_shapes. cbn [Runtime.env Runtime.set_rng Runtime.shapes].
      rewrite set_dims_primary by exact Hprim. reflexivity. }
    assert (Hds : Z.of_nat (length ds) = r
                  /\ Forall (fun d => Runtime.min_dim rt <= d < Runtime.max_dim rt) ds).
    { subst ds. split; [rewrite length_fmap, length_seq; lia|].
      apply Forall_fmap, Forall_forall. intros k _. simpl.
      pose proof (Z.mod_pos_bound
                    (rng_stream (Runtime.rng rt) (rng_pos (Runtime.rng rt) + k)%nat)
                    (Runtime.max_dim rt - Runtime.min_dim rt)). lia. }
    destruct (IH cs rt1) as (rt' & Hrun & T2 & L2 & U2 & A2 & B2 & R2).
    { simpl in Hlen. lia. }
    { exact Hcs. }
    { eapply Forall_impl; [exact Hps|]. intros q (Hq1 & Hq2 & Hq3).
      subst rt1. simpl. rewrite shape_set_length. auto. }
    { exact Hnd. }
    { exact Hrange. }
    exists rt'. split.
    { change (Runtime.set_ranks (zip (EinTup.name <$> p :: ps) (r :: cs)) rt)
        with (bind (Runtime.set_rank_of (EinTup.name p) r)
                   (fun _ => Runtime.set_ranks (zip (EinTup.name <$> ps) cs)) rt).
      unfold bind. rewrite Hstep. exact Hrun. }
    split; [rewrite T2; reflexivity|].
    split; [rewrite L2; subst rt1; simpl; apply shape_set_length|].
    split.
    { intros a Ha. simpl in Ha. apply not_elem_of_cons in Ha as [Hne Ha].
      rewrite U2 by exact Ha. subst rt1. simpl. unfold Shape.set.
      apply list_lookup_insert_ne. congruence. }
    split; [rewrite A2; reflexivity|]. split; [rewrite B2; reflexivity|].
    constructor; [|exact R2].
    exists ds. split; [|exact Hds].
    unfold EinTup.dims, Shape.get, Shape.read.
    rewrite U2 by exact Hfresh. subst rt1. simpl. unfold Shape.set.
    rewrite list_lookup_insert_eq by exact Hlt. reflexivity.
Qed.

(** X13: [set_ranks] raises at the first name that is not registered or
    is a shadow; the groups named before it keep their new dims, nothing
    is drawn for the failing name, and the names after it are not looked
    at. *)
Theorem set_ranks_stops_at_first_error
        (before after : list (string * Z)) (nm : string) (r : Z)
        (rt rt1 : Runtime.t C) :
  Runtime.set_ranks before rt = (Ok tt, rt1) ->
  (dict_get nm (Runtime.tups (Runtime.env rt1)) = None ->
   Runtime.set_ranks (before ++ (nm, r) :: after) rt
   = (Raise (RuntimeError "Cannot set dims for unknown EinTup"), rt1))
  /\ (forall sh, dict_get nm (Runtime.tups (Runtime.env rt1)) = Some sh ->
        EinTup.primary sh = false ->
        Runtime.set_ranks (before ++ (nm, r) :: after) rt
        = (Raise (RuntimeError "Cannot set dims for non-primary EinTup"), rt1)).
Proof.
  intros Hpre. unfold Runtime.set_ranks in *. split.
  - intros Hnone. rewrite for_each_app. unfold bind at 1. rewrite Hpre.
    simpl. unfold bind, Runtime.set_rank_of. rewrite Hnone. reflexivity.
  - intros sh Hsh Hshadow. rewrite for_each_app. unfold bind at 1. rewrite Hpre.
    simpl. unfold bind, Runtime.set_rank_of. rewrite Hsh, Hshadow. reflexivity.
Qed.

End SettingDims.

Lemma runtime_set_dims_then_dims_witness :
  exists rt' : Runtime.t Demo.grammar,
    Runtime.set_dims [("batch", [4; 5])] (Demo.two_groups []) = (Ok tt, rt')
    /\ Runtime.dims (Runtime.env rt') "batch" = Ok [4; 5]
    /\ Runtime.dims (Runtime.env rt') "other" = Ok [4; 5]
    /\ Runtime.rank (Runtime.env rt') "other" = Ok 2.
Proof.
  destruct (runtime_set_dims_then_dims (C := Demo.grammar) (Demo.two_groups [])
              "batch" (EinTup.mk "batch" None 0 None None) [4; 5])
    as (rt' & Hset & Hd & Hall).
  - reflexivity.
  - reflexivity.
  - simpl. lia.
  - exists rt'. split; [exact Hset|]. split; [exact Hd|].
    apply (Hall "other" (EinTup.mk "other" (Some "batch") 0 None None)); reflexivity.
Defined.

Lemma runtime_set_dims_stops_at_first_error_witness :
  exists rt1 : Runtime.t Demo.grammar,
    Runtime.set_dims [("batch", [4; 5])] (Demo.two_groups []) = (Ok tt, rt1)
    /\ Runtime.set_dims [("batch", [4; 5]); ("nobody", [1]); ("slice", [2])]
         (Demo.two_groups [])
       = (Raise (OtherError "KeyError"), rt1)
    /\ Runtime.dims (Runtime.env rt1) "batch" = Ok [4; 5]
    /\ exists rt2,
         Runtime.set_dims [("batch", [4; 5]); ("other", [1]); ("slice", [2])]
           (Demo.two_groups [])
         = (Raise (RuntimeError "cannot call set_dims on shadowing EinTup"), rt2)
         /\ Runtime.env rt2 = Runtime.env rt1
         /\ Runtime.trace rt2 = Runtime.trace rt1.
Proof.
  eexists. split; [reflexivity|]. split; [|split; [reflexivity|]].
  - apply (runtime_set_dims_stops_at_first_error (C := Demo.grammar)
             [("batch", [4; 5])] [("slice", [2])] "nobody" [1] (Demo.two_groups []));
      reflexivity.
  - destruct (runtime_set_dims_stops_at_first_error (C := Demo.grammar)
                [("batch", [4; 5])] [("slice", [2])] "other" [1] (Demo.two_groups [])
                _ eq_refl) as [_ Hshadow].
    apply (Hshadow (EinTup.mk "other" (Some "batch") 0 None None)); reflexivity.
Defined.

Lemma set_ranks_samples_dims_witness :
  exists rt' : Runtime.t Demo.grammar,
    Runtime.set_ranks [("batch", 2); ("slice", 1)] (Demo.two_groups []) = (Ok tt, rt')
    /\ Runtime.dims (Runtime.env rt') "batch" = Ok [5; 6]
    /\ Runtime.dims (Runtime.env rt') "slice" = Ok [7]
    /\ Forall2 (fun p r =>
                  exists ds,
                    EinTup.dims p (Runtime.shapes (Runtime.env rt')) = Ok ds
                    /\ Z.of_nat (length ds) = r
                    /\ Forall (fun d => 5 <= d < 100) ds)
               [EinTup.mk "batch" None 0 None None; EinTup.mk "slice" None 1 None None]
               [2; 1].
Proof.
  destruct (set_ranks_samples_dims (C := Demo.grammar)
              [EinTup.mk "batch" None 0 None None; EinTup.mk "slice" None 1 None None]
              [2; 1] (Demo.two_groups []))
    as (rt' & Hset & _ & _ & _ & _ & _ & Hall).
  - reflexivity.
  - repeat constructor; lia.
  - repeat constructor; simpl; lia.
  - apply (bool_decide_unpack _). vm_compute. exact I.
  - simpl. lia.
  - exists rt'. split; [exact Hset|].
    assert (Hrt : rt' = (Runtime.set_ranks [("batch", 2); ("slice", 1)]
                           (Demo.two_groups [])).2).
    { change [("batch", 2); ("slice", 1)]
        with (zip (EinTup.name <$> [EinTup.mk "batch" None 0 None None;
                                    EinTup.mk "slice" None 1 None None]) [2; 1]).
      rewrite Hset. reflexivity. }
    split; [rewrite Hrt; reflexivity|]. split; [rewrite Hrt; reflexivity|exact Hall].
Defined.

Lemma set_ranks_stops_at_first_error_witness :
  exists rt1 : Runtime.t Demo.grammar,
    Runtime.set_ranks [("batch", 2)] (Demo.two_groups []) = (Ok tt, rt1)
    /\ Runtime.set_ranks [("batch", 2); ("nobody", 1); ("slice", 3)] (Demo.two_groups [])
       = (Raise (RuntimeError "Cannot set dims for unknown EinTup"), rt1)
    /\ Runtime.set_ranks [("batch", 2); ("other", 1); ("slice", 3)] (Demo.two_groups [])
       = (Raise (RuntimeError "Cannot set dims for non-primary EinTup"), rt1).
Proof.
  eexists. split; [reflexivity|]. split.
  - apply (set_ranks_stops_at_first_error (C := Demo.grammar)
             [("batch", 2)] [("slice", 3)] "nobody" 1 (Demo.two_groups []));
      reflexivity.
  - destruct (set_ranks_stops_at_first_error (C := Demo.grammar)
                [("batch", 2)] [("slice", 3)] "other" 1 (Demo.two_groups [])
                _ eq_refl) as [_ Hshadow].
    apply (Hshadow (EinTup.mk "other" (Some "batch") 0 None None)); reflexivity.
Defined.

(** * Further properties of the rank search *)

Lemma product_replicate (n : nat) (d : Z) : product (replicate n d) = d ^ Z.of_nat n.
Proof.
  induction n as [|n IH]; [reflexivity|].
  cbn [replicate product fold_right]. fold (product (replicate n d)).
  rewrite IH, Nat2Z.inj_succ, Z.pow_succ_r by lia. reflexivity.
Qed.

Lemma accepted_without_constraints (combos : list (list Z)) :
  Runtime.accepted [] combos = combos.
Proof.
  unfold Runtime.accepted. induction combos as [|c combos IH]; [reflexivity|].
  rewrite filter_cons_True by reflexivity. rewrite IH. reflexivity.
Qed.

Lemma unravel_zero (ds : list Z) : unravel ds 0 = replicate (length ds) 0.
Proof.
  induction ds as [|d ds IH]; [reflexivity|].
  simpl. rewrite Zdiv_0_l, Zmod_0_l, IH. reflexivity.
Qed.

Lemma ndindex_list_first (n : nat) :
  exists combos, ndindex_list (replicate n 10) = replicate n 0 :: combos.
Proof.
  assert (Hnn : Forall (fun d => 0 <= d) (replicate n 10)).
  { apply Forall_replicate. lia. }
  pose proof (lookup_ndindex_list (replicate n 10) 0 Hnn) as Hl.
  rewrite product_replicate in Hl.
  specialize (Hl ltac:(split; [lia|apply Z.pow_pos_nonneg; lia])).
  rewrite unravel_zero, length_replicate in Hl. simpl in Hl.
  destruct (ndindex_list (replicate n 10)) as [|c combos]; [discriminate|].
  simpl in Hl. injection Hl as ->. eauto.
Qed.

Section RankSearchMore.
Context {C : Runtime.Collaborators}.

Lemma registry_ok_primaries (rt : Runtime.t C) :
  Runtime.registry_ok (Runtime.env rt) ->
  Forall (fun p => dict_get (EinTup.name p) (Runtime.tups (Runtime.env rt)) = Some p
                   /\ EinTup.primary p = true
                   /\ (EinTup.shape p < length (Runtime.shapes (Runtime.env rt)))%nat)
         (Runtime.get_primary_tups (Runtime.env rt)).
Proof.
  intros (Hf & _ & _). apply Forall_forall. intros q Hq.
  rewrite Forall_forall in Hf. destruct (Hf q Hq) as [Hq1 Hq2].
  split; [exact Hq1|]. split; [|exact Hq2].
  unfold Runtime.get_primary_tups in Hq.
  apply list_elem_of_filter in Hq as [Hq _]. exact Hq.
Qed.

(** X14: with any number [n] of primary groups, [gen_shapes] goes through
    the [10^n] rank combinations in row-major order and yields the rank
    map of each combination the rank constraints accept, and of no
    other; without constraints it yields all of them (one empty map when
    there is no primary group). *)
Theorem gen_shapes_all_rank_combinations
        (rt : Runtime.t C) (cns : list Runtime.Node) (holds : list (list Z -> bool)) :
  Runtime.registry_ok (Runtime.env rt) ->
  Runtime.min_dim rt < Runtime.max_dim rt ->
  Runtime.constraints rt = Some cns ->
  Forall2 (Runtime.rank_constraint
             (EinTup.name <$> Runtime.get_primary_tups (Runtime.env rt))) cns holds ->
  let names := EinTup.name <$> Runtime.get_primary_tups (Runtime.env rt) in
  let combos := ndindex_list (replicate (length names) 10) in
  exists rt' : Runtime.t C,
    Runtime.gen_shapes rt = (zip names <$> Runtime.accepted holds combos, Ok tt, rt')
    /\ Z.of_nat (length combos) = 10 ^ Z.of_nat (length names)
    /\ (cns = [] -> Runtime.accepted holds combos = combos).
Proof.
  intros Hok Hrange Hc Hcns names combos.
  pose proof (registry_ok_primaries rt Hok) as Hps.
  destruct Hok as (_ & Hnds & Hndn).
  assert (Hnn : Forall (fun d => 0 <= d) (replicate (length names) 10)).
  { apply Forall_replicate. lia. }
  destruct (gen_shapes_loop_accepts (Runtime.get_primary_tups (Runtime.env rt))
              cns holds Hnds Hndn Hcns combos rt) as (rt' & Hloop); auto.
  { apply Forall_forall. intros c Hin. subst combos.
    apply ndindex_list_elem in Hin as [Hlen Hall].
    rewrite length_replicate in Hlen. subst names.
    rewrite length_fmap in Hlen. auto. }
  exists rt'. split; [|split].
  - unfold Runtime.gen_shapes. fold names. rewrite np_ndindex_ok by exact Hnn.
    exact Hloop.
  - subst combos. rewrite length_ndindex_list by exact Hnn.
    apply product_replicate.
  - intros ->. inversion Hcns; subst. apply accepted_without_constraints.
Qed.

(** X15: a search started on a runtime into which no specification was
    loaded yields nothing and raises [TypeError] at the constraints
    ([None]), after it has given every primary group the rank 0 of the
    first combination. *)
Theorem gen_shapes_before_load_raises (rt : Runtime.t C) :
  Runtime.registry_ok (Runtime.env rt) ->
  Runtime.min_dim rt < Runtime.max_dim rt ->
  Runtime.constraints rt = None ->
  exists rt' : Runtime.t C,
    Runtime.gen_shapes rt
    = ([], Raise (TypeError "'NoneType' object is not iterable"), rt')
    /\ Forall (fun p => EinTup.rank p (Runtime.shapes (Runtime.env rt')) = Ok 0)
              (Runtime.get_primary_tups (Runtime.env rt)).
Proof.
  intros Hok Hrange Hc.
  pose proof (registry_ok_primaries rt Hok) as Hps.
  destruct Hok as (_ & Hnds & Hndn).
  set (ps := Runtime.get_primary_tups (Runtime.env rt)) in *.
  assert (Hnn : Forall (fun d => 0 <= d) (replicate (length (EinTup.name <$> ps)) 10)).
  { apply Forall_replicate. lia. }
  unfold Runtime.gen_shapes. fold ps. rewrite np_ndindex_ok by exact Hnn.
  destruct (ndindex_list_first (length (EinTup.name <$> ps))) as (combos & ->).
  rewrite length_fmap.
  cbn [Runtime.gen_shapes_loop].
  rewrite py_dict_nodup.
  2:{ rewrite fst_zip; [exact Hndn|]. rewrite length_fmap, length_replicate. lia. }
  destruct (set_ranks_primaries ps (replicate (length ps) 0) rt)
    as (rt1 & Hset & F1 & _ & _ & _ & R1); auto.
  { apply length_replicate. }
  { apply Forall_replicate. lia. }
  rewrite Hset. unfold Runtime.constraints_hold.
  destruct F1 as (_ & K & _). rewrite K, Hc.
  exists rt1. split; [reflexivity|].
  clear -R1. remember (replicate (length ps) 0) as zs eqn:Hz.
  assert (Hzero : Forall (fun z => z = 0) zs).
  { subst zs. apply Forall_replicate. reflexivity. }
  clear Hz. induction R1 as [|p z ps' zs' Hp Hrest IH]; constructor.
  - apply Forall_cons in Hzero as [-> _]. exact Hp.
  - apply IH. apply Forall_cons in Hzero as [_ Hz]. exact Hz.
Qed.

End RankSearchMore.

(** Three primary groups would give 1000 combinations; the runtime of the
    scenarios has two. *)
Lemma gen_shapes_all_rank_combinations_witness :
  exists rt' : Runtime.t Demo.grammar,
    Runtime.gen_shapes (Demo.two_groups [])
    = (zip ["batch"; "slice"]
         <$> Runtime.accepted [] (ndindex_list (replicate 2 10)), Ok tt, rt')
    /\ Z.of_nat (length (ndindex_list (replicate 2 10))) = 10 ^ 2
    /\ Runtime.accepted [] (ndindex_list (replicate 2 10)) = ndindex_list (replicate 2 10).
Proof.
  destruct (gen_shapes_all_rank_combinations (C := Demo.grammar) (Demo.two_groups []) [] [])
    as (rt' & Hgen & Hlen & Hall).
  - apply two_groups_registry.
  - simpl. lia.
  - reflexivity.
  - constructor.
  - exists rt'. split; [exact Hgen|]. split; [exact Hlen|]. apply Hall. reflexivity.
Defined.

Lemma gen_shapes_before_load_raises_witness :
  exists rt' : Runtime.t Demo.grammar,
    Runtime.gen_shapes (Runtime.set_env Demo.rt0 (Runtime.env (Demo.two_groups [])))
    = ([], Raise (TypeError "'NoneType' object is not iterable"), rt')
    /\ Forall (fun p => EinTup.rank p (Runtime.shapes (Runtime.env rt')) = Ok 0)
              [EinTup.mk "batch" None 0 None None; EinTup.mk "slice" None 1 None None].
Proof.
  apply (gen_shapes_before_load_raises (C := Demo.grammar)
           (Runtime.set_env Demo.rt0 (Runtime.env (Demo.two_groups [])))).
  - apply (two_groups_registry []).
  - simpl. lia.
  - reflexivity.
Defined.

(** * Further properties of loading and of [run] *)

Section LoadingMore.
Context {C : Runtime.Collaborators}.

(** A comprehension of calls that ends normally made one call per
    element, in order, and returns one result per element. *)
Lemma list_comp_calls {A B} (ev : A -> Runtime.Event C)
      (f : A -> M (Runtime.Env Runtime.Ext) B) (xs : list A) :
  forall (rt rt' : Runtime.t C) (ys : list B),
  list_comp (fun x => Runtime.call (ev x) (f x)) xs rt = (Ok ys, rt') ->
  Runtime.trace rt' = Runtime.trace rt ++ (ev <$> xs)
  /\ length ys = length xs
  /\ Runtime.frame rt rt'.
Proof.
  induction xs as [|x xs IH]; intros rt rt' ys H; simpl in H.
  - injection H as <- <-. split; [symmetry; apply app_nil_r|].
    split; [reflexivity|apply frame_refl].
  - apply bind_ok in H as (y & rt1 & H1 & H).
    apply bind_ok in H as (ys' & rt2 & H2 & H).
    injection H as <- <-.
    pose proof (framed_eq _ _ _ _ (framed_call _ _) H1) as F1.
    apply call_trace in H1. apply IH in H2 as (T2 & L2 & F2).
    split; [rewrite T2, H1, <- app_assoc; reflexivity|].
    split; [simpl; congruence|eapply frame_trans; eassumption].
Qed.

Lemma for_each_calls {A} (ev : A -> Runtime.Event C)
      (f : A -> M (Runtime.Env Runtime.Ext) unit) (xs : list A) :
  forall (rt rt' : Runtime.t C),
  for_each (fun x => Runtime.call (ev x) (f x)) xs rt = (Ok tt, rt') ->
  Runtime.trace rt' = Runtime.trace rt ++ (ev <$> xs) /\ Runtime.frame rt rt'.
Proof.
  induction xs as [|x xs IH]; intros rt rt' H; simpl in H.
  - injection H as <-. split; [symmetry; apply app_nil_r|apply frame_refl].
  - apply bind_ok in H as (u & rt1 & H1 & H2).
    pose proof (framed_eq _ _ _ _ (framed_call _ _) H1) as F1.
    apply call_trace in H1. apply IH in H2 as (T2 & F2).
    split; [rewrite T2, H1, <- app_assoc; reflexivity|eapply frame_trans; eassumption].
Qed.

(** X16: a load that ends normally called the grammar on each statement
    line in order, then on the call expression and on the output list
    (their lines joined by spaces), then on each constraint line; it
    stored one node per line; and it then initialised the statement
    nodes, the constraint nodes and the call node, in this order, and not
    the output references.  Sections after the fourth are not read. *)
Theorem parse_et_file_order
        (content s1 s2 s3 : string) (rest : list string) (rt rt' : Runtime.t C) :
  re_split_blank_lines (py_strip content) = s1 :: s2 :: s3 :: rest ->
  Runtime.parse_et_file content rt = (Ok tt, rt') ->
  let lines := py_split_lines (py_strip s1) in
  let call_text := py_strip (py_replace_newlines s2) in
  let out_text := py_strip (py_replace_newlines s3) in
  let con_lines := py_split_lines (py_strip (hd EmptyString rest)) in
  exists (sts : list Runtime.Node) (cl : Runtime.Node)
         (outs cns : list Runtime.Node),
    Runtime.statements rt' = Some sts
    /\ Runtime.tf_call rt' = Some cl
    /\ Runtime.out_args rt' = Some outs
    /\ Runtime.constraints rt' = Some cns
    /\ length sts = length lines
    /\ length cns = length con_lines
    /\ Runtime.trace rt'
       = Runtime.trace rt
         ++ (Runtime.EvParse Runtime.StatementMode <$> lines)
         ++ [Runtime.EvParse Runtime.TfcallMode call_text;
             Runtime.EvParse Runtime.OutputMode out_text]
         ++ (Runtime.EvParse Runtime.ConstraintMode <$> con_lines)
         ++ (Runtime.EvPostParseInit <$> (sts ++ cns ++ [cl])).
Proof.
  intros Hsplit H lines call_text out_text con_lines.
  unfold Runtime.parse_et_file in H. rewrite Hsplit in H.
  cbv beta iota zeta in H.
  change (match rest with [] => EmptyString | c :: _ => c end)
    with (hd EmptyString rest) in H.
  fold lines call_text out_text con_lines in H.
  apply bind_ok in H as (sts & r1 & H1 & H). rewrite bind_modify in H.
  apply bind_ok in H as (cl & r2 & H2 & H). rewrite bind_modify in H.
  apply bind_ok in H as (outs & r3 & H3 & H). rewrite bind_modify in H.
  apply bind_ok in H as (cns & r4 & H4 & H). rewrite bind_modify in H.
  pose proof (framed_eq _ _ _ _ (framed_call _ _) H2) as (S2 & K2 & C2 & O2 & _).
  pose proof (framed_eq _ _ _ _ (framed_call _ _) H3) as (S3 & K3 & C3 & O3 & _).
  apply (list_comp_calls (Runtime.EvParse Runtime.StatementMode)
           (Runtime.parser_parse Runtime.StatementMode)) in H1 as (T1 & L1 & _).
  apply call_trace in H2, H3.
  apply (list_comp_calls (Runtime.EvParse Runtime.ConstraintMode)
           (Runtime.parser_parse Runtime.ConstraintMode))
    in H4 as (T4 & L4 & S4 & K4 & C4 & O4 & _).
  apply (for_each_calls Runtime.EvPostParseInit Runtime.node_post_parse_init)
    in H as (T5 & S5 & K5 & C5 & O5 & _).
  cbn [Runtime.statements Runtime.constraints Runtime.tf_call Runtime.out_args
       Runtime.trace Runtime.set_statements Runtime.set_tf_call
       Runtime.set_out_args Runtime.set_constraints] in *.
  exists sts, cl, outs, cns.
  split; [congruence|]. split; [congruence|]. split; [congruence|].
  split; [congruence|]. split; [exact L1|]. split; [exact L4|].
  rewrite T5, T4, H3, H2, T1. rewrite <- !app_assoc. reflexivity.
Qed.

(** X17: a text with fewer than three sections (an empty file, a file
    of blank lines, a file without a blank line) is refused with
    [StopIteration] before the grammar is called: the runtime is left as
    it was. *)
Theorem parse_et_file_needs_three_sections (content : string) (rt : Runtime.t C) :
  (length (re_split_blank_lines (py_strip content)) < 3)%nat ->
  Runtime.parse_et_file content rt = (Raise StopIteration, rt).
Proof.
  intros Hlen. unfold Runtime.parse_et_file.
  destruct (re_split_blank_lines (py_strip content)) as [|s1 [|s2 [|s3 rest]]];
    try reflexivity.
  simpl in Hlen. lia.
Qed.

Lemma py_all_constant_true (cns : list Runtime.Node) :
  Forall (fun con => Runtime.constant_constraint con true) cns ->
  forall rt : Runtime.t C,
  exists rt',
    py_all Runtime.value_is_true cns rt = (Ok true, rt')
    /\ Runtime.env rt' = Runtime.env rt
    /\ Runtime.trace rt' = Runtime.trace rt ++ (Runtime.EvValue <$> cns).
Proof.
  induction 1 as [|con cns Hcon Hrest IH]; intros rt.
  - exists rt. simpl. split; [reflexivity|]. split; [reflexivity|].
    symmetry. apply app_nil_r.
  - destruct (Hcon (Runtime.env rt)) as (v & Hv & Ht).
    destruct (IH (Runtime.set_env (Runtime.log (Runtime.EvValue con) rt) (Runtime.env rt)))
      as (rt' & Hall & He & Htr).
    exists rt'. split; [|split].
    + simpl. unfold bind at 1. unfold Runtime.value_is_true, bind, Runtime.call.
      cbn [Runtime.env Runtime.log]. rewrite Hv. unfold ret. rewrite Ht. exact Hall.
    + rewrite He. reflexivity.
    + rewrite Htr. simpl. rewrite <- app_assoc. reflexivity.
Qed.

(** X18: [run] stops at the first constraint that is false: it returns
    [None], the constraints after it are not evaluated, no statement is
    evaluated and no output is read. *)
Theorem run_stops_at_first_false_constraint
        (rt : Runtime.t C) (before after : list Runtime.Node) (con : Runtime.Node) :
  Runtime.constraints rt = Some (before ++ con :: after) ->
  Forall (fun c => Runtime.constant_constraint c true) before ->
  Runtime.constant_constraint con false ->
  exists rt' : Runtime.t C,
    Runtime.run rt = (Ok None, rt')
    /\ Runtime.env rt' = Runtime.env rt
    /\ Runtime.trace rt'
       = Runtime.trace rt ++ (Runtime.EvValue <$> (before ++ [con])).
Proof.
  intros Hc Hbefore Hcon.
  assert (Hall : forall (cs : list Runtime.Node) (r0 : Runtime.t C),
             Forall (fun c => Runtime.constant_constraint c true) cs ->
             exists r1,
               py_all Runtime.value_is_true (cs ++ con :: after) r0 = (Ok false, r1)
               /\ Runtime.env r1 = Runtime.env r0
               /\ Runtime.trace r1
                  = Runtime.trace r0 ++ (Runtime.EvValue <$> (cs ++ [con]))).
  { induction cs as [|c cs IH]; intros r0 Hcs.
    - destruct (Hcon (Runtime.env r0)) as (v & Hv & Ht).
      eexists. split; [|split].
      + simpl. unfold bind at 1. unfold Runtime.value_is_true, bind, Runtime.call.
        cbn [Runtime.env Runtime.log]. rewrite Hv. unfold ret. rewrite Ht. reflexivity.
      + reflexivity.
      + reflexivity.
    - apply Forall_cons in Hcs as [Hc0 Hcs].
      destruct (Hc0 (Runtime.env r0)) as (v & Hv & Ht).
      destruct (IH (Runtime.set_env (Runtime.log (Runtime.EvValue c) r0) (Runtime.env r0))
                   Hcs) as (r1 & H1 & He & Htr).
      exists r1. split; [|split].
      + simpl. unfold bind at 1. unfold Runtime.value_is_true, bind, Runtime.call.
        cbn [Runtime.env Runtime.log]. rewrite Hv. unfold ret. rewrite Ht. exact H1.
      + rewrite He. reflexivity.
      + rewrite Htr. simpl. rewrite <- app_assoc. reflexivity. }
  destruct (Hall before rt Hbefore) as (rt' & Hpy & He & Htr).
  exists rt'. split; [|split; assumption].
  unfold Runtime.run, bind, Runtime.constraints_hold. rewrite Hc, Hpy. reflexivity.
Qed.

End LoadingMore.

Lemma parse_et_file_order_witness :
  let rt' := (Runtime.parse_et_file (C := Demo.grammar) Demo.four_sections Demo.rt0).2 in
  Runtime.statements rt' = Some [Demo.Parsed Runtime.StatementMode "out[b] = in[b]"
                                 : @Runtime.Node Demo.grammar]
  /\ exists (sts : list (@Runtime.Node Demo.grammar)) (cl : @Runtime.Node Demo.grammar)
            (outs cns : list (@Runtime.Node Demo.grammar)),
       Runtime.statements rt' = Some sts
       /\ Runtime.tf_call rt' = Some cl
       /\ Runtime.out_args rt' = Some outs
       /\ Runtime.constraints rt' = Some cns
       /\ length sts = 1%nat
       /\ length cns = 1%nat
       /\ Runtime.trace rt'
          = Runtime.trace Demo.rt0
            ++ [Runtime.EvParse Runtime.StatementMode "out[b] = in[b]"]
            ++ [Runtime.EvParse Runtime.TfcallMode "tf.identity(in)";
                Runtime.EvParse Runtime.OutputMode "out"]
            ++ [Runtime.EvParse Runtime.ConstraintMode "RANK(b) > 0"]
            ++ (Runtime.EvPostParseInit <$> (sts ++ cns ++ [cl])).
Proof.
  intros rt'. split; [reflexivity|].
  apply (parse_et_file_order (C := Demo.grammar) Demo.four_sections
           "out[b] = in[b]" "tf.identity(in)" "out" ["RANK(b) > 0"] Demo.rt0 rt');
    reflexivity.
Defined.

Lemma parse_et_file_needs_three_sections_witness :
  Runtime.parse_et_file (C := Demo.grammar) EmptyString Demo.rt0
  = (Raise StopIteration, Demo.rt0)
  /\ Runtime.parse_et_file (C := Demo.grammar)
       (String.concat (String newline EmptyString)
          ["out[b] = in[b]"; EmptyString; "tf.identity(in)"; EmptyString; EmptyString])
       Demo.rt0
     = (Raise StopIteration, Demo.rt0).
Proof.
  split; apply (parse_et_file_needs_three_sections (C := Demo.grammar));
    vm_compute; lia.
Defined.

Lemma parsed_text_is_constant (mode : Runtime.ParseMode) (text : string) :
  Runtime.constant_constraint (C := Demo.grammar) (Demo.Parsed mode text)
    (negb (String.eqb text EmptyString)).
Proof. intros e. exists (Demo.VText text). split; reflexivity. Qed.

(** Three constraints, the second one false: the third is not evaluated. *)
Lemma run_stops_at_first_false_constraint_witness :
  let a : @Runtime.Node Demo.grammar := Demo.Parsed Runtime.ConstraintMode "a" in
  let no : @Runtime.Node Demo.grammar := Demo.Parsed Runtime.ConstraintMode EmptyString in
  let b : @Runtime.Node Demo.grammar := Demo.Parsed Runtime.ConstraintMode "b" in
  let rt := Runtime.set_constraints (C := Demo.grammar) [a; no; b] Demo.rt0 in
  exists rt' : Runtime.t Demo.grammar,
    Runtime.run rt = (Ok None, rt')
    /\ Runtime.env rt' = Runtime.env rt
    /\ Runtime.trace rt' = Runtime.trace rt ++ [Runtime.EvValue a; Runtime.EvValue no].
Proof.
  intros a no b rt.
  apply (run_stops_at_first_false_constraint (C := Demo.grammar) rt [a] [b] no).
  - reflexivity.
  - constructor; [|constructor].
    apply (parsed_text_is_constant Runtime.ConstraintMode "a").
  - apply (parsed_text_is_constant Runtime.ConstraintMode EmptyString).
Defined.

(** * Further properties of the wrapper *)

Section WrapperMore.
Context {F : Opcheck.Framework}.

(** X19: the checks of the wrapper are observations.  When the arguments
    bind, the wrapped operation is called exactly once, with the caller's
    arguments and on the state the caller left, whether input validation
    passed or failed; a failed validation only adds a call of [report]
    and a print.  When the arguments do not bind, the wrapper raises
    [TypeError] and neither the schema nor the operation is called. *)
Theorem wrapper_validation_is_observational
        (args : Opcheck.Args) (st : Opcheck.State F) :
  (Opcheck.sig_bind args = None ->
   Opcheck.wrapper args st
   = (Opcheck.RaisedByWrapper (TypeError "missing or unexpected argument"), st))
  /\ (forall bound, Opcheck.sig_bind args = Some bound ->
      let enabled := Opcheck.config_validate st in
      let checked := Opcheck.p_evaluate enabled
                       (Opcheck.p_init enabled bound (Opcheck.schema st)) in
      exists post,
        Opcheck.events (Opcheck.wrapper args st).2
        = Opcheck.events st
          ++ [Opcheck.CallInit bound; Opcheck.CallEvaluate]
          ++ (if checked.1 then [Opcheck.PrintInputValidationPassed]
              else [Opcheck.CallReport;
                    Opcheck.PrintInputValidationFailed
                      (Opcheck.p_report enabled checked.2).1])
          ++ [Opcheck.CallFunc args] ++ post
        /\ Forall (fun ev => forall a, ev <> Opcheck.CallFunc a) post
        /\ Opcheck.world (Opcheck.wrapper args st).2
           = (Opcheck.func args (Opcheck.world st)).2).
Proof.
  split.
  - intros Hbind. unfold Opcheck.wrapper. rewrite Hbind. reflexivity.
  - intros bound Hbind enabled checked. subst enabled checked.
    unfold Opcheck.wrapper. rewrite Hbind.
    unfold Opcheck.input_validation, Opcheck.finally, Opcheck.call_report.
    cbn [Opcheck.schema Opcheck.world Opcheck.emit Opcheck.set_schema
         Opcheck.set_world Opcheck.events Opcheck.config_validate].
    destruct (Opcheck.p_evaluate _ (Opcheck.p_init _ bound (Opcheck.schema st)))
      as [valid s].
    destruct valid; cbn [fst snd].
    + cbn [Opcheck.schema Opcheck.world Opcheck.emit Opcheck.set_schema
           Opcheck.set_world Opcheck.events Opcheck.config_validate].
      destruct (Opcheck.func args (Opcheck.world st)) as [[ex|ret_val] w].
      * destruct (Opcheck.is_Exception ex); cbn;
          destruct (Opcheck.p_report _ _) as [text s']; cbn;
          eexists; (split; [rewrite <- !app_assoc; reflexivity|]);
          (split; [repeat constructor; discriminate|reflexivity]).
      * cbn. destruct (Opcheck.p_report _ _) as [text s']. cbn.
        eexists. split; [rewrite <- !app_assoc; reflexivity|].
        split; [repeat constructor; discriminate|reflexivity].
    + destruct (Opcheck.p_report _ s) as [text0 s0].
      cbn [fst snd Opcheck.schema Opcheck.world Opcheck.emit Opcheck.set_schema
           Opcheck.set_world Opcheck.events Opcheck.config_validate].
      destruct (Opcheck.func args (Opcheck.world st)) as [[ex|ret_val] w].
      * destruct (Opcheck.is_Exception ex); cbn;
          destruct (Opcheck.p_report _ _) as [text s']; cbn;
          eexists; (split; [rewrite <- !app_assoc; reflexivity|]);
          (split; [repeat constructor; discriminate|reflexivity]).
      * cbn. destruct (Opcheck.p_report _ _) as [text s']. cbn.
        eexists. split; [rewrite <- !app_assoc; reflexivity|].
        split; [repeat constructor; discriminate|reflexivity].
Qed.

End WrapperMore.

Lemma wrapper_validation_is_observational_witness :
  exists post,
    Opcheck.events (Opcheck.wrapper (F := Demo.framework) Demo.Boom Demo.process0).2
    = Opcheck.events Demo.process0
      ++ [Opcheck.CallInit (F := Demo.framework) Demo.Boom; Opcheck.CallEvaluate]
      ++ [Opcheck.PrintInputValidationPassed]
      ++ [Opcheck.CallFunc (F := Demo.framework) Demo.Boom] ++ post
    /\ Forall (fun ev => forall a, ev <> Opcheck.CallFunc (F := Demo.framework) a) post
    /\ Opcheck.world (Opcheck.wrapper (F := Demo.framework) Demo.Boom Demo.process0).2
       = 1%nat.
Proof.
  destruct (wrapper_validation_is_observational (F := Demo.framework)
              Demo.Boom Demo.process0) as [_ H].
  apply (H Demo.Boom eq_refl).
Defined.

(** * The path given to [register] *)

Lemma rsplit_dot_none (s : string) :
  Opcheck.rsplit_dot s = None <-> string_has (Ascii.eqb "."%char) s = false.
Proof.
  induction s as [|c s IH]; [simpl; tauto|].
  cbn [Opcheck.rsplit_dot string_has].
  destruct (Opcheck.rsplit_dot s) as [[b a]|].
  - split; [intros H; discriminate H|]. intros H.
    apply orb_false_iff in H as [_ H]. apply IH in H. discriminate H.
  - destruct (Ascii.eqb "."%char c); cbn [orb].
    + split; intros H; discriminate H.
    + split; [intros _; apply IH; reflexivity|intros _; reflexivity].
Qed.

Lemma rsplit_dot_some_inv (s m f : string) :
  Opcheck.rsplit_dot s = Some (m, f) ->
  s = (m ++ String "."%char f)%string /\ string_has (Ascii.eqb "."%char) f = false.
Proof.
  revert m f. induction s as [|c s IH]; intros m f H; [discriminate H|].
  cbn [Opcheck.rsplit_dot] in H.
  destruct (Opcheck.rsplit_dot s) as [[b a]|] eqn:Hs.
  - injection H as <- <-. destruct (IH b a eq_refl) as [-> Hf]. auto.
  - destruct (Ascii.eqb_spec "."%char c) as [<-|Hc]; [|discriminate].
    injection H as <- <-. split; [reflexivity|]. apply rsplit_dot_none. exact Hs.
Qed.

Lemma rsplit_dot_app (m f : string) :
  string_has (Ascii.eqb "."%char) f = false ->
  Opcheck.rsplit_dot (m ++ String "."%char f) = Some (m, f).
Proof.
  intros Hf. induction m as [|c m IH].
  - change (Opcheck.rsplit_dot (String "."%char f) = Some (EmptyString, f)).
    cbn [Opcheck.rsplit_dot].
    apply rsplit_dot_none in Hf. rewrite Hf. reflexivity.
  - change (Opcheck.rsplit_dot (String c (m ++ String "."%char f))
            = Some (String c m, f)).
    cbn [Opcheck.rsplit_dot]. rewrite IH. reflexivity.
Qed.

(** X20: [register] splits its path at the last dot: the module path and
    the function name put together with a dot give the path back and the
    function name holds no dot; a path without a dot is refused with
    [ValueError] (the unpacking of one value into two names). *)
Theorem split_op_path_at_last_dot (op_path : string) :
  (forall mod_path func_name,
      Opcheck.split_op_path op_path = Ok (mod_path, func_name)
      <-> op_path = (mod_path ++ String "."%char func_name)%string
          /\ string_has (Ascii.eqb "."%char) func_name = false)
  /\ (Opcheck.split_op_path op_path
      = Raise (ValueError "not enough values to unpack (expected 2, got 1)")
      <-> string_has (Ascii.eqb "."%char) op_path = false).
Proof.
  unfold Opcheck.split_op_path. split.
  - intros m f. split.
    + intros H. apply rsplit_dot_some_inv.
      destruct (Opcheck.rsplit_dot op_path) as [parts|]; [|discriminate].
      injection H as ->. reflexivity.
    + intros [-> Hf]. rewrite rsplit_dot_app by exact Hf. reflexivity.
  - rewrite <- rsplit_dot_none.
    destruct (Opcheck.rsplit_dot op_path) as [[b a]|]; split; auto; discriminate.
Qed.

Lemma split_op_path_at_last_dot_witness :
  Opcheck.split_op_path "tf.nn.relu" = Ok ("tf.nn"%string, "relu"%string)
  /\ Opcheck.split_op_path "relu"
     = Raise (ValueError "not enough values to unpack (expected 2, got 1)").
Proof.
  destruct (split_op_path_at_last_dot "tf.nn.relu") as [H1 _].
  destruct (split_op_path_at_last_dot "relu") as [_ H2].
  split; [apply H1; split; reflexivity|apply H2; reflexivity].
Defined.

(** * The lines of a section *)

Lemma is_newline_eq (c : ascii) : is_newline c = true -> c = newline.
Proof.
  unfold is_newline, newline. intros H. apply Nat.eqb_eq in H.
  rewrite <- (ascii_nat_embedding c), H. reflexivity.
Qed.

Lemma py_split_lines_not_nil (s : string) : py_split_lines s <> [].
Proof.
  destruct s as [|c s]; simpl; [discriminate|].
  destruct (is_newline c); [discriminate|].
  destruct (py_split_lines s); discriminate.
Qed.

(** X21: the lines a section is split into hold no newline, and put
    together with newlines they give the section back: every character of
    the statements and constraints sections reaches the grammar. *)
Theorem py_split_lines_round_trip (s : string) :
  String.concat (String newline EmptyString) (py_split_lines s) = s
  /\ Forall (fun line => string_has is_newline line = false) (py_split_lines s).
Proof.
  induction s as [|c s [IHc IHf]]; simpl.
  - split; [reflexivity|repeat constructor].
  - pose proof (py_split_lines_not_nil s) as Hne.
    destruct (is_newline c) eqn:Hc.
    + apply is_newline_eq in Hc. subst c. split.
      * destruct (py_split_lines s) as [|p ps] eqn:Hl; [contradiction|].
        change (String.concat (String newline EmptyString) (EmptyString :: p :: ps))
          with (String newline
                  (String.concat (String newline EmptyString) (p :: ps))).
        rewrite IHc. reflexivity.
      * constructor; [reflexivity|exact IHf].
    + destruct (py_split_lines s) as [|p ps] eqn:Hl; [contradiction|].
      cbn [cons_head]. split.
      * destruct ps as [|q qs].
        -- change (String c p = String c s). f_equal. exact IHc.
        -- change (String c (String.concat (String newline EmptyString) (p :: q :: qs))
                   = String c s).
           f_equal. exact IHc.
      * apply Forall_cons in IHf as [Hp Hps]. constructor; [|exact Hps].
        simpl. rewrite Hc, Hp. reflexivity.
Qed.

(** * Cross-validation *)

Lemma fst_zip_take {A B} (l : list A) (k : list B) : (zip l k).*1 = take (length k) l.
Proof.
  revert k. induction l as [|x l IH]; intros [|y k]; simpl; try reflexivity.
  rewrite IH. reflexivity.
Qed.

Lemma length_zip_min {A B} (l : list A) (k : list B) :
  length (zip l k) = Nat.min (length l) (length k).
Proof.
  revert k. induction l as [|x l IH]; intros [|y k]; simpl; try reflexivity.
  rewrite IH. reflexivity.
Qed.

Section ValidateFacts.
Context {C : Runtime.Collaborators} {AR : Tensor.Arith} {TV : Runtime.TensorValues C AR}.

(** The comprehension of [validate] on the pairs of [zip]: the values of
    the output references are read in order, and each verdict is
    [equal_tens] of the value read with the tensor it was paired with. *)
Lemma compare_outputs_verdicts (outs : list Runtime.Node) :
  forall (returned : list Runtime.PyVal) (rt rt' : Runtime.t C) (verdicts : list bool),
  list_comp Runtime.compare_output (zip outs returned) rt = (Ok verdicts, rt') ->
  exists values : list Runtime.PyVal,
    list_comp Runtime.output_value (take (length returned) outs) rt = (Ok values, rt')
    /\ Forall2 (fun b vt => Runtime.equal_tens_values vt.1 vt.2 = Ok b)
               verdicts (zip values returned)
    /\ length values = Nat.min (length outs) (length returned).
Proof.
  induction outs as [|o outs IH]; intros returned rt rt' verdicts H.
  - simpl in H. injection H as <- <-. exists []. rewrite take_nil.
    split; [reflexivity|]. split; [constructor|reflexivity].
  - destruct returned as [|t returned].
    + simpl in H. injection H as <- <-. exists [].
      split; [reflexivity|]. split; [constructor|reflexivity].
    + cbn [zip zip_with list_comp] in H.
      apply bind_ok in H as (b & rt1 & H1 & H).
      apply bind_ok in H as (bs & rt2 & H2 & H). injection H as <- <-.
      unfold Runtime.compare_output in H1.
      apply bind_ok in H1 as (v & rt0 & Hv & Hcmp). cbn [fst snd] in Hv, Hcmp.
      injection Hcmp as Hcmp <-.
      destruct (IH returned rt0 rt2 bs H2) as (values & Hvalues & Hall & Hlen).
      exists (v :: values). cbn [length take list_comp].
      unfold bind at 1. rewrite Hv. unfold bind at 1. rewrite Hvalues.
      split; [reflexivity|]. split.
      * cbn [zip zip_with]. constructor; [exact Hcmp|exact Hall].
      * simpl. rewrite Hlen. reflexivity.
Qed.

Lemma output_values_trace (outs : list Runtime.Node) :
  forall (rt rt' : Runtime.t C) (values : list Runtime.PyVal),
  list_comp Runtime.output_value outs rt = (Ok values, rt') ->
  Runtime.trace rt' = Runtime.trace rt ++ (Runtime.EvValue <$> outs)
  /\ Runtime.frame rt rt'.
Proof.
  induction outs as [|o outs IH]; intros rt rt' values H; simpl in H.
  - injection H as <- <-. split; [symmetry; apply app_nil_r|apply frame_refl].
  - apply bind_ok in H as (v & rt1 & H1 & H).
    apply bind_ok in H as (vs & rt2 & H2 & H). injection H as <- <-.
    unfold Runtime.output_value in H1.
    pose proof (framed_eq _ _ _ _ (framed_call _ _) H1) as F1.
    apply call_trace in H1. apply IH in H2 as (T2 & F2).
    split; [rewrite T2, H1, <- app_assoc; reflexivity|].
    eapply frame_trans; eassumption.
Qed.

(** X22: a [validate] that returns has evaluated the statements in order
    and then the call node; [returned] is what iterating the value of the
    call node gives.  It then read the values of the first declared
    outputs in order, as many as there are returned values, and the
    verdict at each position is [equal_tens] of the value of the declared
    output with the returned value at that position, at the tolerance
    [1e-6].  A declared output beyond what the operation returned is
    neither evaluated nor compared, and the constraints are left as they
    were. *)
Theorem validate_compares_pairwise
        (rt rt' : Runtime.t C) (sts : list Runtime.Node) (cl : Runtime.Node)
        (outs : list Runtime.Node) (verdicts : list bool) :
  Runtime.statements rt = Some sts ->
  Runtime.tf_call rt = Some cl ->
  Runtime.out_args rt = Some outs ->
  Runtime.validate rt = (Ok verdicts, rt') ->
  exists (rt1 rt2 : Runtime.t C) (tf_outputs : Runtime.PyVal)
         (returned values : list Runtime.PyVal),
    for_each Runtime.evaluate_statement sts rt = (Ok tt, rt1)
    /\ Runtime.output_value cl rt1 = (Ok tf_outputs, rt2)
    /\ Runtime.py_iter tf_outputs = Ok returned
    /\ list_comp Runtime.output_value (take (length returned) outs) rt2
       = (Ok values, rt')
    /\ Forall2 (fun b vt => Runtime.equal_tens_values vt.1 vt.2 = Ok b)
               verdicts (zip values returned)
    /\ length verdicts = Nat.min (length outs) (length returned)
    /\ Runtime.trace rt'
       = Runtime.trace rt
         ++ (Runtime.EvEvaluate <$> sts)
         ++ [Runtime.EvValue cl]
         ++ (Runtime.EvValue <$> take (length returned) outs)
    /\ Runtime.constraints rt' = Runtime.constraints rt.
Proof.
  intros Hs Hcl Ho H. unfold Runtime.validate in H.
  apply bind_ok in H as (sts0 & r0 & H0 & H).
  unfold Runtime.read_attr in H0. rewrite Hs in H0. injection H0 as <- <-.
  apply bind_ok in H as (u & rt1 & H1 & H). destruct u.
  pose proof (framed_eq _ _ _ _
                (framed_for_each Runtime.evaluate_statement sts
                   (fun st => framed_call _ _)) H1) as (_ & K1 & C1 & O1 & _).
  pose proof (evaluate_in_order _ _ _ H1) as T1.
  apply bind_ok in H as (cl0 & r2 & H2 & H).
  unfold Runtime.read_attr in H2. rewrite C1, Hcl in H2. injection H2 as <- <-.
  apply bind_ok in H as (tf_outputs & rt2 & H3 & H).
  pose proof (framed_eq _ _ _ _ (framed_call _ _) H3) as (_ & K3 & _ & O3 & _).
  pose proof (call_trace _ _ _ _ _ H3) as T3.
  apply bind_ok in H as (outs0 & r4 & H4 & H).
  unfold Runtime.read_attr in H4. rewrite O3, O1, Ho in H4. injection H4 as <- <-.
  apply bind_ok in H as (returned & r5 & H5 & H).
  injection H5 as H5 <-.
  destruct (compare_outputs_verdicts outs returned rt2 rt' verdicts H)
    as (values & Hvalues & Hall & Hlen).
  destruct (output_values_trace _ _ _ _ Hvalues) as (T5 & _ & K5 & _).
  exists rt1, rt2, tf_outputs, returned, values.
  split; [exact H1|]. split; [exact H3|]. split; [exact H5|].
  split; [exact Hvalues|]. split; [exact Hall|]. split; [|split].
  - apply Forall2_length in Hall. rewrite Hall, length_zip_min, Hlen. lia.
  - rewrite T5, T3, T1, <- !app_assoc. reflexivity.
  - congruence.
Qed.

End ValidateFacts.

(** Two declared outputs, one returned tensor: one verdict, [True] since
    the tensors are equal, and the second output is not evaluated. *)
Lemma validate_compares_pairwise_witness :
  let x := Demo.int_vector [1; 2] in
  let y := Demo.int_vector [3] in
  let rt := Demo.two_outputs (Demo.TTuple [x]) in
  let validated := Runtime.validate (TV := Demo.tensor_values) rt in
  validated.1 = Ok [true]
  /\ exists (rt1 rt2 : Runtime.t Demo.tensor_grammar)
            (tf_outputs : @Runtime.PyVal Demo.tensor_grammar)
            (returned values : list (@Runtime.PyVal Demo.tensor_grammar)),
       for_each (Runtime.evaluate_statement (C := Demo.tensor_grammar))
                [Demo.TStatement "a"; Demo.TStatement "b"] rt = (Ok tt, rt1)
       /\ Runtime.output_value (C := Demo.tensor_grammar)
            (Demo.TCall (Demo.TTuple [x])) rt1 = (Ok tf_outputs, rt2)
       /\ Runtime.py_iter (TensorValues := Demo.tensor_values) tf_outputs = Ok returned
       /\ list_comp (Runtime.output_value (C := Demo.tensor_grammar))
                    (take (length returned) [Demo.TOut "x" x; Demo.TOut "y" y]) rt2
          = (Ok values, validated.2)
       /\ Forall2 (fun b vt =>
                     Runtime.equal_tens_values (TV := Demo.tensor_values) vt.1 vt.2 = Ok b)
                  [true] (zip values returned)
       /\ length [true] = Nat.min 2 (length returned)
       /\ Runtime.trace validated.2
          = Runtime.trace rt
            ++ (Runtime.EvEvaluate (C := Demo.tensor_grammar)
                  <$> [Demo.TStatement "a"; Demo.TStatement "b"])
            ++ [Runtime.EvValue (C := Demo.tensor_grammar) (Demo.TCall (Demo.TTuple [x]))]
            ++ (Runtime.EvValue (C := Demo.tensor_grammar)
                  <$> take (length returned) [Demo.TOut "x" x; Demo.TOut "y" y])
       /\ Runtime.constraints validated.2 = Runtime.constraints rt.
Proof.
  intros x y rt validated. split; [reflexivity|].
  apply (validate_compares_pairwise (TV := Demo.tensor_values) rt validated.2
           [Demo.TStatement "a"; Demo.TStatement "b"]
           (Demo.TCall (Demo.TTuple [x]))
           [Demo.TOut "x" x; Demo.TOut "y" y]
           [true]); reflexivity.
Defined.

(** An operation that returns one tensor and not a tuple: the vector is
    iterated over, its scalar slices are paired with the declared outputs,
    and the shapes differ. *)
Lemma validate_single_tensor_example :
  (Runtime.validate (TV := Demo.tensor_values)
     (Demo.two_outputs (Demo.TOne (Demo.int_vector [1; 2])))).1
  = Ok [false; false].
Proof. reflexivity. Qed.

(** * [cycle] *)

Lemma length_itertools_product {A} (pools : list (list A)) :
  Z.of_nat (length (Runtime.itertools_product pools))
  = product ((fun pool => Z.of_nat (length pool)) <$> pools).
Proof.
  induction pools as [|pool pools IH]; [reflexivity|].
  cbn [Runtime.itertools_product fmap list_fmap product fold_right].
  fold (product ((fun pool => Z.of_nat (length pool)) <$> pools)).
  rewrite (length_concat_uniform _ (length (Runtime.itertools_product pools))).
  - rewrite length_fmap, Nat2Z.inj_mul, IH. reflexivity.
  - apply Forall_fmap, Forall_forall. intros x _. simpl. apply length_fmap.
Qed.

Section CycleFacts.
Context {X : Type}.

Lemma runtime_dims_inv (e : Runtime.Env X) (nm : string) (ds : list Z) :
  Runtime.dims e nm = Ok ds ->
  exists tp, dict_get nm (Runtime.tups e) = Some tp
             /\ EinTup.dims tp (Runtime.shapes e) = Ok ds.
Proof.
  unfold Runtime.dims, Runtime.tup.
  destruct (dict_get nm (Runtime.tups e)) as [tp|]; [|discriminate].
  simpl. eauto.
Qed.

Lemma exhaust_ok (fuel : nat) (nm : string) (e : Runtime.Env X) (ds : list Z) :
  Runtime.dims e nm = Ok ds ->
  Forall (fun d => 0 <= d) ds ->
  (length (ndindex_list ds) < fuel)%nat ->
  exists e',
    Runtime.exhaust fuel nm e = Some (Ok (ndindex_list ds), e')
    /\ Runtime.shapes e' = Runtime.shapes e
    /\ forall k, Runtime.dims e' k = Runtime.dims e k.
Proof.
  intros Hd Hnn Hfuel.
  destruct (runtime_dims_inv e nm ds Hd) as (tp & Hget & Hdims).
  destruct (iterate_from_any_state tp (Runtime.shapes e) ds fuel Hdims Hnn Hfuel)
    as (tp' & Hit & Hshape).
  unfold Runtime.exhaust. rewrite Hget, Hit.
  eexists. split; [reflexivity|]. split; [reflexivity|].
  intros k. unfold Runtime.dims, Runtime.tup. simpl.
  destruct (String.eqb_spec k nm) as [->|Hne].
  - rewrite dict_get_set_eq, Hget. simpl. unfold EinTup.dims. rewrite Hshape.
    reflexivity.
  - rewrite dict_get_set_ne by exact Hne. reflexivity.
Qed.

Lemma exhaust_all_ok (fuel : nat) (names : list string) (dimss : list (list Z)) :
  Forall (fun ds => Forall (fun d => 0 <= d) ds
                    /\ (length (ndindex_list ds) < fuel)%nat) dimss ->
  forall e : Runtime.Env X,
  Forall2 (fun nm ds => Runtime.dims e nm = Ok ds) names dimss ->
  exists e',
    Runtime.exhaust_all fuel names e = Some (Ok (ndindex_list <$> dimss), e')
    /\ Runtime.shapes e' = Runtime.shapes e
    /\ forall k, Runtime.dims e' k = Runtime.dims e k.
Proof.
  intros Hall e Hdims. revert e Hall Hdims.
  revert dimss. induction names as [|nm names IH]; intros dimss e Hall Hdims.
  - inversion Hdims; subst. exists e. simpl. auto.
  - inversion Hdims as [|? ds ? dimss' Hd Hrest]; subst.
    apply Forall_cons in Hall as [[Hnn Hfuel] Hall].
    destruct (exhaust_ok fuel nm e ds Hd Hnn Hfuel) as (e1 & Hex & Hs1 & Hk1).
    destruct (IH dimss' e1 Hall) as (e2 & Hex2 & Hs2 & Hk2).
    { eapply Forall2_impl; [exact Hrest|]. intros k ds0 Hk. simpl in *.
      rewrite Hk1. exact Hk. }
    exists e2. cbn [Runtime.exhaust_all]. rewrite Hex, Hex2.
    split; [reflexivity|]. split; [congruence|].
    intros k. rewrite Hk2, Hk1. reflexivity.
Qed.

Lemma lookup_all_ok (e : Runtime.Env X) (names : list string) (dimss : list (list Z)) :
  Forall2 (fun nm ds => Runtime.dims e nm = Ok ds) names dimss ->
  exists tps, Runtime.lookup_all e names = Ok tps.
Proof.
  induction 1 as [|nm ds names dimss Hd Hrest [tps IH]]; simpl; [eauto|].
  destruct (runtime_dims_inv e nm ds Hd) as (tp & Hget & _).
  unfold Runtime.tup. rewrite Hget. simpl. rewrite IH. simpl. eauto.
Qed.

(** X23: [cycle] over registered groups whose dims are set yields the
    product of their index sequences, the last group varying fastest;
    the number of tuples is the exact product of the element counts of
    the groups (one empty tuple for no group at all), and the dims of
    every group are as before. *)
Theorem cycle_yields_product
        (fuel : nat) (names : list string) (dimss : list (list Z)) (e : Runtime.Env X) :
  Forall2 (fun nm ds => Runtime.dims e nm = Ok ds) names dimss ->
  Forall (fun ds => Forall (fun d => 0 <= d) ds
                    /\ (length (ndindex_list ds) < fuel)%nat) dimss ->
  exists e',
    Runtime.cycle fuel names e
    = Some (Ok (Runtime.itertools_product (ndindex_list <$> dimss)), e')
    /\ Z.of_nat (length (Runtime.itertools_product (ndindex_list <$> dimss)))
       = product (product <$> dimss)
    /\ forall k, Runtime.dims e' k = Runtime.dims e k.
Proof.
  intros Hdims Hall.
  destruct (lookup_all_ok e names dimss Hdims) as (tps & Hl).
  destruct (exhaust_all_ok fuel names dimss Hall e Hdims) as (e' & Hex & _ & Hk).
  exists e'. unfold Runtime.cycle. rewrite Hl, Hex.
  split; [reflexivity|]. split; [|exact Hk].
  rewrite length_itertools_product, <- list_fmap_compose. f_equal.
  clear -Hall. induction Hall as [|ds dimss [Hnn _] Hrest IH]; [reflexivity|].
  simpl. rewrite (length_ndindex_list ds Hnn). f_equal. exact IH.
Qed.

(** X24: [cycle] looks every name up before it iterates any group: when
    one of the names is not registered it raises [RuntimeError] and no
    group has been touched. *)
Theorem cycle_unknown_name_raises
        (fuel : nat) (names : list string) (nm : string) (e : Runtime.Env X) :
  nm ∈ names ->
  dict_get nm (Runtime.tups e) = None ->
  Runtime.cycle fuel names e
  = Some (Raise (RuntimeError "Runtime::tup() got unknown eintup name"), e).
Proof.
  intros Hin Hnone. unfold Runtime.cycle.
  assert (Hl : Runtime.lookup_all e names
               = Raise (RuntimeError "Runtime::tup() got unknown eintup name")).
  { induction names as [|k names IH]; [inversion Hin|].
    simpl. unfold Runtime.tup at 1.
    destruct (dict_get k (Runtime.tups e)) as [tp|] eqn:Hk; [|reflexivity].
    simpl. apply elem_of_cons in Hin as [->|Hin]; [congruence|].
    rewrite IH by exact Hin. reflexivity. }
  rewrite Hl. reflexivity.
Qed.

End CycleFacts.

Lemma cycle_yields_product_witness :
  let e := Runtime.env (Runtime.set_dims (C := Demo.grammar)
                          [("batch", [2]); ("slice", [1; 2])] (Demo.two_groups [])).2 in
  exists e',
    Runtime.cycle 5 ["slice"; "batch"; "other"] e
    = Some (Ok (Runtime.itertools_product
                  (ndindex_list <$> [[1; 2]; [2]; [2]])), e')
    /\ Z.of_nat (length (Runtime.itertools_product
                           (ndindex_list <$> [[1; 2]; [2]; [2]])))
       = product (product <$> [[1; 2]; [2]; [2]])
    /\ forall k, Runtime.dims e' k = Runtime.dims e k.
Proof.
  intros e.
  apply (cycle_yields_product 5 ["slice"; "batch"; "other"] [[1; 2]; [2]; [2]] e).
  - repeat (constructor; [reflexivity|]). constructor.
  - repeat (constructor;
            [split; [repeat (constructor; [lia|]); constructor|vm_compute; lia]|]).
    constructor.
Defined.

Lemma cycle_unknown_name_raises_witness :
  let e := Runtime.env (Runtime.set_dims (C := Demo.grammar)
                          [("batch", [2]); ("slice", [1; 2])] (Demo.two_groups [])).2 in
  Runtime.cycle 5 ["slice"; "nobody"] e
  = Some (Raise (RuntimeError "Runtime::tup() got unknown eintup name"), e).
Proof.
  intros e. apply (cycle_unknown_name_raises 5 ["slice"; "nobody"] "nobody" e).
  - apply list_elem_of_In. simpl. auto.
  - reflexivity.
Defined.
